(** * spendy-pants: a shallow embedding of [functions/main.py]

  The Telegram receipt bot keeps three Firestore collections
  ([user_profiles], [groups], [receipts]) and answers every webhook
  update by sending or editing chat messages.  This development embeds
  the profile and group helpers, the receipt store (edit, delete,
  aggregation) and the webhook dispatcher as executable Rocq functions
  over an explicit store and an explicit outbox, and states the
  properties of the specification over them.

  Conventions.
  - Python values that reach Firestore are [pyval]; a [dict] is a finite
    map from field names to values.
  - Python [str] is modelled by byte strings; the string builtins below
    are the ASCII fragment of the Python ones.
  - Python [float] is IEEE binary64, i.e. Rocq's primitive [float].
  - Everything the program obtains from its environment (the clock, the
    configured admin id, Firestore's id generator and value order, the
    Gemini call, CPython's number formatting and parsing) is a field of
    [Env]. *)

From stdpp Require Import gmap strings list fin_maps.
From Stdlib Require Import Ascii Floats DecimalString.

Set Warnings "-register-all".

(** ** Python string builtins (ASCII fragment) *)

Module Py.

(** [str.isspace] on one character: TAB..CR, FS..US and the blank. *)
Definition isspace (c : ascii) : bool :=
  let n := nat_of_ascii c in
  ((9 <=? n)%nat && (n <=? 13)%nat) || ((28 <=? n)%nat && (n <=? 32)%nat).

Fixpoint lstrip (s : string) : string :=
  match s with
  | String c r => if isspace c then lstrip r else s
  | EmptyString => EmptyString
  end.

Definition rstrip (s : string) : string := String.rev (lstrip (String.rev s)).

(** [s.strip()] *)
Definition strip (s : string) : string := rstrip (lstrip s).

Definition lower_ascii (c : ascii) : ascii :=
  let n := nat_of_ascii c in
  if (65 <=? n)%nat && (n <=? 90)%nat then ascii_of_nat (n + 32) else c.

(** [s.lower()] *)
Fixpoint lower (s : string) : string :=
  match s with
  | String c r => String (lower_ascii c) (lower r)
  | EmptyString => EmptyString
  end.

(** [s.startswith(p)] *)
Definition startswith (s p : string) : bool := String.prefix p s.

(** [c in s] for a one-character needle. *)
Fixpoint contains_char (c : ascii) (s : string) : bool :=
  match s with
  | String d r => if Ascii.eqb c d then true else contains_char c r
  | EmptyString => false
  end.

(** The longest prefix without white space, and what follows it. *)
Fixpoint break_space (s : string) : string * string :=
  match s with
  | String c r =>
      if isspace c then (EmptyString, s)
      else let '(w, rest) := break_space r in (String c w, rest)
  | EmptyString => (EmptyString, EmptyString)
  end.

(** [s.split(maxsplit=1)]: no piece for a blank string, else the first
    word and, when something other than white space follows it, the
    remainder with its leading white space removed. *)
Definition split_maxsplit1 (s : string) : list string :=
  match lstrip s with
  | EmptyString => []
  | s1 =>
      let '(w, rest) := break_space s1 in
      match lstrip rest with
      | EmptyString => [w]
      | r => [w; r]
      end
  end.

(** [s.split()]: the words of [s]. *)
Fixpoint split_go (cur : option string) (s : string) : list string :=
  match s with
  | EmptyString => option_list (String.rev <$> cur)
  | String c r =>
      if isspace c then option_list (String.rev <$> cur) ++ split_go None r
      else split_go (Some (String c (default EmptyString cur))) r
  end.
Definition split (s : string) : list string := split_go None s.

(** [s.split(sep)] for a one-character separator: never empty. *)
Fixpoint split_on_go (sep : ascii) (cur : string) (s : string) : list string :=
  match s with
  | EmptyString => [String.rev cur]
  | String c r =>
      if Ascii.eqb c sep then String.rev cur :: split_on_go sep EmptyString r
      else split_on_go sep (String c cur) r
  end.
Definition split_on (sep : ascii) (s : string) : list string :=
  split_on_go sep EmptyString s.

(** [s.split(sep, 1)] for a one-character separator. *)
Fixpoint split_on1_go (sep : ascii) (cur : string) (s : string) : list string :=
  match s with
  | EmptyString => [String.rev cur]
  | String c r =>
      if Ascii.eqb c sep then [String.rev cur; r]
      else split_on1_go sep (String c cur) r
  end.
Definition split_on1 (sep : ascii) (s : string) : list string :=
  split_on1_go sep EmptyString s.

(** [s.replace(old, "")] for a non-empty [old]: every occurrence, found
    left to right without overlap, is dropped.  [skip] counts the
    characters of the current occurrence still to drop. *)
Fixpoint remove_go (old : string) (skip : nat) (s : string) : string :=
  match s with
  | EmptyString => EmptyString
  | String c r =>
      match skip with
      | S k => remove_go old k r
      | O =>
          if String.prefix old s then remove_go old (String.length old - 1) r
          else String c (remove_go old 0 r)
      end
  end.
Definition remove_all (old s : string) : string :=
  match old with
  | EmptyString => s
  | _ => remove_go old 0 s
  end.

(** [s[:n]] *)
Definition take (n : nat) (s : string) : string := String.substring 0 n s.

(** [str(z)] for an [int]. *)
Definition str_of_Z (z : Z) : string := NilZero.string_of_int (Z.to_int z).

(** [sep.join(l)] *)
Definition join (sep : string) (l : list string) : string := String.concat sep l.

End Py.


(** Characters that cannot be written inside a string literal. *)
Definition nl : string := String "010"%char EmptyString.
Definition dq : string := String "034"%char EmptyString.

(** ** Python values and dictionaries *)

(** The values a Firestore document or a parsed JSON text can hold, plus
    the [firestore.SERVER_TIMESTAMP] sentinel that only in-memory
    dictionaries carry (a write replaces it by the server's time). *)
Inductive pyval :=
| PNone
| PBool (b : bool)
| PInt (z : Z)
| PFloat (f : float)
| PStr (s : string)
| PList (l : list pyval)
| PDict (d : gmap string pyval)
| PTimestamp (t : Z)
| SERVER_TIMESTAMP.

Abbreviation dict := (gmap string pyval).

(** [bool(v)] *)
Definition py_truthy (v : pyval) : bool :=
  match v with
  | PNone => false
  | PBool b => b
  | PInt z => negb (z =? 0)%Z
  | PFloat f => negb (PrimFloat.eqb f 0%float)
  | PStr s => negb (String.eqb s "")
  | PList l => match l with [] => false | _ => true end
  | PDict d => negb (bool_decide (size d = 0))
  | PTimestamp _ => true
  | SERVER_TIMESTAMP => true
  end.

(** [d.get(k)] and [d.get(k, dflt)] *)
Definition py_get (d : dict) (k : string) : pyval := default PNone (d !! k).
Definition py_get_default (d : dict) (k : string) (dflt : pyval) : pyval :=
  default dflt (d !! k).

(** [v is None] *)
Definition is_None (v : pyval) : bool :=
  match v with PNone => true | _ => false end.

(** [isinstance(v, (int, float))]; in Python [bool] is a subclass of
    [int], so [True] and [False] pass the test as well. *)
Definition isinstance_int_float (v : pyval) : bool :=
  match v with
  | PBool _ | PInt _ | PFloat _ => true
  | _ => false
  end.

(** [float(z)] for an [int]: exact up to [2^53] in magnitude. *)
Fixpoint float_of_pos (p : positive) : float :=
  match p with
  | xH => 1%float
  | xO q => (2 * float_of_pos q)%float
  | xI q => (2 * float_of_pos q + 1)%float
  end.
Definition float_of_Z (z : Z) : float :=
  match z with
  | Z0 => 0%float
  | Zpos p => float_of_pos p
  | Zneg p => (- float_of_pos p)%float
  end.

(** The [float] a number converts to in mixed arithmetic. *)
Definition as_float (v : pyval) : float :=
  match v with
  | PBool b => if b then 1%float else 0%float
  | PInt z => float_of_Z z
  | PFloat f => f
  | _ => PrimFloat.nan
  end.

(** [a == b].  Numbers compare by value across [bool], [int] and
    [float] (through [float_of_Z], hence exactly up to [2^53]); containers
    compare element by element. *)
Fixpoint py_eq (a b : pyval) {struct a} : bool :=
  match a, b with
  | PNone, PNone => true
  | PBool x, PBool y => bool_decide (x = y)
  | PBool x, PInt z | PInt z, PBool x => (Z.b2z x =? z)%Z
  | PInt x, PInt y => (x =? y)%Z
  | PFloat f, (PBool _ | PInt _ | PFloat _) => PrimFloat.eqb f (as_float b)
  | (PBool _ | PInt _), PFloat g => PrimFloat.eqb (as_float a) g
  | PStr s, PStr t => String.eqb s t
  | PTimestamp s, PTimestamp t => (s =? t)%Z
  | SERVER_TIMESTAMP, SERVER_TIMESTAMP => true
  | PList l, PList m =>
      (fix go (l m : list pyval) {struct l} : bool :=
         match l, m with
         | [], [] => true
         | x :: l', y :: m' => py_eq x y && go l' m'
         | _, _ => false
         end) l m
  | PDict d, PDict e =>
      bool_decide (size d = size e) &&
      map_fold (λ k v acc,
                acc && match e !! k with Some w => py_eq v w | None => false end)
               true d
  | _, _ => false
  end.

(** [v == s] for a [str] [s]. *)
Definition py_eq_str (v : pyval) (s : string) : bool := py_eq v (PStr s).

(** ** The Firestore document store *)

(** [db]: the three collections, each a map from document id to fields. *)
Record Store := mkStore {
  user_profiles : gmap string dict;
  groups : gmap string dict;
  receipts : gmap string dict
}.

Definition set_user_profiles (f : gmap string dict → gmap string dict) (s : Store) : Store :=
  mkStore (f (user_profiles s)) (groups s) (receipts s).
Definition set_groups (f : gmap string dict → gmap string dict) (s : Store) : Store :=
  mkStore (user_profiles s) (f (groups s)) (receipts s).
Definition set_receipts (f : gmap string dict → gmap string dict) (s : Store) : Store :=
  mkStore (user_profiles s) (groups s) (f (receipts s)).

(** A write stores the server's time in place of every
    [SERVER_TIMESTAMP] field. *)
Definition resolve (now : Z) (d : dict) : dict :=
  (λ v, match v with SERVER_TIMESTAMP => PTimestamp now | _ => v end) <$> d.

(** [ref.set(data)]: the document becomes exactly [data]. *)
Definition fs_set (now : Z) (id : string) (data : dict) (c : gmap string dict) : gmap string dict :=
  <[id := resolve now data]> c.

(** [ref.set(data, merge=True)]: the fields of [data] are written over
    the document's, which is created when missing. *)
Definition fs_set_merge (now : Z) (id : string) (data : dict) (c : gmap string dict) : gmap string dict :=
  <[id := resolve now data ∪ default ∅ (c !! id)]> c.

(** [ref.update(fields)] on a document that exists.  Every call site
    below has read the document (or a profile field that only an existing
    document can hold) just before; on a missing document Firestore
    raises and nothing is written, which [alter] renders as no change. *)
Definition fs_update (id : string) (f : dict → dict) (c : gmap string dict) : gmap string dict :=
  alter f id c.

(** [ref.delete()] *)
Definition fs_delete (id : string) (c : gmap string dict) : gmap string dict :=
  delete id c.

(** [firestore.ArrayRemove([x])] applied to field [k]: every element
    equal to [x] goes; a field that holds no array becomes the empty
    array. *)
Definition array_remove (k : string) (x : pyval) (d : dict) : dict :=
  match d !! k with
  | Some (PList l) => <[k := PList (filter (λ y, py_eq y x = false) l)]> d
  | _ => <[k := PList []]> d
  end.

(** The documents of a collection in the order a query streams them,
    each with its id. *)
Definition stream (c : gmap string dict) : list (string * dict) := map_to_list c.

(** ** Outbound Telegram calls *)

Inductive InlineKeyboardMarkup :=
| Keyboard (rows : list (list (string * string))).

Inductive Outbound :=
| send_message (chat_id : pyval) (text : string)
               (reply_markup : option InlineKeyboardMarkup) (parse_mode : option string)
| answer_callback_query (callback_query_id : string).

(** ** Exceptions *)

Inductive exn :=
| NameError (name : string)
| TypeError (msg : string)
| ValueError (msg : string)
| AttributeError (msg : string)
| OverflowError (msg : string)
| ConnectionError (msg : string)
| TelegramError (msg : string).

Inductive outcome (A : Type) :=
| Ret (a : A)
| Raise (e : exn).
Arguments Ret {A} a.
Arguments Raise {A} e.

(** ** The environment *)

(** What the process takes from outside: configuration, Firestore's id
    generator and value order, CPython builtins on numbers, and the
    Gemini and file-download calls. *)
Record Env := mkEnv {
  (** [os.environ.get("ADMIN_USER_ID")] *)
  ADMIN_USER_ID : option string;
  (** [db] is set (truthy) *)
  db_initialized : bool;
  (** [bot] is set *)
  bot_initialized : bool;
  (** the id Firestore generates for a new document of a collection *)
  auto_id : gmap string dict → string;
  (** Firestore's order on field values, for [order_by] *)
  fs_leb : pyval → pyval → bool;
  (** [str(v)], as an f-string interpolates a value *)
  py_str : pyval → string;
  (** [format(x, ".2f")] for a [float] *)
  format_2f : float → string;
  (** [float(s)]; [None] for [ValueError] *)
  py_float : string → option float;
  (** [int(s)]; [None] for [ValueError] *)
  py_int : string → option Z;
  (** [round(x, 2)] *)
  py_round2 : float → float;
  (** [datetime.strptime(s, "%Y-%m-%d")] succeeds *)
  strptime_ymd : string → bool;
  (** [bot.get_file] and [requests.get]: the bytes of a Telegram file, or
      the exception raised on the way *)
  download_file : string → exn + string;
  (** [call_llm_for_receipt] on image bytes and a MIME type: the parsed
      Gemini answer, or the exception it raises *)
  call_llm_for_receipt : string → string → exn + pyval;
  (** [json.loads(s)]: the value, or the message of the
      [JSONDecodeError] *)
  json_loads : string → string + pyval;
  (** group 1 of the first match of the code-fence pattern of
      [clean_llm_json_output] in [s], if any *)
  re_search_fence : string → option string
}.

(** The mutable world of one process: the database, the messages sent so
    far, the server clock that stamps writes and the local calendar date
    ([datetime.now()] as year, month, day). *)
Record World := mkWorld {
  db : Store;
  outbox : list Outbound;
  clock : Z;
  today : Z * Z * Z
}.

Definition with_db (f : Store → Store) (w : World) : World :=
  mkWorld (f (db w)) (outbox w) (clock w) (today w).
Definition emit (o : Outbound) (w : World) : World :=
  mkWorld (db w) (outbox w ++ [o]) (clock w) (today w).

(** ** The monad of handlers: state, outbox and exceptions *)

(** A computation runs on a world and leaves a world; what it did before
    raising stays done. *)
Definition M (A : Type) : Type := World → outcome A * World.

#[export] Instance M_ret : MRet M := λ A a w, (Ret a, w).
#[export] Instance M_bind : MBind M := λ A B f m w,
  match m w with
  | (Ret a, w') => f a w'
  | (Raise e, w') => (Raise e, w')
  end.

Definition raise {A : Type} (e : exn) : M A := λ w, (Raise e, w).
Definition get_world : M World := λ w, (Ret w, w).
Definition modify (f : World → World) : M unit := λ w, (Ret tt, f w).

(** [try: m  except Exception as e: h e] *)
Definition try_except {A : Type} (m : M A) (h : exn → M A) : M A := λ w,
  match m w with
  | (Ret a, w') => (Ret a, w')
  | (Raise e, w') => h e w'
  end.

(** [db.collection(c).document(id)] takes a [str]; the client refuses
    any other value. *)
Definition document (id : pyval) : M string :=
  match id with
  | PStr s => mret s
  | _ => raise (ValueError "document path element is not a string")
  end.

(** Reads and writes of the three collections. *)
Definition get_doc (coll : Store → gmap string dict) (id : string) : M (option dict) :=
  w ← get_world; mret (coll (db w) !! id).
Definition write_profiles (f : Z → gmap string dict → gmap string dict) : M unit :=
  modify (λ w, with_db (set_user_profiles (f (clock w))) w).
Definition write_groups (f : Z → gmap string dict → gmap string dict) : M unit :=
  modify (λ w, with_db (set_groups (f (clock w))) w).
Definition write_receipts (f : Z → gmap string dict → gmap string dict) : M unit :=
  modify (λ w, with_db (set_receipts (f (clock w))) w).

(** [bot.send_message(...)]: the call is recorded in the outbox. *)
Definition bot_send_message (chat_id : pyval) (text : string)
    (reply_markup : option InlineKeyboardMarkup) (parse_mode : option string) : M unit :=
  modify (emit (send_message chat_id text reply_markup parse_mode)).

(** [for x in l: body x] *)
Fixpoint for_each {A : Type} (l : list A) (body : A → M unit) : M unit :=
  match l with
  | [] => mret tt
  | x :: l' => _ ← body x; for_each l' body
  end.

(** The elements a [for] loop visits: a list's items, a string's
    characters, a dictionary's keys; other values are not iterable. *)
Definition py_iter (v : pyval) : M (list pyval) :=
  match v with
  | PList l => mret l
  | PStr s => mret ((λ c, PStr (String c EmptyString)) <$> String.list_ascii_of_string s)
  | PDict d => mret ((λ kv, PStr kv.1) <$> map_to_list d)
  | _ => raise (TypeError "object is not iterable")
  end.

(** ** Telegram updates and HTTP *)

Record Document := mkDocument {
  doc_mime_type : option string;
  doc_file_name : option string;
  doc_file_id : string
}.

(** [update.message] (also [update.callback_query.message]); [msg_photo]
    lists the file ids of the photo sizes. *)
Record Message := mkMessage {
  msg_chat_id : Z;
  msg_from_user : option Z;
  msg_text : option string;
  msg_photo : list string;
  msg_document : option Document;
  msg_message_id : Z
}.

Record CallbackQuery := mkCallbackQuery {
  cq_id : string;
  cq_from_user : Z;
  cq_message : option Message;
  cq_data : option string
}.

Record Update := mkUpdate {
  upd_message : option Message;
  upd_callback_query : option CallbackQuery
}.

(** What [req.json] yields. *)
Inductive Body :=
| Unparseable
| NotAnObject
| EmptyObject
| UpdateJson (u : Update).

Record Request := mkRequest {
  req_method : string;
  req_json : Body
}.

Inductive Response :=
| HttpResponse (body : string) (status : nat).

Section WithEnv.
Context (E : Env).

(** [str(v)] as an f-string interpolates it; the text of floats,
    containers and timestamps is the environment's. *)
Definition fstr (v : pyval) : string :=
  match v with
  | PStr s => s
  | PNone => "None"
  | PBool true => "True"
  | PBool false => "False"
  | PInt z => Py.str_of_Z z
  | _ => py_str E v
  end.

(** [f"{v:.2f}"]: numbers only; [str] raises [ValueError], the other
    types [TypeError]. *)
Definition fmt_2f (v : pyval) : M string :=
  match v with
  | PBool _ | PInt _ | PFloat _ => mret (format_2f E (as_float v))
  | PStr _ => raise (ValueError "Unknown format code 'f' for object of type 'str'")
  | _ => raise (TypeError "unsupported format string passed to __format__")
  end.

(** ** Firestore group and user profile helpers *)

Definition get_user_profile (user_id_str : string) : M (option dict) :=
  if negb (db_initialized E) then mret None
  else get_doc user_profiles user_id_str.

(** [user_id_str == ADMIN_USER_ID and ADMIN_USER_ID is not None] *)
Definition is_user_admin (user_id_str : string) : bool :=
  match ADMIN_USER_ID E with
  | Some a => String.eqb user_id_str a
  | None => false
  end.

(** A profile as a truth value: [None] and the empty dictionary are
    false. *)
Definition profile_truthy (p : option dict) : bool :=
  match p with
  | Some d => py_truthy (PDict d)
  | None => false
  end.

Definition welcome_text (user_id_str : string) : string :=
  "Welcome! To use this service, your account needs approval." +:+ nl +:+
  "Your User ID is: `" +:+ user_id_str +:+ "`" +:+ nl +:+
  "Please send this ID to the administrator.".

Definition ensure_user_profile_exists (user_id_str : string) (chat_id_for_message : pyval) : M dict :=
  if negb (db_initialized E) then raise (ConnectionError "Database client could not be initialized.")
  else
    profile ← get_user_profile user_id_str;
    if negb (profile_truthy profile) then
      let is_admin_creating_own_profile := is_user_admin user_id_str in
      let default_status :=
        if is_admin_creating_own_profile then "approved" else "pending_approval" in
      let new_profile_data : dict :=
        {[ "telegramUserId" := PStr user_id_str;
           "groupId" := PNone;
           "status" := PStr default_status;
           "requestedAt" := SERVER_TIMESTAMP;
           "createdAt" := SERVER_TIMESTAMP ]} in
      _ ← write_profiles (λ now, fs_set now user_id_str new_profile_data);
      _ ← (if String.eqb default_status "pending_approval"
              && py_truthy chat_id_for_message && bot_initialized E
           then try_except
                  (bot_send_message chat_id_for_message (welcome_text user_id_str)
                     None (Some "Markdown"))
                  (λ _, mret tt)
           else mret tt);
      mret new_profile_data
    else
      let profile := default ∅ profile in
      match profile !! "status" with
      | None =>
          _ ← write_profiles (λ now, fs_update user_id_str
                 (λ d, resolve now {[ "status" := PStr "pending_approval";
                                      "updatedAt" := SERVER_TIMESTAMP ]} ∪ d));
          mret (<["status" := PStr "pending_approval"]> profile)
      | Some _ => mret profile
      end.

Definition get_user_group_id (user_id_str : string) : M pyval :=
  profile ← get_user_profile user_id_str;
  mret (if profile_truthy profile then py_get (default ∅ profile) "groupId" else PNone).

Definition get_group_name (group_id : pyval) : M pyval :=
  if negb (py_truthy group_id) || negb (db_initialized E) then mret PNone
  else
    gid ← document group_id;
    group_doc ← get_doc groups gid;
    mret (match group_doc with
          | Some d => py_get d "groupName"
          | None => PNone
          end).

(** The truth value of [is_user_approved(user_id_str)]. *)
Definition is_user_approved (user_id_str : string) : M bool :=
  if is_user_admin user_id_str then mret true
  else
    profile ← get_user_profile user_id_str;
    mret (profile_truthy profile
          && py_eq_str (py_get (default ∅ profile) "status") "approved").

(** The initial members an admin named that [create_group_in_firestore]
    keeps: stripped, non-empty, with an existing profile whose status is
    approved.  (The source also reads each kept member's current group,
    only to log a warning.) *)
Fixpoint approved_initial_members (initial_member_ids : list string) : M (list string) :=
  match initial_member_ids with
  | [] => mret []
  | member_id :: rest =>
      let member_id := Py.strip member_id in
      if String.eqb member_id "" then approved_initial_members rest
      else
        profile_to_add ← get_user_profile member_id;
        kept ← approved_initial_members rest;
        mret (if profile_truthy profile_to_add
                 && py_eq_str (py_get (default ∅ profile_to_add) "status") "approved"
              then member_id :: kept else kept)
  end.

Definition backticked (ids : list string) : string :=
  Py.join ", " ((λ mid, "`" +:+ mid +:+ "`") <$> ids).

(** The second definition of [create_group_in_firestore], the one in
    force after the module is loaded.  [list(set(members))] is rendered
    by [remove_dups] (Python leaves the order of the result open).  The
    store does not fail, so the two [except] branches of the source never
    run and [update_errors] stays empty. *)
Definition create_group_in_firestore (acting_user_id_str group_name_str : string)
    (initial_member_ids : list string) : M (option string * string) :=
  if negb (db_initialized E) then mret (None, "Database not initialized.")
  else if String.eqb (Py.strip group_name_str) "" then mret (None, "Group name cannot be empty.")
  else
    let is_admin_actor := is_user_admin acting_user_id_str in
    approved ← (if is_admin_actor then mret true else is_user_approved acting_user_id_str);
    if negb approved then mret (None, "Your account is not approved to create groups.")
    else
      in_group ← (if is_admin_actor then mret PNone else get_user_group_id acting_user_id_str);
      if py_truthy in_group then
        mret (None, "You are already in a group. To create a new one, please leave your current group first using the 'Group Options' menu.")
      else
        members_to_add_to_group ←
          (if is_admin_actor then approved_initial_members initial_member_ids
           else mret [acting_user_id_str]);
        w ← get_world;
        let group_id := auto_id E (groups (db w)) in
        let group_data : dict :=
          {[ "groupName" := PStr (Py.strip group_name_str);
             "ownerId" := PStr acting_user_id_str;
             "createdAt" := SERVER_TIMESTAMP;
             "memberUserIds" := PList (PStr <$> remove_dups members_to_add_to_group) ]} in
        _ ← write_groups (λ now, fs_set now group_id group_data);
        _ ← for_each members_to_add_to_group (λ member_id,
               write_profiles (λ now, fs_set_merge now member_id
                 {[ "groupId" := PStr group_id; "groupJoinedAt" := SERVER_TIMESTAMP ]}));
        let success_message :=
          "Group '" +:+ group_name_str +:+ "' created with ID: `" +:+ group_id +:+ "`." +:+
          (if is_admin_actor then
             match members_to_add_to_group with
             | [] => nl +:+ "No initial members were added."
             | _ => nl +:+ "Added members: " +:+ backticked members_to_add_to_group +:+ "."
             end
           else nl +:+ "You have been added as the first member.") in
        mret (Some group_id, success_message).

Definition user_leave_group (user_id_str : string) : M string :=
  approved ← is_user_approved user_id_str;
  if negb approved || is_user_admin user_id_str then
    mret "This action is for regular approved users. Admins should use admin commands for group management."
  else if negb (db_initialized E) then mret "Database not initialized."
  else
    current_group_id ← get_user_group_id user_id_str;
    if negb (py_truthy current_group_id) then mret "You are not currently in any group."
    else
      gid ← document current_group_id;
      group_doc ← get_doc groups gid;
      name ← get_group_name current_group_id;
      let group_name := if py_truthy name then fstr name else "your current group" in
      _ ← write_profiles (λ now, fs_update user_id_str
             (λ d, <["groupLeftAt" := PTimestamp now]> (delete "groupId" d)));
      match group_doc with
      | Some _ =>
          _ ← write_groups (λ _, fs_update gid (array_remove "memberUserIds" (PStr user_id_str)));
          after ← get_doc groups gid;
          match after with
          | None => mret ("You have left '" +:+ group_name +:+ "'.")
          | Some group_data_after_leave =>
              if py_truthy (PDict group_data_after_leave)
                 && negb (py_truthy (py_get group_data_after_leave "memberUserIds"))
              then
                _ ← write_groups (λ _, fs_delete gid);
                mret ("You have left '" +:+ group_name +:+ "'. The group is now empty and has been deleted.")
              else mret ("You have left '" +:+ group_name +:+ "'.")
          end
      | None => mret ("You have left '" +:+ group_name +:+ "'.")
      end.

(** [len(v)] *)
Definition py_len (v : pyval) : M nat :=
  match v with
  | PList l => mret (length l)
  | PStr s => mret (String.length s)
  | PDict d => mret (size d)
  | _ => raise (TypeError "object has no len()")
  end.

Definition get_my_group_info (user_id_str : string) : M string :=
  if negb (db_initialized E) then mret "Database not initialized."
  else
    current_group_id ← get_user_group_id user_id_str;
    if negb (py_truthy current_group_id) then
      mret "You are not in a group. Admin can add you or you can ask admin to create one for you."
    else
      gid ← document current_group_id;
      group_doc ← get_doc groups gid;
      match group_doc with
      | None =>
          _ ← write_profiles (λ _, fs_update user_id_str (delete "groupId"));
          mret "Error: Your group data was inconsistent. You've been removed from the non-existent group."
      | Some data =>
          let member_ids := py_get_default data "memberUserIds" (PList []) in
          n ← py_len member_ids;
          ids ← py_iter member_ids;
          mret ("Group: '" +:+ fstr (py_get_default data "groupName" (PStr "Unnamed"))
                +:+ "' (ID: `" +:+ fstr current_group_id +:+ "`)" +:+ nl +:+
                "Owner ID: `" +:+ fstr (py_get data "ownerId") +:+ "` " +:+
                (if py_eq_str (py_get data "ownerId") user_id_str then "(You)" else "") +:+ nl +:+
                "Members (" +:+ Py.str_of_Z (Z.of_nat n) +:+ "):" +:+ nl +:+
                String.concat ""
                  ((λ member_id, "  - `" +:+ fstr member_id +:+ "` " +:+
                                 (if py_eq_str member_id user_id_str then "(You)" else "") +:+ nl)
                     <$> ids))
      end.

(** ** Queries *)

(** [.where(field, "==", v)] *)
Definition field_eq (field : string) (v : pyval) (doc : string * dict) : bool :=
  match doc.2 !! field with
  | Some x => py_eq x v
  | None => false
  end.
Definition where_eq (field : string) (v : pyval) (docs : list (string * dict)) : list (string * dict) :=
  filter (λ doc, field_eq field v doc) docs.

(** [.where(field, ">=", lo)] and [.where(field, "<=", hi)] for string
    bounds: only string fields match, compared byte by byte. *)
Definition field_ge (field lo : string) (doc : string * dict) : bool :=
  match doc.2 !! field with
  | Some (PStr x) => String.leb lo x
  | _ => false
  end.
Definition field_le (field hi : string) (doc : string * dict) : bool :=
  match doc.2 !! field with
  | Some (PStr x) => String.leb x hi
  | _ => false
  end.
Definition where_ge (field lo : string) (docs : list (string * dict)) : list (string * dict) :=
  filter (λ doc, field_ge field lo doc) docs.
Definition where_le (field hi : string) (docs : list (string * dict)) : list (string * dict) :=
  filter (λ doc, field_le field hi doc) docs.

(** [.order_by(field, direction=DESCENDING)]: documents without the
    field drop out; the rest is sorted, largest first, by Firestore's
    order on values. *)
Fixpoint insert_desc (field : string) (doc : string * dict) (sorted : list (string * dict)) : list (string * dict) :=
  match sorted with
  | [] => [doc]
  | d :: rest =>
      if fs_leb E (py_get d.2 field) (py_get doc.2 field) then doc :: sorted
      else d :: insert_desc field doc rest
  end.
Definition order_by_desc (field : string) (docs : list (string * dict)) : list (string * dict) :=
  foldr (insert_desc field) [] (filter (λ doc, is_Some (doc.2 !! field)) docs).

(** [.limit(n)] *)
Definition limit (n : nat) (docs : list (string * dict)) : list (string * dict) := take n docs.

(** ** Admin functions *)

Definition admin_list_users (status_filter : string) : M string :=
  if negb (db_initialized E) then mret "Database not initialized."
  else
    w ← get_world;
    let users := stream (user_profiles (db w)) in
    let query :=
      if bool_decide (status_filter ∈ ["pending_approval"; "approved"; "banned"])
      then where_eq "status" (PStr status_filter) users else users in
    let docs := limit 50 (order_by_desc "createdAt" query) in
    let user_list_items :=
      (λ doc : string * dict,
         "- ID: `" +:+ fstr (py_get doc.2 "telegramUserId") +:+ "` (Status: " +:+
         fstr (py_get_default doc.2 "status" (PStr "N/A")) +:+ ", Group: `" +:+
         fstr (py_get_default doc.2 "groupId" (PStr "None")) +:+ "`)") <$> docs in
    match user_list_items with
    | [] => mret ("No users found with status '" +:+ status_filter +:+ "'.")
    | _ => mret ("Users (Status: " +:+ status_filter +:+ "):" +:+ nl +:+ Py.join nl user_list_items)
    end.

Definition admin_set_user_status (user_id_to_modify new_status : string) : M string :=
  if negb (bool_decide (new_status ∈ ["approved"; "banned"; "pending_approval"])) then
    mret "Invalid status. Use 'approved', 'banned', or 'pending_approval'."
  else if negb (db_initialized E) then mret "Database not initialized."
  else
    user_doc ← get_doc user_profiles user_id_to_modify;
    match user_doc with
    | None => mret ("User ID `" +:+ user_id_to_modify +:+ "` not found.")
    | Some _ =>
        _ ← write_profiles (λ now, fs_update user_id_to_modify
               (λ d, <["statusUpdatedAt" := PTimestamp now]> (<["status" := PStr new_status]> d)));
        _ ← (if bot_initialized E then
               try_except
                 (if String.eqb new_status "approved" then
                    bot_send_message (PStr user_id_to_modify)
                      "Your account has been approved! You can now use the bot. Send /menu or an image."
                      None None
                  else if String.eqb new_status "banned" then
                    bot_send_message (PStr user_id_to_modify)
                      "Your account access has been restricted by the administrator."
                      None None
                  else mret tt)
                 (λ _, mret tt)
             else mret tt);
        mret ("User `" +:+ user_id_to_modify +:+ "` status set to '" +:+ new_status +:+ "'.")
    end.

Definition admin_remove_user_from_group (user_id_to_remove group_id_from_which_to_remove : string) : M string :=
  if negb (db_initialized E) then mret "Database not initialized."
  else
    user_profile_doc ← get_doc user_profiles user_id_to_remove;
    match user_profile_doc with
    | None => mret ("User ID `" +:+ user_id_to_remove +:+ "` not found.")
    | Some user_profile =>
        group_doc ← get_doc groups group_id_from_which_to_remove;
        match group_doc with
        | None => mret ("Group ID `" +:+ group_id_from_which_to_remove +:+ "` not found.")
        | Some group_data =>
            let group_name :=
              fstr (py_get_default group_data "groupName" (PStr group_id_from_which_to_remove)) in
            _ ← write_groups (λ _, fs_update group_id_from_which_to_remove
                   (array_remove "memberUserIds" (PStr user_id_to_remove)));
            let user_current_group := py_get user_profile "groupId" in
            _ ← (if py_eq_str user_current_group group_id_from_which_to_remove then
                   write_profiles (λ now, fs_update user_id_to_remove
                     (λ d, <["groupLeftAt" := PTimestamp now]> (delete "groupId" d)))
                 else mret tt);
            updated_group_doc ← get_doc groups group_id_from_which_to_remove;
            match updated_group_doc with
            | Some updated =>
                if negb (py_truthy (py_get updated "memberUserIds")) then
                  _ ← write_groups (λ _, fs_delete group_id_from_which_to_remove);
                  mret ("User `" +:+ user_id_to_remove +:+ "` removed from group '" +:+ group_name
                        +:+ "'. The group was empty and has been deleted.")
                else
                  mret ("User `" +:+ user_id_to_remove +:+ "` removed from group '" +:+ group_name +:+ "'.")
            | None =>
                mret ("User `" +:+ user_id_to_remove +:+ "` removed from group '" +:+ group_name +:+ "'.")
            end
        end
    end.

Definition admin_delete_group (group_id_to_delete : string) : M string :=
  if negb (db_initialized E) then mret "Database not initialized."
  else
    group_doc ← get_doc groups group_id_to_delete;
    match group_doc with
    | None => mret ("Group ID `" +:+ group_id_to_delete +:+ "` not found.")
    | Some group_data =>
        let group_name := fstr (py_get_default group_data "groupName" (PStr group_id_to_delete)) in
        member_ids ← py_iter (py_get_default group_data "memberUserIds" (PList []));
        _ ← for_each member_ids (λ member_id,
               mid ← document member_id;
               member_profile ← get_doc user_profiles mid;
               match member_profile with
               | Some p =>
                   if py_eq_str (py_get p "groupId") group_id_to_delete then
                     write_profiles (λ now, fs_update mid
                       (λ d, <["groupLeftAt" := PTimestamp now]> (delete "groupId" d)))
                   else mret tt
               | None => mret tt
               end);
        _ ← write_groups (λ _, fs_delete group_id_to_delete);
        mret ("Group '" +:+ group_name +:+ "' (ID: `" +:+ group_id_to_delete
              +:+ "`) and its members' associations have been deleted.")
    end.

(** ** Aggregation *)

Definition get_query_target (user_id_str : string) : M (string * pyval * string) :=
  group_id ← get_user_group_id user_id_str;
  if py_truthy group_id then
    name ← get_group_name group_id;
    let group_name_str := if py_truthy name then fstr name else "Unnamed Group" in
    mret ("groupId", group_id, "for group '" +:+ group_name_str +:+ "'")
  else mret ("telegramUserId", PStr user_id_str, "(personal)").

(** The accumulators of the aggregation loop.  The two spending
    dictionaries keep their keys in insertion order. *)
Record AggState := mkAgg {
  total_spent : float;
  receipt_count : nat;
  category_spending : list (pyval * float);
  store_spending : list (pyval * float);
  currency_code : pyval
}.

Definition agg_init : AggState := mkAgg 0%float 0 [] [] (PStr "").

(** [m[k] = m.get(k, 0.0) + x] *)
Fixpoint bump (k : pyval) (x : float) (m : list (pyval * float)) : list (pyval * float) :=
  match m with
  | [] => [(k, (0 + x)%float)]
  | (k', v) :: rest =>
      if py_eq k' k then (k', (v + x)%float) :: rest else (k', v) :: bump k x rest
  end.

(** A dictionary key must be hashable. *)
Definition hashable (k : pyval) : M unit :=
  match k with
  | PList _ | PDict _ => raise (TypeError "unhashable type")
  | _ => mret tt
  end.

(** [item.get(k, dflt)] on a line item, which must be a dictionary. *)
Definition item_get (item : pyval) (k : string) (dflt : pyval) : M pyval :=
  match item with
  | PDict d => mret (py_get_default d k dflt)
  | _ => raise (AttributeError "object has no attribute 'get'")
  end.

Fixpoint sum_items (items : list pyval) (cats : list (pyval * float)) : M (list (pyval * float)) :=
  match items with
  | [] => mret cats
  | item :: rest =>
      category ← item_get item "grocery_category" (PStr "Uncategorized");
      item_price ← item_get item "item_price" PNone;
      if isinstance_int_float item_price then
        _ ← hashable category;
        sum_items rest (bump category (as_float item_price) cats)
      else sum_items rest cats
  end.

(** One round of [for doc_snapshot in docs_stream]. *)
Definition agg_step (mode : string) (acc : AggState) (data : dict) : M AggState :=
  let current_total := py_get data "total_price" in
  if negb (isinstance_int_float current_total) then mret acc
  else
    let total := (total_spent acc + as_float current_total)%float in
    let count := S (receipt_count acc) in
    let currency :=
      if negb (py_truthy (currency_code acc)) then py_get_default data "currency_code" (PStr "")
      else currency_code acc in
    if String.eqb mode "by_category" then
      items ← py_iter (py_get_default data "items" (PList []));
      cats ← sum_items items (category_spending acc);
      mret (mkAgg total count cats (store_spending acc) currency)
    else if String.eqb mode "by_store" then
      let store_name := py_get_default data "store_name" (PStr "Unknown Store") in
      _ ← hashable store_name;
      mret (mkAgg total count (category_spending acc)
                  (bump store_name (as_float current_total) (store_spending acc)) currency)
    else mret (mkAgg total count (category_spending acc) (store_spending acc) currency).

Fixpoint agg_loop (mode : string) (docs : list (string * dict)) (acc : AggState) : M AggState :=
  match docs with
  | [] => mret acc
  | doc :: rest => acc' ← agg_step mode acc doc.2; agg_loop mode rest acc'
  end.

(** [sorted(d.items(), key=amount, reverse=True)]: stable, largest first. *)
Fixpoint insert_by_amount (kv : pyval * float) (sorted : list (pyval * float)) : list (pyval * float) :=
  match sorted with
  | [] => [kv]
  | h :: rest =>
      if PrimFloat.leb h.2 kv.2 then kv :: sorted else h :: insert_by_amount kv rest
  end.
Definition sorted_by_amount (m : list (pyval * float)) : list (pyval * float) :=
  foldr insert_by_amount [] m.

Definition amount_lines (m : list (pyval * float)) : string :=
  String.concat ""
    ((λ kv : pyval * float, "- " +:+ fstr kv.1 +:+ ": " +:+ format_2f E kv.2 +:+ nl)
       <$> sorted_by_amount m).

(** The receipts a date-bound aggregation scans: those of the scope,
    with the date filters that were asked for. *)
Definition agg_query (query_field : string) (query_value : pyval)
    (start_date_str end_date_str : string) (c : gmap string dict) : list (string * dict) :=
  let q := where_eq query_field query_value (stream c) in
  let q := if negb (String.eqb start_date_str "") then where_ge "date" start_date_str q else q in
  if negb (String.eqb end_date_str "") then where_le "date" end_date_str q else q.

Definition _aggregate_spending (user_id_str start_date_str end_date_str mode : string) : M string :=
  target ← get_query_target user_id_str;
  let '(query_field, query_value, context_label) := target in
  w ← get_world;
  let docs := agg_query query_field query_value start_date_str end_date_str (receipts (db w)) in
  acc ← agg_loop mode docs agg_init;
  if bool_decide (receipt_count acc = 0) then
    let date_range_msg :=
      if negb (String.eqb start_date_str "") && negb (String.eqb end_date_str "")
      then "between " +:+ start_date_str +:+ " and " +:+ end_date_str
      else "for the period" in
    mret ("No receipts found " +:+ context_label +:+ " " +:+ date_range_msg +:+ ".")
  else
    let currency_display := if py_truthy (currency_code acc) then fstr (currency_code acc) else "" in
    let count := Py.str_of_Z (Z.of_nat (receipt_count acc)) in
    if String.eqb mode "total_by_date" then
      mret ("Total spent " +:+ context_label +:+ " (" +:+ count +:+ " receipts): "
            +:+ format_2f E (total_spent acc) +:+ " " +:+ currency_display)
    else if String.eqb mode "by_category" then
      mret ("Spending by category " +:+ context_label +:+ " (Total: "
            +:+ format_2f E (total_spent acc) +:+ " " +:+ currency_display +:+ "):" +:+ nl +:+
            match category_spending acc with
            | [] => "No categorized items found."
            | m => amount_lines m
            end)
    else if String.eqb mode "by_store" then
      mret ("Spending by store " +:+ context_label +:+ " (Total: "
            +:+ format_2f E (total_spent acc) +:+ " " +:+ currency_display +:+ "):" +:+ nl +:+
            match store_spending acc with
            | [] => "No store data found."
            | m => amount_lines m
            end)
    else if String.eqb mode "avg_receipt" then
      let avg := (total_spent acc / float_of_Z (Z.of_nat (receipt_count acc)))%float in
      mret ("Average receipt value " +:+ context_label +:+ " (" +:+ count +:+ " receipts): "
            +:+ format_2f E avg +:+ " " +:+ currency_display)
    else mret "Invalid aggregation mode specified.".

(** [f"{z:0Nd}"] *)
Definition zero_pad (width : nat) (z : Z) : string :=
  let digits := Py.str_of_Z (Z.abs z) in
  let sign := if (z <? 0)%Z then "-" else "" in
  let fill := width - String.length sign - String.length digits in
  sign +:+ String.concat "" (replicate fill "0") +:+ digits.

Definition is_leap_year (y : Z) : bool :=
  ((y mod 4 =? 0) && negb (y mod 100 =? 0) || (y mod 400 =? 0))%Z.

Definition days_in_month (y m : Z) : Z :=
  if (m =? 2)%Z then (if is_leap_year y then 29 else 28)%Z
  else if bool_decide (m ∈ [4; 6; 9; 11]%Z) then 30%Z
  else 31%Z.

Definition ymd (y m d : Z) : string :=
  zero_pad 4 y +:+ "-" +:+ zero_pad 2 m +:+ "-" +:+ zero_pad 2 d.

(** [datetime.now().strftime("%Y-%m-%d")] *)
Definition todays_date_str (w : World) : string :=
  let '(y, m, d) := today w in ymd y m d.

Definition get_current_month_start_end : M (string * string * string) :=
  w ← get_world;
  let '(y, m, _) := today w in
  mret (ymd y m 1, ymd y m (days_in_month y m), zero_pad 4 y +:+ "-" +:+ zero_pad 2 m).

Definition get_spending_by_date_range_for_user (user_id_str start_date_str end_date_str : string) : M string :=
  if negb (strptime_ymd E start_date_str && strptime_ymd E end_date_str) then
    mret "Error: Invalid date format. Please use YYYY-MM-DD for both start and end dates."
  else _aggregate_spending user_id_str start_date_str end_date_str "total_by_date".

(** The first and last day of the month named by a [YYYY-MM] token, as
    the three month wrappers compute them; [None] stands for the
    [ValueError] they catch. *)
Definition month_range (month_year_str : string) : M (option (string * string)) :=
  match py_int E <$> Py.split_on "-" month_year_str with
  | [Some year; Some month] =>
      let start_date := zero_pad 4 year +:+ "-" +:+ zero_pad 2 month +:+ "-01" in
      if (month =? 12)%Z then mret (Some (start_date, zero_pad 4 year +:+ "-12-31"))
      else if negb ((1 <=? year) && (year <=? 9999) && (0 <=? month) && (month <=? 11))%Z then
        mret None
      else if (month =? 0)%Z then
        if (year =? 1)%Z then raise (OverflowError "date value out of range")
        else mret (Some (start_date, ymd (year - 1) 12 31))
      else mret (Some (start_date, ymd year month (days_in_month year month)))
  | _ => mret None
  end.

Definition get_spending_by_category_for_user (user_id_str month_year_str : string) : M string :=
  r ← month_range month_year_str;
  match r with
  | None => mret "Error: Invalid month format. Use YYYY-MM (e.g., 2023-10)."
  | Some (start_date, end_date) => _aggregate_spending user_id_str start_date end_date "by_category"
  end.

Definition get_spending_by_store_for_user (user_id_str month_year_str : string) : M string :=
  r ← month_range month_year_str;
  match r with
  | None => mret "Error: Invalid month format. Use YYYY-MM."
  | Some (start_date, end_date) => _aggregate_spending user_id_str start_date end_date "by_store"
  end.

Definition get_average_receipt_value_for_user (user_id_str month_year_str : string) : M string :=
  r ← month_range month_year_str;
  match r with
  | None => mret "Error: Invalid month format. Use YYYY-MM."
  | Some (start_date, end_date) => _aggregate_spending user_id_str start_date end_date "avg_receipt"
  end.

(** ** Telegram UI *)

Definition build_main_menu_keyboard (is_admin : bool) : InlineKeyboardMarkup :=
  let keyboard_buttons :=
    [ [("ğŸ“Š Current Month Summary", "summary_current_month")];
      [("ğŸ“… Custom Date Range Sum", "summary_date_range_prompt")];
      [("ğŸ·ï¸ Categories (This Month)", "summary_category_current_month")];
      [("ğŸª Stores (This Month)", "summary_store_current_month")];
      [("ğŸ§¾ Avg. Receipt (This Month)", "summary_avg_receipt_current_month")];
      [("ğŸ‘¥ Group Options", "group_menu_user")];
      [("ğŸ“„ List Recent Receipts", "list_receipts_action")];
      [("ğŸ—‘ï¸ Delete Recent Receipt", "delete_receipts_action")] ] in
  Keyboard (if is_admin then [("ğŸ‘‘ Admin Panel", "admin_menu")] :: keyboard_buttons
            else keyboard_buttons).

Definition build_user_group_menu_keyboard (user_id : string) : M InlineKeyboardMarkup :=
  gid ← get_user_group_id user_id;
  mret (Keyboard
          ([[("â„¹ï¸ My Group Info", "mygroup_info_action")]] ++
           (if py_truthy gid && negb (is_user_admin user_id)
            then [[("ğŸšª Leave Current Group", "leavegroup_action_user")]] else []) ++
           [[("â¬…ï¸ Back to Main Menu", "main_menu")]])).

Definition build_admin_menu_keyboard : InlineKeyboardMarkup :=
  Keyboard
    [ [("List Pending Users", "admin_list_pending")];
      [("List Approved Users", "admin_list_approved")];
      [("List All Users", "admin_list_all")];
      [("Approve User (Type: /approveuser <ID>)", "admin_approve_prompt")];
      [("Ban User (Type: /banuser <ID>)", "admin_ban_prompt")];
      [("Create Group (Type: /admincreategroup <Name> [IDs...])", "admin_creategroup_prompt")];
      [("Add to Group (Type: /addusertogroup <User_ID> <Group_ID>)", "admin_addtogroup_prompt")];
      [("Remove from Group (Type: /removeuserfromgroup <User_ID> <Group_ID>)",
        "admin_removefromgroup_prompt")];
      [("Delete Group (Type: /deletegroup <Group_ID>)", "admin_deletegroup_prompt")];
      [("â¬…ï¸ Back to Main Menu", "main_menu")] ].

(** [escape_markdown_v2]: a backslash before each reserved character;
    the empty string for a value that is not a [str]. *)
Definition escape_chars : string := "_*[]()~`>#+-=|{}.!".

Fixpoint escape_str (text : string) : string :=
  match text with
  | EmptyString => EmptyString
  | String c r =>
      if Py.contains_char c escape_chars then String "\"%char (String c (escape_str r))
      else String c (escape_str r)
  end.

Definition escape_markdown_v2 (text : pyval) : string :=
  match text with
  | PStr s => escape_str s
  | _ => ""
  end.

Definition rule : string := "------------------------------------" +:+ nl.

(** The lines of one item in [format_single_receipt_for_view]; [i] is
    the item's index. *)
Definition format_item (currency : pyval) (i : nat) (item : pyval) : M string :=
  item_name ← item_get item "item_name" (PStr ("Item " +:+ Py.str_of_Z (Z.of_nat (i + 1))));
  item_price ← item_get item "item_price" PNone;
  item_qty ← item_get item "quantity" (PInt 1);
  item_unit ← item_get item "unit_of_measurement" (PStr "unit");
  item_cat ← item_get item "grocery_category" (PStr "Uncategorized");
  item_price_display ← (if is_None item_price then mret "N/A" else fmt_2f item_price);
  price_per_unit_val ← item_get item "price_per_unit" PNone;
  ppu ← (if is_None price_per_unit_val then mret ""
         else
           ppu_display ← fmt_2f price_per_unit_val;
           mret ("  (PPU: " +:+ ppu_display +:+ " " +:+ fstr currency +:+ "/"
                 +:+ escape_markdown_v2 item_unit +:+ ")" +:+ nl));
  mret ("- " +:+ escape_markdown_v2 item_name +:+ " (" +:+ escape_markdown_v2 item_cat +:+ ")" +:+ nl +:+
        "  Qty: " +:+ fstr item_qty +:+ " " +:+ escape_markdown_v2 item_unit +:+ " | Price: "
        +:+ item_price_display +:+ " " +:+ fstr currency +:+ nl +:+ ppu +:+ nl).

Fixpoint format_items (currency : pyval) (i : nat) (items : list pyval) : M string :=
  match items with
  | [] => mret ""
  | item :: rest =>
      s ← format_item currency i item;
      r ← format_items currency (S i) rest;
      mret (s +:+ r)
  end.

Definition format_single_receipt_for_view (receipt_data : dict) : M string :=
  if negb (py_truthy (PDict receipt_data)) then mret "Error: Receipt data not found."
  else
    let doc_id := py_get_default receipt_data "id" (PStr "N/A") in
    let total_price := py_get_default receipt_data "total_price" (PFloat 0%float) in
    let currency := py_get_default receipt_data "currency_code" (PStr "") in
    total ← fmt_2f total_price;
    let items := py_get_default receipt_data "items" (PList []) in
    body ← (if negb (py_truthy items) then mret ("- No items found." +:+ nl)
            else l ← py_iter items; format_items currency 0 l);
    mret ("ğŸ§¾ **Receipt Details** (Ref: `" +:+ fstr doc_id +:+ "`)" +:+ nl +:+
          rule +:+
          "Store: " +:+ fstr (py_get_default receipt_data "store_name" (PStr "N/A")) +:+ nl +:+
          "Date: " +:+ fstr (py_get_default receipt_data "date" (PStr "N/A")) +:+ nl +:+
          "Total: " +:+ total +:+ " " +:+ fstr currency +:+ nl +:+
          "Uploaded By: `" +:+ fstr (py_get_default receipt_data "telegramUserId" (PStr "N/A"))
          +:+ "`" +:+ nl +:+
          (if py_truthy (py_get receipt_data "groupId")
           then "Group ID: `" +:+ fstr (py_get receipt_data "groupId") +:+ "`" +:+ nl else "") +:+
          "Verified: " +:+ (if py_truthy (py_get receipt_data "isVerifiedByUser") then "Yes" else "No") +:+
          (if py_truthy (py_get receipt_data "editedBy")
           then " (Edited by: `" +:+ fstr (py_get receipt_data "editedBy") +:+ "`)" +:+ nl
           else nl) +:+
          rule +:+
          "**Items:**" +:+ nl +:+
          "**Items:**" +:+ nl +:+
          body +:+
          rule).

Definition MAX_RECEIPTS_PER_LIST : nat := 20.

(** [get_recent_receipts_for_user] with the default limit.  The store
    answers every query, so the [except] branch of the source (a missing
    index, a transport failure) does not run. *)
Definition get_recent_receipts_for_user (user_id_str : string) : M (list dict * string) :=
  if negb (db_initialized E) then mret ([], "Database not initialized.")
  else
    target ← get_query_target user_id_str;
    let '(query_field, query_value, context_label) := target in
    w ← get_world;
    let docs :=
      limit MAX_RECEIPTS_PER_LIST
        (order_by_desc "date"
           (order_by_desc "uploadTimestamp"
              (where_eq query_field query_value (stream (receipts (db w)))))) in
    mret ((λ doc : string * dict, <["id" := PStr doc.1]> doc.2) <$> docs, context_label).

(** [store_name[:20]] *)
Definition slice20 (v : pyval) : M pyval :=
  match v with
  | PStr s => mret (PStr (Py.take 20 s))
  | PList l => mret (PList (take 20 l))
  | _ => raise (TypeError "object is not subscriptable")
  end.

(** The label of a receipt's button in the two receipt lists. *)
Definition button_text (receipt : dict) : M string :=
  let date_str := py_get_default receipt "date" (PStr "N/A") in
  let store_name := py_get_default receipt "store_name" (PStr "Unknown Store") in
  let total_price := py_get_default receipt "total_price" (PFloat 0%float) in
  let currency := py_get_default receipt "currency_code" (PStr "") in
  short ← slice20 store_name;
  total ← fmt_2f total_price;
  let text := fstr date_str +:+ " | " +:+ fstr short +:+ " | " +:+ total +:+ " " +:+ fstr currency in
  mret (if (60 <? String.length text)%nat then Py.take 57 text +:+ "..." else text).

Fixpoint view_buttons (receipt_list : list dict) : M (list (list (string * string))) :=
  match receipt_list with
  | [] => mret []
  | receipt :: rest =>
      text ← button_text receipt;
      more ← view_buttons rest;
      mret ([(text, "view_receipt_" +:+ fstr (py_get receipt "id"))] :: more)
  end.

Definition format_receipt_list_for_display (receipt_list : list dict) (context_label : string)
    : M (string * option InlineKeyboardMarkup) :=
  match receipt_list with
  | [] => mret ("No recent receipts found " +:+ context_label +:+ ".", None)
  | _ =>
      keyboard_buttons ← view_buttons receipt_list;
      match keyboard_buttons with
      | [] => mret ("Found receipts " +:+ context_label +:+ ", but couldn't create buttons.", None)
      | _ =>
          mret ("ğŸ“„ **Recent Receipts** " +:+ context_label +:+ " (max "
                +:+ Py.str_of_Z (Z.of_nat MAX_RECEIPTS_PER_LIST) +:+ "):" +:+ nl +:+ rule +:+
                "Click on a receipt to view details.", Some (Keyboard keyboard_buttons))
      end
  end.

Fixpoint delete_buttons (receipt_list : list dict) : M (list (list (string * string))) :=
  match receipt_list with
  | [] => mret []
  | receipt :: rest =>
      let doc_id := py_get receipt "id" in
      if negb (py_truthy doc_id) then delete_buttons rest
      else
        text ← button_text receipt;
        more ← delete_buttons rest;
        mret ([(text, "del_confirm_req_" +:+ fstr doc_id)] :: more)
  end.

Definition format_receipt_list_for_delete (receipt_list : list dict) (context_label : string)
    : M (string * option InlineKeyboardMarkup) :=
  match receipt_list with
  | [] => mret ("No recent receipts found " +:+ context_label +:+ " to delete.", None)
  | _ =>
      keyboard_buttons ← delete_buttons receipt_list;
      match keyboard_buttons with
      | [] => mret ("Found receipts " +:+ context_label +:+ ", but couldn't create delete buttons.", None)
      | _ =>
          mret ("ğŸ—‘ï¸ **Select Receipt to Delete** " +:+ context_label +:+ " (max "
                +:+ Py.str_of_Z (Z.of_nat MAX_RECEIPTS_PER_LIST) +:+ "):" +:+ nl +:+ rule +:+
                "Click on a receipt to request its deletion.", Some (Keyboard keyboard_buttons))
      end
  end.

Definition get_receipt_details_for_view (doc_id : string) : M (option dict) :=
  if negb (db_initialized E) || String.eqb doc_id "" then mret None
  else
    doc ← get_doc receipts doc_id;
    mret ((λ data, <["id" := PStr doc_id]> data) <$> doc).

Definition build_delete_confirmation_keyboard (doc_id : string) : InlineKeyboardMarkup :=
  Keyboard [[("âœ… Yes, Delete", "del_do_" +:+ doc_id);
             ("âŒ Cancel", "del_cancel_" +:+ doc_id)]].

(** ** Editing and deleting receipts *)

(** The replies of the edit and delete handlers that name a receipt. *)
Definition not_approved_notice : string := "Your account is not approved for this action.".
Definition edit_not_found (doc_id : string) : string :=
  "Error: Receipt with Reference ID `" +:+ doc_id +:+ "` not found.".
Definition edit_not_authorized (doc_id : string) : string :=
  "Error: You are not authorized to edit receipt `" +:+ doc_id +:+ "`.".
Definition edit_success (doc_id : string) : string :=
  "âœ… Receipt `" +:+ doc_id +:+ "` updated successfully!".
Definition simple_edit_success (doc_id : string) : string :=
  "âœ… Receipt `" +:+ doc_id +:+ "` updated successfully with your changes!".
Definition delete_not_found (doc_id : string) : string :=
  "Error: Receipt Ref: `" +:+ doc_id +:+ "` no longer exists.".
Definition delete_not_authorized (doc_id : string) : string :=
  "Error: You are not authorized to delete receipt Ref: `" +:+ doc_id
  +:+ "`. Only the uploader or admin can delete.".
Definition delete_success (doc_id : string) : string :=
  "âœ… Receipt Ref: `" +:+ doc_id +:+ "` has been deleted.".

Definition clean_llm_json_output (json_string_from_llm : string) : string :=
  Py.strip (default json_string_from_llm (re_search_fence E json_string_from_llm)).

(** The authorization test of the two edit handlers (and of the receipt
    view): admin, uploader, or a profile whose group is the receipt's. *)
Definition may_edit (user_id_str : string) (original_receipt_data : dict) : M bool :=
  let is_admin_editing := is_user_admin user_id_str in
  let user_is_uploader := py_eq_str (py_get original_receipt_data "telegramUserId") user_id_str in
  user_group_id ← get_user_group_id user_id_str;
  let receipt_group_id := py_get original_receipt_data "groupId" in
  let user_in_receipt_group :=
    negb (is_None receipt_group_id) && py_eq user_group_id receipt_group_id in
  mret (is_admin_editing || user_is_uploader || user_in_receipt_group).

(** The document an edit writes: the corrected data with the uploader,
    the upload time and the group of the original put back, stamped as
    verified by the editor.  Both edit handlers build it the same way. *)
Definition update_payload (corrected_data original_receipt_data : dict) (user_id_str : string) : dict :=
  let p := <["telegramUserId" := py_get original_receipt_data "telegramUserId"]> corrected_data in
  let p := <["uploadTimestamp" := py_get original_receipt_data "uploadTimestamp"]> p in
  let p :=
    match original_receipt_data !! "groupId" with
    | Some g => if is_None g then delete "groupId" p else <["groupId" := g]> p
    | None => delete "groupId" p
    end in
  let p := <["lastUpdatedAt" := SERVER_TIMESTAMP]> p in
  let p := <["isVerifiedByUser" := PBool true]> p in
  <["editedBy" := PStr user_id_str]> p.

(** The defaults [handle_edit_receipt_command] fills into the corrected
    data before writing. *)
Definition with_edit_defaults (corrected original_receipt_data : dict) (today_str : string) : dict :=
  let d :=
    match corrected !! "items" with
    | Some (PList _) => corrected
    | _ => <["items" := PList []]> corrected
    end in
  match d !! "date" with
  | Some _ => d
  | None => <["date" := py_get_default original_receipt_data "date" (PStr today_str)]> d
  end.

Definition handle_edit_receipt_command (user_id_str full_arg_string : string) : M string :=
  if negb (db_initialized E) then mret "Database not initialized."
  else
    approved ← is_user_approved user_id_str;
    if negb approved then mret not_approved_notice
    else
      match Py.split_maxsplit1 full_arg_string with
      | [p0; p1] =>
          let doc_id_to_edit := Py.strip p0 in
          let json_string_from_user := Py.strip p1 in
          if String.eqb doc_id_to_edit "" then mret "Receipt Reference ID is missing."
          else if String.eqb json_string_from_user "" then mret "Corrected JSON data is missing."
          else
            match json_loads E (clean_llm_json_output json_string_from_user) with
            | inl msg =>
                mret ("Error: The JSON data you provided is invalid. Please check the syntax."
                      +:+ nl +:+ "Details: " +:+ msg)
            | inr corrected =>
                receipt_doc ← get_doc receipts doc_id_to_edit;
                match receipt_doc with
                | None =>
                    mret (edit_not_found doc_id_to_edit)
                | Some original_receipt_data =>
                    ok ← may_edit user_id_str original_receipt_data;
                    if negb ok then
                      mret (edit_not_authorized doc_id_to_edit)
                    else
                      match corrected with
                      | PDict corrected_data_dict =>
                          w ← get_world;
                          let data :=
                            with_edit_defaults corrected_data_dict original_receipt_data
                              (todays_date_str w) in
                          _ ← write_receipts (λ now, fs_set now doc_id_to_edit
                                 (update_payload data original_receipt_data user_id_str));
                          mret (edit_success doc_id_to_edit)
                      | _ => mret "Error: The corrected data must be a valid JSON object."
                      end
                end
            end
      | _ =>
          mret ("Usage: `/edit <RECEIPT_REF_ID>`" +:+ nl +:+
                "Then, on a **new line** (or after a space), paste the full corrected JSON data.")
      end.

Definition ALLOWED_GROCERY_CATEGORIES : list string :=
  ["Produce"; "Dairy & Eggs"; "Meat & Seafood"; "Bakery"; "Pantry Staples";
   "Frozen Foods"; "Beverages (Non-alcoholic)"; "Alcohol"; "Snacks & Sweets";
   "Household Supplies"; "Personal Care"; "Baby Items"; "Pet Supplies"; "Other"].

(** [header_keys_map] *)
Definition header_keys_map (key : string) : option string :=
  if String.eqb key "ref" then Some "doc_id"
  else if String.eqb key "store" then Some "store_name"
  else if String.eqb key "date" then Some "date"
  else if String.eqb key "total" then Some "total_price"
  else if String.eqb key "currency" then Some "currency_code"
  else None.

(** What the header loop of [parse_edited_receipt_text] carries. *)
Record ParseState := mkParse {
  ps_doc_id : option string;
  ps_header_data : dict;
  ps_item_lines_raw : list string;
  ps_parse_errors : list string;
  ps_header_lines_count : nat
}.

(** The loop over [enumerate(lines)], from index [i] on. *)
Fixpoint parse_lines (i : nat) (lines : list string) (st : ParseState) : ParseState :=
  match lines with
  | [] => st
  | line :: rest =>
      if String.eqb (Py.strip (Py.lower line)) "" then parse_lines (S i) rest st
      else
        let is_item_line := Py.contains_char ";" line in
        if negb is_item_line && Py.contains_char ":" line then
          match Py.split_on1 ":" line with
          | [key_raw; value_raw] =>
              let key_clean := Py.lower (Py.strip key_raw) in
              let value_clean := Py.strip value_raw in
              match header_keys_map key_clean with
              | Some field_name =>
                  let st' :=
                    if String.eqb field_name "doc_id" then
                      mkParse (Some value_clean) (ps_header_data st) (ps_item_lines_raw st)
                              (ps_parse_errors st) (S i)
                    else if String.eqb field_name "total_price" then
                      match py_float E value_clean with
                      | Some x =>
                          mkParse (ps_doc_id st) (<[field_name := PFloat x]> (ps_header_data st))
                                  (ps_item_lines_raw st) (ps_parse_errors st) (S i)
                      | None =>
                          mkParse (ps_doc_id st) (ps_header_data st) (ps_item_lines_raw st)
                                  (ps_parse_errors st ++
                                   ["Invalid format for Total Price: '" +:+ value_clean
                                    +:+ "'. Must be a number."]) (S i)
                      end
                    else if String.eqb field_name "date" then
                      if strptime_ymd E value_clean then
                        mkParse (ps_doc_id st) (<[field_name := PStr value_clean]> (ps_header_data st))
                                (ps_item_lines_raw st) (ps_parse_errors st) (S i)
                      else
                        mkParse (ps_doc_id st) (ps_header_data st) (ps_item_lines_raw st)
                                (ps_parse_errors st ++
                                 ["Invalid format for Date: '" +:+ value_clean
                                  +:+ "'. Must be YYYY-MM-DD."]) (S i)
                    else
                      mkParse (ps_doc_id st) (<[field_name := PStr value_clean]> (ps_header_data st))
                              (ps_item_lines_raw st) (ps_parse_errors st) (S i) in
                  parse_lines (S i) rest st'
              | None =>
                  parse_lines (S i) rest
                    (if (i <? 5)%nat then
                       mkParse (ps_doc_id st) (ps_header_data st) (ps_item_lines_raw st)
                               (ps_parse_errors st ++
                                ["Unrecognized header line (or misplaced item): '" +:+ line +:+ "'"])
                               (ps_header_lines_count st)
                     else st)
              end
          | _ => parse_lines (S i) rest st
          end
        else if is_item_line then
          mkParse (ps_doc_id st) (ps_header_data st) (line :: rest) (ps_parse_errors st)
                  (ps_header_lines_count st)
        else if (ps_header_lines_count st <=? i)%nat && negb (String.eqb (Py.strip line) "") then
          parse_lines (S i) rest
            (mkParse (ps_doc_id st) (ps_header_data st) (ps_item_lines_raw st)
                     (ps_parse_errors st ++
                      ["Unexpected line after headers (expected item or empty line): '" +:+ line +:+ "'"])
                     (ps_header_lines_count st))
        else parse_lines (S i) rest st
  end.

(** Returns [(doc_id, header_data, item_lines, errors_list)]. *)
Definition parse_edited_receipt_text (text_data : string)
    : option string * dict * list string * list string :=
  let lines := Py.split_on "010" (Py.strip text_data) in
  let st := parse_lines 0 lines (mkParse None ∅ [] [] 0) in
  let errors :=
    match ps_doc_id st with
    | Some (String _ _) => ps_parse_errors st
    | _ => ps_parse_errors st ++ ["`Ref: <ID>` line is missing or improperly formatted."]
    end in
  (ps_doc_id st, ps_header_data st, ps_item_lines_raw st, errors).

(** One round of the item loop of [handle_simple_edit_receipt_command]:
    the parsed item, or the complaint about the line; neither for a blank
    line.  A bad quantity is reported and the item is kept with quantity
    1. *)
Definition parse_item_line (idx : nat) (item_line : string) : option pyval * list string :=
  let item_line := Py.strip item_line in
  if String.eqb item_line "" then (None, [])
  else
    match Py.strip <$> Py.split_on ";" item_line with
    | item_name :: item_price_str :: item_category :: more =>
        let item_quantity_str := default "1" (more !! 0) in
        let item_unit := default "unit" (more !! 1) in
        match py_float E item_price_str with
        | None =>
            (None, ["Item '" +:+ item_name +:+ "': Invalid price '" +:+ item_price_str
                    +:+ "'. Must be a number."])
        | Some item_price =>
            let parsed_quantity :=
              if Py.contains_char "." item_quantity_str
              then PFloat <$> py_float E item_quantity_str
              else PInt <$> py_int E item_quantity_str in
            let quantity := default (PInt 1) parsed_quantity in
            let errs :=
              match parsed_quantity with
              | Some _ => []
              | None => ["Item '" +:+ item_name +:+ "': Invalid quantity '" +:+ item_quantity_str
                         +:+ "'. Defaulting to 1."]
              end in
            let positive :=
              match quantity with
              | PInt z => (0 <? z)%Z
              | _ => PrimFloat.ltb 0%float (as_float quantity)
              end in
            let price_per_unit :=
              if positive then py_round2 E (item_price / as_float quantity)%float else item_price in
            (Some (PDict {[ "item_name" := PStr item_name;
                            "item_price" := PFloat item_price;
                            "grocery_category" := PStr item_category;
                            "quantity" := quantity;
                            "unit_of_measurement" := PStr item_unit;
                            "price_per_unit" := PFloat price_per_unit ]}), errs)
        end
    | _ =>
        (None, ["Item line " +:+ Py.str_of_Z (Z.of_nat (idx + 1)) +:+ " ('" +:+ Py.take 30 item_line
                +:+ "...') has too few parts. Expected: Name; Price; Category; [Quantity; Unit]"])
    end.

Fixpoint parse_items (idx : nat) (item_lines_raw : list string) : list pyval * list string :=
  match item_lines_raw with
  | [] => ([], [])
  | item_line :: rest =>
      let '(item, errs) := parse_item_line idx item_line in
      let '(items, more) := parse_items (S idx) rest in
      (option_list item ++ items, errs ++ more)
  end.

(** [corrected_data] of [handle_simple_edit_receipt_command]: each
    header the user gave, else the original's; the parsed items. *)
Definition corrected_data_of (parsed_header_data original_receipt_data : dict)
    (today_str : string) (parsed_items : list pyval) : dict :=
  let from_header (k : string) (dflt : pyval) : pyval :=
    py_get_default parsed_header_data k dflt in
  {[ "store_name" := from_header "store_name" (py_get original_receipt_data "store_name");
     "date" := from_header "date" (py_get_default original_receipt_data "date" (PStr today_str));
     "total_price" := from_header "total_price" (py_get original_receipt_data "total_price");
     "currency_code" := from_header "currency_code" (py_get original_receipt_data "currency_code");
     "items" := PList parsed_items ]}.

Definition handle_simple_edit_receipt_command (user_id_str full_edit_text : string) : M string :=
  if negb (db_initialized E) then mret "Database not initialized."
  else
    approved ← is_user_approved user_id_str;
    if negb approved then mret not_approved_notice
    else
      let '(doc_id, parsed_header_data, item_lines_raw, parse_errors) :=
        parse_edited_receipt_text full_edit_text in
      match doc_id with
      | Some (String c r as doc_id_to_edit) =>
          if negb (bool_decide (parse_errors = [])) && bool_decide (item_lines_raw = []) then
            mret ("Error parsing receipt headers:" +:+ nl +:+ Py.join nl parse_errors +:+ nl +:+
                  "Please check the format for Store, Date, Total, and Ref ID.")
          else
            receipt_doc ← get_doc receipts doc_id_to_edit;
            match receipt_doc with
            | None =>
                mret (edit_not_found doc_id_to_edit)
            | Some original_receipt_data =>
                ok ← may_edit user_id_str original_receipt_data;
                if negb ok then
                  mret (edit_not_authorized doc_id_to_edit)
                else
                  w ← get_world;
                  let '(parsed_items, item_parse_errors) := parse_items 0 item_lines_raw in
                  let all_errors := parse_errors ++ item_parse_errors in
                  match all_errors with
                  | _ :: _ =>
                      mret ("Found errors in your edit input:" +:+ nl +:+ Py.join nl all_errors +:+
                            nl +:+ nl +:+ "Please correct these and try `/edit` again.")
                  | [] =>
                      let corrected_data :=
                        corrected_data_of parsed_header_data original_receipt_data
                          (todays_date_str w) parsed_items in
                      _ ← write_receipts (λ now, fs_set now doc_id_to_edit
                             (update_payload corrected_data original_receipt_data user_id_str));
                      mret (simple_edit_success doc_id_to_edit)
                  end
            end
      | _ =>
          mret ("Error parsing your edit request:" +:+ nl +:+
                Py.join nl ("Could not identify the Receipt Reference ID." :: parse_errors) +:+ nl +:+
                "Please use the specified format.")
      end.

Definition delete_receipt_from_firestore (acting_user_id_str doc_id_to_delete : string) : M string :=
  if negb (db_initialized E) then mret "Database not initialized."
  else
    receipt_doc ← get_doc receipts doc_id_to_delete;
    match receipt_doc with
    | None => mret (delete_not_found doc_id_to_delete)
    | Some original_receipt_data =>
        let is_admin_deleting := is_user_admin acting_user_id_str in
        let user_is_uploader :=
          py_eq_str (py_get original_receipt_data "telegramUserId") acting_user_id_str in
        if negb (is_admin_deleting || user_is_uploader) then
          mret (delete_not_authorized doc_id_to_delete)
        else
          _ ← write_receipts (λ _, fs_delete doc_id_to_delete);
          mret (delete_success doc_id_to_delete)
    end.

(** ** The webhook *)

(** The closure [send_tg_message] of [telegram_webhook]. *)
Definition send_tg_message (chat_id_int : Z) (text : string)
    (reply_markup : option InlineKeyboardMarkup) (parse_mode : option string) : M unit :=
  if negb (bot_initialized E) || (chat_id_int =? 0)%Z then mret tt
  else try_except (bot_send_message (PInt chat_id_int) text reply_markup parse_mode) (λ _, mret tt).

(** A call of a name the module never binds. *)
Definition undefined_name {A : Type} (name : string) : M A :=
  raise (NameError ("name '" +:+ name +:+ "' is not defined")).

Definition OK : Response := HttpResponse "OK" 200.
Definition return_OK : M Response := mret OK.

(** The text after [/admincreategroup]: a quoted name and the ids after
    it, or the first word and the ids after it.  The quoted form is the
    source's [re.match]: an opening quote of either kind, the shortest
    run of characters (no line break) up to the next quote of either
    kind, white space, and the rest of that line. *)
Definition is_quote (c : ascii) : bool :=
  Ascii.eqb c "034" || Ascii.eqb c "'".

Fixpoint until_quote (s : string) : option (string * string) :=
  match s with
  | EmptyString => None
  | String c r =>
      if is_quote c then Some (EmptyString, r)
      else if Ascii.eqb c "010" then None
      else '(name, rest) ← until_quote r; Some (String c name, rest)
  end.

Fixpoint first_line (s : string) : string :=
  match s with
  | EmptyString => EmptyString
  | String c r => if Ascii.eqb c "010" then EmptyString else String c (first_line r)
  end.

Definition parse_admincreategroup (full_arg_string : string) : string * list string :=
  match full_arg_string with
  | EmptyString => ("", [])
  | String c r =>
      match (if is_quote c then until_quote r else None) with
      | Some (name, rest) => (name, Py.split (first_line (Py.lstrip rest)))
      | None =>
          match Py.split_maxsplit1 full_arg_string with
          | [p0] => (p0, [])
          | [p0; p1] => (p0, Py.split p1)
          | _ => ("", [])
          end
      end
  end.

(** The admin block.  The result tells whether the webhook returns right
    after it. *)
Definition admin_commands (chat_id_int : Z) (user_id_str command_action full_arg_string : string)
    (command_args_list : list string) : M bool :=
  let send := send_tg_message chat_id_int in
  let cmd (c : string) := String.eqb command_action c in
  let not_menu := negb (cmd "/start" || cmd "/menu" || cmd "main_menu") in
  if cmd "/adminhelp" then
    _ ← send ("Admin Commands:" +:+ nl +:+
              "/listusers [pending|approved|banned|all]" +:+ nl +:+
              "/approveuser <user_id>" +:+ nl +:+
              "/banuser <user_id>" +:+ nl +:+
              "/setuserstatus <user_id> <status>" +:+ nl +:+
              "/admincreategroup <group_name> [user_id1 user_id2 ...]" +:+ nl +:+
              "/addusertogroup <user_id> <group_id>" +:+ nl +:+
              "/removeuserfromgroup <user_id> <group_id>" +:+ nl +:+
              "/deletegroup <group_id>") None None;
    mret not_menu
  else if cmd "/listusers" then
    text ← admin_list_users (default "all" (command_args_list !! 0));
    _ ← send text None (Some "Markdown"); mret not_menu
  else if cmd "/approveuser" then
    text ← match command_args_list with
           | a :: _ => admin_set_user_status a "approved"
           | [] => mret "Usage: /approveuser <user_id>"
           end;
    _ ← send text None (Some "Markdown"); mret not_menu
  else if cmd "/banuser" then
    text ← match command_args_list with
           | a :: _ => admin_set_user_status a "banned"
           | [] => mret "Usage: /banuser <user_id>"
           end;
    _ ← send text None (Some "Markdown"); mret not_menu
  else if cmd "/setuserstatus" then
    text ← match command_args_list with
           | [a; b] => admin_set_user_status a b
           | _ => mret "Usage: /setuserstatus <user_id> <approved|banned|pending_approval>"
           end;
    _ ← send text None (Some "Markdown"); mret not_menu
  else if cmd "/admincreategroup" then
    let '(group_name_adm, initial_m_adm) := parse_admincreategroup full_arg_string in
    _ ← (if String.eqb group_name_adm "" then
           send ("Usage: /admincreategroup " +:+ dq +:+ "Group Name" +:+ dq +:+ " [UserID1 UserID2 ...]")
                None None
         else
           r ← create_group_in_firestore user_id_str group_name_adm initial_m_adm;
           send r.2 None (Some "MarkdownV2"));
    mret true
  else if cmd "/addusertogroup" then
    text ← match command_args_list with
           | [a; b] => undefined_name "admin_add_user_to_group"
           | _ => mret "Usage: /addusertogroup <user_id> <group_id>"
           end;
    _ ← send text None (Some "Markdown"); mret not_menu
  else if cmd "/removeuserfromgroup" then
    text ← match command_args_list with
           | [a; b] => admin_remove_user_from_group a b
           | _ => mret "Usage: /removeuserfromgroup <user_id> <group_id>"
           end;
    _ ← send text None (Some "Markdown"); mret not_menu
  else if cmd "/deletegroup" then
    text ← match command_args_list with
           | a :: _ => admin_delete_group a
           | [] => mret "Usage: /deletegroup <group_id>"
           end;
    _ ← send text None (Some "Markdown"); mret not_menu
  else if cmd "admin_menu" then
    _ ← send "Admin Panel:" (Some build_admin_menu_keyboard) None; mret not_menu
  else if cmd "admin_list_pending" then
    text ← admin_list_users "pending_approval";
    _ ← send text None (Some "Markdown"); mret not_menu
  else if cmd "admin_list_approved" then
    text ← admin_list_users "approved";
    _ ← send text None (Some "Markdown"); mret not_menu
  else if cmd "admin_list_all" then
    text ← admin_list_users "all";
    _ ← send text None (Some "Markdown"); mret not_menu
  else if cmd "admin_approve_prompt" then
    _ ← send "Type: `/approveuser USER_ID_TO_APPROVE`" None None; mret not_menu
  else if cmd "admin_ban_prompt" then
    _ ← send "Type: `/banuser USER_ID_TO_BAN`" None None; mret not_menu
  else if cmd "admin_creategroup_prompt" then
    _ ← send ("Type: `/admincreategroup " +:+ dq +:+ "Group Name" +:+ dq
              +:+ " OptionalUserID1 OptionalUserID2 ...`") None None;
    mret not_menu
  else if cmd "admin_addtogroup_prompt" then
    _ ← send "Type: `/addusertogroup USER_ID_TO_ADD GROUP_ID`" None None; mret not_menu
  else if cmd "admin_removefromgroup_prompt" then
    _ ← send "Type: `/removeuserfromgroup USER_ID_TO_REMOVE GROUP_ID`" None None; mret not_menu
  else if cmd "admin_deletegroup_prompt" then
    _ ← send "Type: `/deletegroup GROUP_ID_TO_DELETE`" None None; mret not_menu
  else mret false.

(** The receipt the image pipeline saves for a draft: the extractor's
    date is dropped for today's, the uploader and (if any) the group are
    recorded, and the document is stamped. *)
Definition receipt_data_to_save (receipt_data_from_llm : dict) (todays_date_str user_id_str : string)
    (current_group_id : pyval) : dict :=
  let d := delete "date" receipt_data_from_llm in
  let d := <["date" := PStr todays_date_str]> d in
  let d := <["telegramUserId" := PStr user_id_str]> d in
  let d := if py_truthy current_group_id then <["groupId" := current_group_id]> d
           else delete "groupId" d in
  let d := <["uploadTimestamp" := SERVER_TIMESTAMP]> d in
  let d := <["lastUpdatedAt" := SERVER_TIMESTAMP]> d in
  <["isVerifiedByUser" := PBool false]> d.

(** [detected_mime_type if detected_mime_type else "image/jpeg"] *)
Definition mime_type_for_llm (detected_mime_type : option string) : string :=
  match detected_mime_type with
  | Some (String _ _ as m) => m
  | _ => "image/jpeg"
  end.

(** The [try] block of the image pipeline. *)
Definition process_image (chat_id_int : Z) (user_id_str file_id_for_download : string)
    (detected_mime_type : option string) : M unit :=
  let send := send_tg_message chat_id_int in
  image_bytes ← match download_file E file_id_for_download with
                | inl e => raise e
                | inr b => mret b
                end;
  receipt_data_from_llm ← match call_llm_for_receipt E image_bytes
                                  (mime_type_for_llm detected_mime_type) with
                          | inl e => raise e
                          | inr v => mret v
                          end;
  draft ← match receipt_data_from_llm with
          | PDict d => mret d
          | PList _ => raise (TypeError "pop expected at most 1 argument, got 2")
          | _ => raise (AttributeError "object has no attribute 'copy'")
          end;
  w ← get_world;
  current_group_id ← get_user_group_id user_id_str;
  let to_save := receipt_data_to_save draft (todays_date_str w) user_id_str current_group_id in
  w ← get_world;
  let doc_id := auto_id E (receipts (db w)) in
  _ ← write_receipts (λ now, fs_set now doc_id to_save);
  formatted_message_to_user ← format_single_receipt_for_view to_save;
  if (4000 <? String.length formatted_message_to_user)%nat then
    total ← fmt_2f (py_get_default to_save "total_price" (PFloat 0%float));
    send ("ğŸ§¾ Receipt Processed & Saved (Ref: `" +:+ doc_id +:+ "`)" +:+ nl +:+
          "Store: " +:+ fstr (py_get_default to_save "store_name" (PStr "N/A")) +:+ nl +:+
          "Date: " +:+ fstr (py_get_default to_save "date" (PStr "N/A")) +:+ nl +:+
          "Total: " +:+ total +:+ " " +:+ fstr (py_get_default to_save "currency_code" (PStr ""))
          +:+ nl +:+ nl +:+
          "The full details were too long to display here. " +:+
          "You can still edit it using the Ref ID and the JSON structure if needed. " +:+
          "To edit, see instructions after sending `/edithelp` or refer to the standard edit format.")
         None (Some "Markdown")
  else send formatted_message_to_user None (Some "Markdown").

(** The image pipeline with its three [except] clauses. *)
Definition image_pipeline (chat_id_int : Z) (user_id_str file_id_for_download : string)
    (detected_mime_type : option string) : M unit :=
  let send := send_tg_message chat_id_int in
  _ ← send "Got your image! Analyzing with Gemini Vision..." None None;
  try_except (process_image chat_id_int user_id_str file_id_for_download detected_mime_type)
    (λ e, match e with
          | ValueError ve => send ("Receipt Processing Error: " +:+ ve) None None
          | TelegramError _ =>
              send "A Telegram error occurred while processing your receipt." None None
          | _ => send "An unexpected error occurred while processing the receipt image." None None
          end).

Definition edit_instructions : string :=
  "To edit, send a message starting with `/edit` on a new line, then paste the `Ref:` line, followed by the corrected details in this format (one item per line):"
  +:+ nl +:+ nl +:+
  "`Ref: <PASTE_REF_ID_HERE>`" +:+ nl +:+
  "`Store: New Store Name (optional)`" +:+ nl +:+
  "`Date: YYYY-MM-DD (optional)`" +:+ nl +:+
  "`Total: <new_total_price>`" +:+ nl +:+
  "`Item Name 1; Price 1; Category 1; Quantity 1; Unit 1`" +:+ nl +:+
  "`...`" +:+ nl +:+ nl +:+
  "Use semicolons (;) to separate item details.".

(** Whether the update is a callback query that carries its message. *)
Definition callback_message (u : Update) : option Message :=
  cq ← upd_callback_query u; cq_message cq.

(** The first [if]/[elif] chain of the regular handlers: the delete
    commands. *)
Definition delete_commands (u : Update) (chat_id_int : Z) (user_id_str command_action : string) : M unit :=
  let send := send_tg_message chat_id_int in
  if String.eqb command_action "/deletereceipts" then
    approved ← is_user_approved user_id_str;
    if negb approved then send "Your account is not approved for this action." None None
    else
      r ← get_recent_receipts_for_user user_id_str;
      m ← format_receipt_list_for_delete r.1 r.2;
      send m.1 m.2 (Some "Markdown")
  else if Py.startswith command_action "del_confirm_req_" then
    let doc_id_to_confirm := Py.remove_all "del_confirm_req_" command_action in
    if String.eqb doc_id_to_confirm "" then send "Error: Invalid receipt reference in button." None None
    else
      receipt_to_confirm ← get_receipt_details_for_view doc_id_to_confirm;
      match receipt_to_confirm with
      | Some receipt =>
          if negb (py_truthy (PDict receipt)) then
            send ("Error: Receipt Ref: `" +:+ doc_id_to_confirm +:+ "` not found (maybe already deleted?).")
                 None (Some "Markdown")
          else
            let is_admin_req := is_user_admin user_id_str in
            let user_is_uploader_req := py_eq_str (py_get receipt "telegramUserId") user_id_str in
            if negb (is_admin_req || user_is_uploader_req) then
              send ("Error: You are not authorized to delete receipt Ref: `" +:+ doc_id_to_confirm +:+ "`.")
                   None (Some "Markdown")
            else
              total ← fmt_2f (py_get_default receipt "total_price" (PFloat 0%float));
              let confirm_text :=
                "â“ **Confirm Deletion**" +:+ nl +:+ nl +:+
                "Are you sure you want to permanently delete receipt:" +:+ nl +:+
                "Ref: `" +:+ doc_id_to_confirm +:+ "`" +:+ nl +:+
                "Store: " +:+ escape_markdown_v2 (py_get_default receipt "store_name" (PStr "N/A")) +:+ nl +:+
                "Date: " +:+ fstr (py_get_default receipt "date" (PStr "N/A")) +:+ nl +:+
                "Total: " +:+ total +:+ " " +:+ fstr (py_get_default receipt "currency_code" (PStr ""))
                +:+ nl +:+ nl +:+
                "âš ï¸ This action cannot be undone!" in
              send confirm_text (Some (build_delete_confirmation_keyboard doc_id_to_confirm))
                   (Some "MarkdownV2")
      | None =>
          send ("Error: Receipt Ref: `" +:+ doc_id_to_confirm +:+ "` not found (maybe already deleted?).")
               None (Some "Markdown")
      end
  else if Py.startswith command_action "del_do_" then
    let doc_id_to_delete := Py.remove_all "del_do_" command_action in
    if String.eqb doc_id_to_delete "" then
      send "Error: Invalid receipt reference in delete confirmation." None None
    else
      delete_result_message ← delete_receipt_from_firestore user_id_str doc_id_to_delete;
      match callback_message u with
      | Some _ => undefined_name "edit_tg_message"
      | None => send delete_result_message None (Some "MarkdownV2")
      end
  else if Py.startswith command_action "del_cancel_" then
    let doc_id_cancelled := Py.remove_all "del_cancel_" command_action in
    let cancel_message := "Deletion cancelled for receipt Ref: `" +:+ doc_id_cancelled +:+ "`." in
    match callback_message u with
    | Some _ => undefined_name "edit_tg_message"
    | None => send cancel_message None (Some "MarkdownV2")
    end
  else mret tt.

(** The second chain: menus, summaries, [/edit], the fallbacks, the
    receipt lists and the receipt view, in the order of the source. *)
Definition menu_commands (u : Update) (chat_id_int : Z)
    (user_id_str : string) (text_payload : option string)
    (command_action full_arg_string : string) (command_args_list : list string)
    (month : string * string * string) : M unit :=
  let send := send_tg_message chat_id_int in
  let cmd (c : string) := String.eqb command_action c in
  let '(start_of_month, end_of_month, current_month_year_str) := month in
  let message_text := m ← upd_message u; msg_text m in
  let has_photo := match upd_message u with Some m => negb (bool_decide (msg_photo m = [])) | None => false end in
  let truthy_str (s : option string) := negb (String.eqb (default "" s) "") in
  if cmd "main_menu" then
    send "Main Menu:" (Some (build_main_menu_keyboard (is_user_admin user_id_str))) None
  else if cmd "group_menu_user" then
    kb ← build_user_group_menu_keyboard user_id_str;
    send "Group Options:" (Some kb) None
  else if cmd "mygroup_info_action" then
    text ← get_my_group_info user_id_str; send text None (Some "Markdown")
  else if cmd "leavegroup_action_user" then
    text ← user_leave_group user_id_str; send text None None
  else if cmd "summary_current_month" then
    text ← get_spending_by_date_range_for_user user_id_str start_of_month end_of_month;
    send text None None
  else if cmd "summary_category_current_month" then
    text ← get_spending_by_category_for_user user_id_str current_month_year_str; send text None None
  else if cmd "summary_store_current_month" then
    text ← get_spending_by_store_for_user user_id_str current_month_year_str; send text None None
  else if cmd "summary_avg_receipt_current_month" then
    text ← get_average_receipt_value_for_user user_id_str current_month_year_str; send text None None
  else if cmd "summary_date_range_prompt" then
    send ("To get a summary for a custom date range, type:" +:+ nl +:+
          "`/daterange YYYY-MM-DD YYYY-MM-DD`") None None
  else if cmd "/daterange" then
    match command_args_list with
    | [a; b] => text ← get_spending_by_date_range_for_user user_id_str a b; send text None None
    | _ => send "Usage: /daterange YYYY-MM-DD_START YYYY-MM-DD_END" None None
    end
  else if cmd "/creategroup" then
    send "Group creation is managed by the administrator. You can ask them to create a group for you."
         None None
  else if cmd "/joingroup" then
    send "To join a group, please ask the administrator to add you using your User ID." None None
  else if cmd "/edit" then
    let edit_data_payload :=
      if negb (String.eqb full_arg_string "") then full_arg_string
      else
        match message_text with
        | Some (String _ _ as t) =>
            match Py.split_on1 "010" (Py.strip t) with
            | [l0; l1] => if String.eqb (Py.lower (Py.strip l0)) "/edit" then Py.strip l1 else ""
            | _ => ""
            end
        | _ => ""
        end in
    if String.eqb edit_data_payload "" then send edit_instructions None (Some "Markdown")
    else
      edit_result_message ← handle_simple_edit_receipt_command user_id_str edit_data_payload;
      send edit_result_message None (Some "Markdown")
  else if truthy_str message_text && String.eqb command_action ""
          && negb (bool_decide (text_payload = Some "/start")) then
    send "I didn't understand that. Send a receipt image or use /menu for options." None None
  else if bool_decide (is_Some (upd_callback_query u)) && String.eqb command_action "" then mret tt
  else if negb (truthy_str text_payload) && negb has_photo then mret tt
  else if cmd "list_receipts_action" || cmd "/listreceipts" then
    r ← get_recent_receipts_for_user user_id_str;
    m ← format_receipt_list_for_display r.1 r.2;
    send m.1 m.2 (Some "Markdown")
  else if cmd "delete_receipts_action" || cmd "/deletereceipts" then
    approved ← is_user_approved user_id_str;
    if negb approved then send "Your account is not approved." None None
    else
      r ← get_recent_receipts_for_user user_id_str;
      m ← format_receipt_list_for_delete r.1 r.2;
      send m.1 m.2 (Some "Markdown")
  else if Py.startswith command_action "view_receipt_" then
    let doc_id_to_view := Py.remove_all "view_receipt_" command_action in
    if String.eqb doc_id_to_view "" then send "Error: Invalid receipt reference in button." None None
    else
      receipt_details ← get_receipt_details_for_view doc_id_to_view;
      match receipt_details with
      | Some details =>
          if negb (py_truthy (PDict details)) then
            send ("Error: Could not find receipt details for Ref: `" +:+ doc_id_to_view +:+ "`")
                 None (Some "Markdown")
          else
            ok ← may_edit user_id_str details;
            if negb ok then
              send ("Error: You are not authorized to view receipt `" +:+ doc_id_to_view +:+ "`.")
                   None (Some "Markdown")
            else
              formatted_detail_view ← format_single_receipt_for_view details;
              send formatted_detail_view None (Some "Markdown")
      | None =>
          send ("Error: Could not find receipt details for Ref: `" +:+ doc_id_to_view +:+ "`")
               None (Some "Markdown")
      end
  else mret tt.

(** [chat_id_int], [user_id_str] and [text_payload] of an update, with
    the acknowledgement of a callback query. *)
Definition identify (u : Update) : M (Z * option string * option string) :=
  match upd_message u with
  | Some m =>
      match msg_from_user m with
      | Some uid => mret (msg_chat_id m, Some (Py.str_of_Z uid), msg_text m)
      | None => raise (AttributeError "'NoneType' object has no attribute 'id'")
      end
  | None =>
      match upd_callback_query u with
      | Some cq =>
          match cq_message cq with
          | Some m =>
              _ ← try_except (modify (emit (answer_callback_query (cq_id cq)))) (λ _, mret tt);
              mret (msg_chat_id m, Some (Py.str_of_Z (cq_from_user cq)), cq_data cq)
          | None => raise (AttributeError "'NoneType' object has no attribute 'chat'")
          end
      | None => mret (0%Z, None, None)
      end
  end.

(** [command_action], [full_arg_string] and [command_args_list]. *)
Definition parse_command (u : Update) (text_payload : option string) : string * string * list string :=
  match text_payload with
  | Some (String _ _ as t) =>
      if Py.startswith t "/" then
        match Py.split_maxsplit1 t with
        | [p0] => (Py.lower p0, "", [])
        | [p0; p1] => (Py.lower p0, p1, Py.split p1)
        | _ => ("", "", [])
        end
      else if bool_decide (is_Some (upd_callback_query u)) then (t, "", [])
      else ("", "", [])
  | _ => ("", "", [])
  end.

(** The file to analyse, if the message carries an image; a document
    that is no image is answered on the spot. *)
Definition image_to_process (u : Update) (chat_id_int : Z) : M (option (string * option string)) :=
  match upd_message u with
  | Some m =>
      match last (msg_photo m) with
      | Some photo_file_id => mret (Some (photo_file_id, Some "image/jpeg"))
      | None =>
          match msg_document m with
          | Some doc =>
              match doc_mime_type doc with
              | Some (String _ _ as mime) =>
                  if Py.startswith mime "image/" then mret (Some (doc_file_id doc, Some mime))
                  else
                    _ ← send_tg_message chat_id_int
                          "You sent a file, but it doesn't appear to be an image. Please send a photo or an image file (JPEG, PNG)."
                          None None;
                    mret None
              | _ =>
                  _ ← send_tg_message chat_id_int
                        "You sent a file, but it doesn't appear to be an image. Please send a photo or an image file (JPEG, PNG)."
                        None None;
                  mret None
              end
          | None => mret None
          end
      end
  | None => mret None
  end.

(** Everything [telegram_webhook] does once the update is identified. *)
Definition handle_update (u : Update) (chat_id_int : Z) (user_id_str : string)
    (text_payload : option string) : M Response :=
  let send := send_tg_message chat_id_int in
  user_profile ← ensure_user_profile_exists user_id_str (PInt chat_id_int);
  let current_user_status := py_get_default user_profile "status" (PStr "pending_approval") in
  let is_current_user_admin := is_user_admin user_id_str in
  let '(command_action, full_arg_string, command_args_list) := parse_command u text_payload in
  handled ← (if is_current_user_admin
             then admin_commands chat_id_int user_id_str command_action full_arg_string command_args_list
             else mret false : M bool);
  if (handled : bool) then return_OK
  else
    let pending := py_eq_str current_user_status "pending_approval" in
    let banned := py_eq_str current_user_status "banned" in
    started ←
      (if String.eqb command_action "/start" then
         if pending && negb is_current_user_admin then mret None
         else if banned && negb is_current_user_admin then
           _ ← send "Your account access has been restricted." None None; mret None
         else mret (Some "main_menu")
       else mret (Some command_action) : M (option string));
    match started with
    | None => return_OK
    | Some command_action =>
        let nonempty := negb (String.eqb command_action "") in
        if negb is_current_user_admin && pending then
          _ ← (if nonempty && negb (String.eqb command_action "/start") then
                 send ("Your account is pending approval. Your User ID is `" +:+ user_id_str
                       +:+ "`. Please wait or contact the administrator.") None (Some "Markdown")
               else mret tt);
          return_OK
        else if negb is_current_user_admin && banned then
          _ ← (if nonempty && negb (String.eqb command_action "/start") then
                 send "Your account access has been restricted." None None
               else mret tt);
          return_OK
        else
          image ← image_to_process u chat_id_int;
          match image with
          | Some (file_id_for_download, detected_mime_type) =>
              _ ← image_pipeline chat_id_int user_id_str file_id_for_download detected_mime_type;
              return_OK
          | None =>
              month ← get_current_month_start_end;
              _ ← delete_commands u chat_id_int user_id_str command_action;
              _ ← menu_commands u chat_id_int user_id_str text_payload command_action
                    full_arg_string command_args_list month;
              return_OK
          end
    end.

(** The HTTP entry point. *)
Definition telegram_webhook (req : Request) : M Response :=
  if negb (bot_initialized E) then
    mret (HttpResponse "Internal Server Error: Bot configuration issue" 500)
  else if negb (String.eqb (req_method req) "POST") then
    mret (HttpResponse "Method Not Allowed" 405)
  else
    match req_json req with
    | Unparseable => mret (HttpResponse "Bad Request: Could not parse JSON" 400)
    | NotAnObject => mret (HttpResponse "Bad Request: Invalid JSON payload" 400)
    | EmptyObject => mret (HttpResponse "Bad Request: Empty update" 400)
    | UpdateJson u =>
        ids ← identify u;
        match ids with
        | (chat_id_int, Some user_id_str, text_payload) =>
            if (chat_id_int =? 0)%Z then
              mret (HttpResponse "Bad Request: Invalid Telegram update structure" 400)
            else handle_update u chat_id_int user_id_str text_payload
        | _ => mret (HttpResponse "Bad Request: Invalid Telegram update structure" 400)
        end
    end.

End WithEnv.

(** The value a computation returns on a world, and the world it leaves. *)
Definition result {A : Type} (m : M A) (w : World) : outcome A := (m w).1.
Definition after {A : Type} (m : M A) (w : World) : World := (m w).2.

(** The same world at a later server time. *)
Definition set_clock (t : Z) (w : World) : World := mkWorld (db w) (outbox w) t (today w).

(** The profile fields whose value the server assigns on a write. *)
Definition server_timestamp_fields : list string := ["requestedAt"; "createdAt"; "updatedAt"].

(** ** A sample deployment

    One concrete environment and a few concrete worlds, for the examples
    and instances below.  The admin is user 1; users 7 and 9 are approved,
    user 7 has uploaded receipt [r1]. *)

Definition demo_env : Env := {|
  ADMIN_USER_ID := Some "1";
  db_initialized := true;
  bot_initialized := true;
  auto_id := λ c, "doc" +:+ Py.str_of_Z (Z.of_nat (size c));
  fs_leb := λ a b,
    match a, b with
    | PStr x, PStr y => String.leb x y
    | PTimestamp x, PTimestamp y => (x <=? y)%Z
    | _, _ => true
    end;
  py_str := λ _, "?";
  format_2f := λ f,
    if PrimFloat.eqb f 10%float then "10.00"
    else if PrimFloat.eqb f 15.5%float then "15.50" else "?";
  py_float := λ s, if String.eqb s "12.5" then Some 12.5%float else None;
  py_int := λ s, if String.eqb s "1" then Some 1%Z else None;
  py_round2 := λ f, f;
  strptime_ymd := λ s, bool_decide (String.length s = 10);
  download_file := λ _, inr "jpeg bytes";
  call_llm_for_receipt := λ _ _,
    inr (PDict {[ "store_name" := PStr "Shop"; "date" := PStr "2023-01-01";
                  "total_price" := PFloat 15.5%float; "items" := PList [] ]});
  json_loads := λ s,
    if String.eqb s "{}" then inr (PDict ∅)
    else if String.eqb s "[]" then inr (PList [])
    else inl "Expecting value";
  re_search_fence := λ _, None
|}.

Definition approved_profile (uid : string) : dict :=
  {[ "telegramUserId" := PStr uid; "groupId" := PNone; "status" := PStr "approved" ]}.

Definition receipt_r1 : dict :=
  {[ "telegramUserId" := PStr "7"; "date" := PStr "2024-06-01";
     "uploadTimestamp" := PTimestamp 5; "lastUpdatedAt" := PTimestamp 5;
     "isVerifiedByUser" := PBool false;
     "store_name" := PStr "Shop"; "total_price" := PInt 10; "items" := PList [] ]}.

Definition demo_store : Store :=
  mkStore {[ "1" := approved_profile "1"; "7" := approved_profile "7"; "9" := approved_profile "9" ]}
          ∅
          {[ "r1" := receipt_r1 ]}.

Definition demo_world : World := mkWorld demo_store [] 100 (2024, 6, 15)%Z.

(** The same deployment before any receipt was uploaded. *)
Definition demo_world_no_receipt : World :=
  mkWorld (set_receipts (λ _, ∅) demo_store) [] 100 (2024, 6, 15)%Z.

(** Updates as Telegram delivers them to chat 55. *)
Definition text_update (uid : Z) (t : string) : Request :=
  mkRequest "POST"
    (UpdateJson (mkUpdate (Some (mkMessage 55 (Some uid) (Some t) [] None 1)) None)).

Definition callback_update (uid : Z) (data : string) : Request :=
  mkRequest "POST"
    (UpdateJson (mkUpdate None
       (Some (mkCallbackQuery "cb1" uid (Some (mkMessage 55 (Some 999%Z) None [] None 2))
                              (Some data))))).

Definition photo_update (uid : Z) : Request :=
  mkRequest "POST"
    (UpdateJson (mkUpdate (Some (mkMessage 55 (Some uid) None ["f1"; "f2"] None 3)) None)).

(** ** Group operations as a transition system *)

(** The operations of the module that change a group's members.  The
    module defines no other way to join a group than being named as an
    initial member at creation ([admin_add_user_to_group] is called by the
    webhook but defined nowhere). *)
Inductive GroupOp :=
| CreateGroup (acting_user_id_str group_name_str : string) (initial_member_ids : list string)
| LeaveGroup (user_id_str : string)
| RemoveFromGroup (user_id_to_remove group_id : string)
| DeleteGroup (group_id : string).

(** The world an operation leaves, whether it returns or raises. *)
Definition run_op (E : Env) (w : World) (op : GroupOp) : World :=
  match op with
  | CreateGroup a n ids => after (create_group_in_firestore E a n ids) w
  | LeaveGroup u => after (user_leave_group E u) w
  | RemoveFromGroup u g => after (admin_remove_user_from_group E u g) w
  | DeleteGroup g => after (admin_delete_group E g) w
  end.

Definition run_ops (E : Env) (ops : list GroupOp) (w : World) : World :=
  foldl (run_op E) w ops.

(** Every stored member array is free of duplicates. *)
Definition members_nodup (w : World) : Prop :=
  ∀ gid g l,
    groups (db w) !! gid = Some g → g !! "memberUserIds" = Some (PList l) → NoDup l.

(** A group of [w'] with no members left was already there, unchanged,
    in [w]: going from [w] to [w'] emptied no group that still exists. *)
Definition no_group_left_empty (w w' : World) : Prop :=
  ∀ gid g,
    groups (db w') !! gid = Some g →
    py_truthy (py_get g "memberUserIds") = false →
    groups (db w) !! gid = Some g.

(** [keeps R m]: whatever [m] does, returning or raising, the world it
    leaves is related by [R] to the world it started on. *)
Definition keeps {A : Type} (R : World → World → Prop) (m : M A) : Prop :=
  ∀ w, R w (after m w).

(** The relation of preserving a property of worlds. *)
Definition preserving (I : World → Prop) : World → World → Prop :=
  λ w w', I w → I w'.

(** ** Vocabulary of the receipt properties *)


(** The actor's profile names the (non-null) group recorded on the
    receipt. *)
Definition in_receipt_group (E : Env) (w : World) (uid : string) (orig : dict) : Prop :=
  ∃ g, result (get_user_group_id E uid) w = Ret g ∧
       is_None (py_get orig "groupId") = false ∧
       py_eq g (py_get orig "groupId") = true.




(** The two worlds hold the same database. *)
Definition same_db (w w' : World) : Prop := db w' = db w.

(** ** Vocabulary of the aggregation property *)

(** The receipts of a stream that an aggregation counts: those whose
    [total_price] passes the program's number test. *)
Definition counted (docs : list (string * dict)) : list (string * dict) :=
  filter (λ doc, isinstance_int_float (py_get doc.2 "total_price")) docs.

(** Their totals added up in stream order, from [0.0]. *)
Definition sum_of_totals (docs : list (string * dict)) : float :=
  foldl (λ acc doc, (acc + as_float (py_get doc.2 "total_price"))%float) 0%float docs.


(** The receipt's date is a string within the closed range. *)
Definition in_closed_range (start_date_str end_date_str : string) (doc : string * dict) : Prop :=
  ∃ d, doc.2 !! "date" = Some (PStr d) ∧
       String.leb start_date_str d = true ∧ String.leb d end_date_str = true.

(** The three receipts of the specification's aggregation example, all
    uploaded by user 7: totals 10, "bad" and 5.5. *)
Definition example_receipts : gmap string dict :=
  {[ "a" := {[ "telegramUserId" := PStr "7"; "total_price" := PInt 10;
               "date" := PStr "2024-06-01" ]};
     "b" := {[ "telegramUserId" := PStr "7"; "total_price" := PStr "bad";
               "date" := PStr "2024-06-02" ]};
     "c" := {[ "telegramUserId" := PStr "7"; "total_price" := PFloat 5.5;
               "date" := PStr "2024-06-03" ]} ]}.

Definition example_world : World :=
  mkWorld (set_receipts (λ _, example_receipts) demo_store) [] 100 (2024, 6, 15)%Z.

(** ** Vocabulary of the dispatcher properties *)

(** The commands and button payloads the two chains of regular handlers
    test for by name, and the payload prefixes they test for. *)
Definition known_commands : list string :=
  ["/start"; "/deletereceipts"; "main_menu"; "group_menu_user"; "mygroup_info_action";
   "leavegroup_action_user"; "summary_current_month"; "summary_category_current_month";
   "summary_store_current_month"; "summary_avg_receipt_current_month";
   "summary_date_range_prompt"; "/daterange"; "/creategroup"; "/joingroup"; "/edit";
   "list_receipts_action"; "/listreceipts"; "delete_receipts_action"].

Definition known_prefixes : list string :=
  ["del_confirm_req_"; "del_do_"; "del_cancel_"; "view_receipt_"].

(** A non-empty command that no regular handler tests for. *)
Definition unknown_command (c : string) : bool :=
  negb (String.eqb c "") && negb (bool_decide (c ∈ known_commands))
  && forallb (λ p, negb (Py.startswith c p)) known_prefixes.

(** The commands and button payloads of the admin block. *)
Definition admin_command_names : list string :=
  ["/adminhelp"; "/listusers"; "/approveuser"; "/banuser"; "/setuserstatus";
   "/admincreategroup"; "/addusertogroup"; "/removeuserfromgroup"; "/deletegroup";
   "admin_menu"; "admin_list_pending"; "admin_list_approved"; "admin_list_all";
   "admin_approve_prompt"; "admin_ban_prompt"; "admin_creategroup_prompt";
   "admin_addtogroup_prompt"; "admin_removefromgroup_prompt"; "admin_deletegroup_prompt"].

(** The update carries neither a photo nor a document. *)
Definition no_attachment (u : Update) : Prop :=
  ∀ m, upd_message u = Some m → msg_photo m = [] ∧ msg_document m = None.

(** ** Vocabulary of the image pipeline properties *)

(** The two worlds hold the same outbox. *)
Definition same_outbox (w w' : World) : Prop := outbox w' = outbox w.

(** What the image pipeline tells the user about an exception. *)
Definition image_error_text (e : exn) : string :=
  match e with
  | ValueError ve => "Receipt Processing Error: " +:+ ve
  | TelegramError _ => "A Telegram error occurred while processing your receipt."
  | _ => "An unexpected error occurred while processing the receipt image."
  end.

(** Started on [w], a computation either returned after sending exactly
    one message to [chat], or raised without sending any. *)
Definition answers_or_raises (chat : Z) (w : World) (r : outcome unit * World) : Prop :=
  match r with
  | (Ret _, w') => ∃ text pm, outbox w' = outbox w ++ [send_message (PInt chat) text None pm]
  | (Raise _, w') => outbox w' = outbox w
  end.

(** ** Vocabulary of the group properties *)

(** What leaving a group at server time [now] does to a profile. *)
Definition left_group (now : Z) (p : dict) : dict :=
  <["groupLeftAt" := PTimestamp now]> (delete "groupId" p).

(** ** Vocabulary of the text properties *)

(** The literal text a MarkdownV2 reader takes from [s]: a backslash
    makes the character after it literal; a reserved character that no
    backslash precedes is markup, for which the reading is [None]. *)
Fixpoint markdown_v2_literal (s : string) : option string :=
  match s with
  | EmptyString => Some EmptyString
  | String c r =>
      if Ascii.eqb c "\" then
        match r with
        | String d r' => String d <$> markdown_v2_literal r'
        | EmptyString => None
        end
      else if Py.contains_char c escape_chars then None
      else String c <$> markdown_v2_literal r
  end.

(** No character of [s] satisfies [f]. *)
Fixpoint string_forall (f : ascii → bool) (s : string) : bool :=
  match s with
  | EmptyString => true
  | String c r => f c && string_forall f r
  end.

(** ** Vocabulary of the date properties *)

(** Calendar order on (year, month, day). *)
Definition date_le (a b : Z * Z * Z) : Prop :=
  let '(y1, m1, d1) := a in
  let '(y2, m2, d2) := b in
  (y1 < y2 ∨ (y1 = y2 ∧ (m1 < m2 ∨ (m1 = m2 ∧ d1 ≤ d2))))%Z.

(** A date the calendar has, with a four-digit year. *)
Definition valid_date (a : Z * Z * Z) : Prop :=
  let '(y, m, d) := a in
  (1000 ≤ y ≤ 9999 ∧ 1 ≤ m ≤ 12 ∧ 1 ≤ d ≤ days_in_month y m)%Z.

(** ** Vocabulary of the upload properties *)

(** The fields the image pipeline sets itself on a receipt it saves. *)
Definition stamped_fields : list string :=
  ["date"; "telegramUserId"; "groupId"; "uploadTimestamp"; "lastUpdatedAt"; "isVerifiedByUser"].

(** The two worlds show the same calendar date. *)
Definition same_today (w w' : World) : Prop := today w' = today w.

(** ** More sample worlds *)

(** The sample deployment with user 8 waiting for approval. *)
Definition demo_world_pending : World :=
  with_db (set_user_profiles
             (insert "8" ({[ "telegramUserId" := PStr "8"; "groupId" := PNone;
                             "status" := PStr "pending_approval" ]} : dict)))
          demo_world.

(** The sample deployment once users 7 and 9 share the group [g1]. *)
Definition demo_world_grouped : World :=
  mkWorld
    (mkStore {[ "1" := approved_profile "1";
                "7" := <["groupId" := PStr "g1"]> (approved_profile "7");
                "9" := <["groupId" := PStr "g1"]> (approved_profile "9") ]}
             {[ "g1" := {[ "groupName" := PStr "Family"; "ownerId" := PStr "1";
                           "memberUserIds" := PList [PStr "7"; PStr "9"] ]} ]}
             {[ "r1" := receipt_r1 ]})
    [] 100 (2024, 6, 15)%Z.

(** The same with the group document gone, the profiles still naming it. *)
Definition demo_world_dangling : World :=
  with_db (set_groups (λ _, ∅)) demo_world_grouped.

(** The sample environment while the Gemini API does not answer. *)
Definition offline_env : Env := {|
  ADMIN_USER_ID := ADMIN_USER_ID demo_env;
  db_initialized := db_initialized demo_env;
  bot_initialized := bot_initialized demo_env;
  auto_id := auto_id demo_env;
  fs_leb := fs_leb demo_env;
  py_str := py_str demo_env;
  format_2f := format_2f demo_env;
  py_float := py_float demo_env;
  py_int := py_int demo_env;
  py_round2 := py_round2 demo_env;
  strptime_ymd := strptime_ymd demo_env;
  download_file := download_file demo_env;
  call_llm_for_receipt := λ _ _,
    inl (ValueError "LLM API request timed out. Please try again later.");
  json_loads := json_loads demo_env;
  re_search_fence := re_search_fence demo_env
|}.

(** The updates inside [text_update] and [photo_update]. *)
Definition text_message (uid : Z) (t : string) : Update :=
  mkUpdate (Some (mkMessage 55 (Some uid) (Some t) [] None 1)) None.

Definition photo_message (uid : Z) : Update :=
  mkUpdate (Some (mkMessage 55 (Some uid) None ["f1"; "f2"] None 3)) None.

(** The sample environment reading the two numbers of the token
    [2024-02]. *)
Definition calendar_env : Env := {|
  ADMIN_USER_ID := ADMIN_USER_ID demo_env;
  db_initialized := db_initialized demo_env;
  bot_initialized := bot_initialized demo_env;
  auto_id := auto_id demo_env;
  fs_leb := fs_leb demo_env;
  py_str := py_str demo_env;
  format_2f := format_2f demo_env;
  py_float := py_float demo_env;
  py_int := λ s, if String.eqb s "2024" then Some 2024%Z
                 else if String.eqb s "02" then Some 2%Z else None;
  py_round2 := py_round2 demo_env;
  strptime_ymd := strptime_ymd demo_env;
  download_file := download_file demo_env;
  call_llm_for_receipt := call_llm_for_receipt demo_env;
  json_loads := json_loads demo_env;
  re_search_fence := re_search_fence demo_env
|}.

(** ** Vocabulary of the button properties *)

(** The update is a button press: it carries a callback query and no
    message of its own. *)
Definition callback_press (u : Update) : Prop :=
  upd_message u = None ∧ is_Some (upd_callback_query u).

(** The update inside [callback_update]. *)
Definition button_press (uid : Z) (data : string) : Update :=
  mkUpdate None
    (Some (mkCallbackQuery "cb1" uid (Some (mkMessage 55 (Some 999%Z) None [] None 2))
                           (Some data))).

(** ** Vocabulary of the webhook-wide properties *)

(** The status a world records for a user, if any. *)
Definition status_of (w : World) (uid : string) : option pyval :=
  user_profiles (db w) !! uid ≫= (.!! "status").

(** From [w] to [w'] no profile but [uid]'s has changed, and the status
    of [uid] is what it was, or was missing and is now
    [pending_approval]. *)
Definition own_profile_only (uid : string) (w w' : World) : Prop :=
  (∀ k, k ≠ uid → user_profiles (db w') !! k = user_profiles (db w) !! k) ∧
  (status_of w' uid = status_of w uid ∨
   (status_of w uid = None ∧ status_of w' uid = Some (PStr "pending_approval"))).

(** The group [get_user_group_id] reads for a user. *)
Definition group_of (E : Env) (w : World) (uid : string) : pyval :=
  match (if db_initialized E then user_profiles (db w) !! uid else None) with
  | Some p => if py_truthy (PDict p) then py_get p "groupId" else PNone
  | None => PNone
  end.

(** A receipt that [uid] neither uploaded nor shares through the group
    of their profile. *)
Definition foreign_receipt (E : Env) (w : World) (uid : string) (r : dict) : Prop :=
  py_eq_str (py_get r "telegramUserId") uid = false ∧ ¬ in_receipt_group E w uid r.

(** From [w] to [w'] the user has joined no group, and every receipt
    that was foreign to the user is stored unchanged. *)
Definition foreign_receipts_kept (E : Env) (uid : string) (w w' : World) : Prop :=
  (group_of E w' uid = group_of E w uid ∨ group_of E w' uid = PNone) ∧
  (∀ id r, receipts (db w) !! id = Some r → foreign_receipt E w uid r →
           receipts (db w') !! id = Some r).

(** The sample environment with an id generator that never returns an id
    in use. *)
Definition fresh_ids_env : Env := {|
  ADMIN_USER_ID := ADMIN_USER_ID demo_env;
  db_initialized := db_initialized demo_env;
  bot_initialized := bot_initialized demo_env;
  auto_id := λ c, fresh (dom c);
  fs_leb := fs_leb demo_env;
  py_str := py_str demo_env;
  format_2f := format_2f demo_env;
  py_float := py_float demo_env;
  py_int := py_int demo_env;
  py_round2 := py_round2 demo_env;
  strptime_ymd := strptime_ymd demo_env;
  download_file := download_file demo_env;
  call_llm_for_receipt := call_llm_for_receipt demo_env;
  json_loads := json_loads demo_env;
  re_search_fence := re_search_fence demo_env
|}.

(** * Properties *)

(** ** Running the monad *)

Lemma bind_ret {A B : Type} (m : M A) (f : A → M B) (w w' : World) (a : A) :
  m w = (Ret a, w') → (m ≫= f) w = f a w'.
Proof. intros H. unfold mbind, M_bind. by rewrite H. Qed.

Lemma bind_raise {A B : Type} (m : M A) (f : A → M B) (w w' : World) (e : exn) :
  m w = (Raise e, w') → (m ≫= f) w = (Raise e, w').
Proof. intros H. unfold mbind, M_bind. by rewrite H. Qed.

Ltac run_monad :=
  repeat (unfold mbind, M_bind, mret, M_ret, raise, get_world, modify, try_except,
            get_doc, write_profiles, write_groups, write_receipts, bot_send_message,
            result, after in *;
          simpl in *).

(** ** Frame reasoning: what a computation leaves related *)

Section Keeps.
Context (R : World → World → Prop) `{!PreOrder R}.

Lemma keeps_ret {A} (a : A) : keeps R (mret a).
Proof. intros w. reflexivity. Qed.

Lemma keeps_raise {A} e : keeps R (raise e : M A).
Proof. intros w. reflexivity. Qed.

Lemma keeps_get_world : keeps R get_world.
Proof. intros w. reflexivity. Qed.

Lemma keeps_bind {A B} (m : M A) (f : A → M B) :
  keeps R m → (∀ a, keeps R (f a)) → keeps R (m ≫= f).
Proof.
  intros Hm Hf w. specialize (Hm w). unfold after, mbind, M_bind in *.
  destruct (m w) as [[a|e] w1]; simpl in *; [|done].
  etrans; [exact Hm|]. apply Hf.
Qed.

Lemma keeps_try_except {A} (m : M A) h :
  keeps R m → (∀ e, keeps R (h e)) → keeps R (try_except m h).
Proof.
  intros Hm Hh w. specialize (Hm w). unfold after, try_except in *.
  destruct (m w) as [[a|e] w1]; simpl in *; [done|].
  etrans; [exact Hm|]. apply Hh.
Qed.

Lemma keeps_for_each {A} (l : list A) body :
  (∀ x, keeps R (body x)) → keeps R (for_each l body).
Proof.
  intros Hb. induction l as [|x l IH]; simpl.
  - apply keeps_ret.
  - apply keeps_bind; [apply Hb|intros _; exact IH].
Qed.

Lemma keeps_modify f : (∀ w, R w (f w)) → keeps R (modify f).
Proof. intros H w. apply H. Qed.

End Keeps.

Ltac keeps_step :=
  lazymatch goal with
  | |- keeps ?R (mbind _ _) => apply (keeps_bind R); [|intros ?]
  | |- keeps ?R (mret _) => apply (keeps_ret R)
  | |- keeps ?R (raise _) => apply (keeps_raise R)
  | |- keeps ?R get_world => apply (keeps_get_world R)
  | |- keeps ?R (try_except _ _) => apply (keeps_try_except R); [|intros ?]
  | |- keeps ?R (for_each _ _) => apply (keeps_for_each R); intros ?
  | |- keeps _ (if ?c then _ else _) => destruct c
  | |- keeps _ (match ?x with _ => _ end) => destruct x
  end.

Tactic Notation "keeps_bind_as" ident(x) :=
  lazymatch goal with
  | |- keeps ?R (mbind _ _) => apply (keeps_bind R); [|intros x]
  end.

Section Frames.
Context (E : Env).
Context (R : World → World → Prop) `{!PreOrder R}.

Lemma keeps_get_doc coll id : keeps R (get_doc coll id).
Proof. unfold get_doc. repeat keeps_step. Qed.

Lemma keeps_document v : keeps R (document v).
Proof. unfold document. repeat keeps_step. Qed.

Lemma keeps_get_user_profile uid : keeps R (get_user_profile E uid).
Proof. unfold get_user_profile. keeps_step; [keeps_step|apply keeps_get_doc]. Qed.

Lemma keeps_get_user_group_id uid : keeps R (get_user_group_id E uid).
Proof. unfold get_user_group_id. keeps_step; [apply keeps_get_user_profile|keeps_step]. Qed.

Lemma keeps_is_user_approved uid : keeps R (is_user_approved E uid).
Proof.
  unfold is_user_approved. keeps_step; [keeps_step|].
  keeps_step; [apply keeps_get_user_profile|keeps_step].
Qed.

Lemma keeps_get_group_name g : keeps R (get_group_name E g).
Proof.
  unfold get_group_name. keeps_step; [keeps_step|].
  keeps_step; [apply keeps_document|]. keeps_step; [apply keeps_get_doc|keeps_step].
Qed.

Lemma keeps_py_iter v : keeps R (py_iter v).
Proof. unfold py_iter. repeat keeps_step. Qed.

Lemma keeps_approved_initial_members ids : keeps R (approved_initial_members E ids).
Proof.
  induction ids as [|x ids IH]; simpl; [keeps_step|].
  keeps_step; [exact IH|].
  keeps_step; [apply keeps_get_user_profile|].
  keeps_step; [exact IH|keeps_step].
Qed.

End Frames.

Section Reads.
Context (E : Env).

Lemma get_user_profile_run uid w :
  get_user_profile E uid w =
  (Ret (if db_initialized E then user_profiles (db w) !! uid else None), w).
Proof. unfold get_user_profile. by destruct (db_initialized E). Qed.

Lemma get_user_group_id_reads uid w : ∃ g, get_user_group_id E uid w = (Ret g, w).
Proof.
  unfold get_user_group_id. eexists.
  erewrite bind_ret by apply get_user_profile_run. reflexivity.
Qed.

Lemma is_user_approved_reads uid w : ∃ b, is_user_approved E uid w = (Ret b, w).
Proof.
  unfold is_user_approved. destruct (is_user_admin E uid); [by eexists|].
  eexists. erewrite bind_ret by apply get_user_profile_run. reflexivity.
Qed.

Lemma may_edit_reads uid orig w : ∃ b, may_edit E uid orig w = (Ret b, w).
Proof.
  unfold may_edit. destruct (get_user_group_id_reads uid w) as [g Hg].
  eexists. erewrite bind_ret by exact Hg. reflexivity.
Qed.

End Reads.



Lemma resolve_lookup now (d : dict) k :
  resolve now d !! k =
  (λ v, match v with SERVER_TIMESTAMP => PTimestamp now | _ => v end) <$> d !! k.
Proof. unfold resolve. by rewrite lookup_fmap. Qed.

Lemma py_truthy_dict_insert k v (d : dict) : py_truthy (PDict (<[k := v]> d)) = true.
Proof.
  simpl. rewrite bool_decide_eq_false_2; [done|].
  intros H. apply map_size_empty_iff in H. by apply insert_non_empty in H.
Qed.

(** ** Profiles: [ensure_user_profile_exists] called twice *)

(** A second call that finds a non-empty profile with a status returns
    it and leaves the world alone. *)
Lemma ensure_existing_profile (E : Env) uid chat w p :
  db_initialized E = true →
  user_profiles (db w) !! uid = Some p →
  py_truthy (PDict p) = true →
  is_Some (p !! "status") →
  ensure_user_profile_exists E uid chat w = (Ret p, w).
Proof.
  intros Hdb Hp Ht [s Hs]. unfold ensure_user_profile_exists. rewrite Hdb. simpl.
  erewrite bind_ret by apply get_user_profile_run.
  rewrite Hdb. simpl. rewrite Hp. simpl in *. rewrite Ht. simpl. by rewrite Hs.
Qed.

(** C7 (as amended).  Two calls of [ensure_user_profile_exists] in a
    row, the second at any later server time [t2]: both return a profile;
    the second returns the stored profile and changes neither the store
    nor the outbox; the two returned profiles agree on every field other
    than the server-assigned timestamps; and the first call sends at most
    the one pending-approval welcome. *)
Theorem ensure_user_profile_twice (E : Env) (uid : string) (chat1 chat2 : pyval)
    (w : World) (t2 : Z) :
  db_initialized E = true →
  ∃ p1 p2 w1,
    ensure_user_profile_exists E uid chat1 w = (Ret p1, w1) ∧
    ensure_user_profile_exists E uid chat2 (set_clock t2 w1) = (Ret p2, set_clock t2 w1) ∧
    user_profiles (db w1) !! uid = Some p2 ∧
    (∀ k, k ∉ server_timestamp_fields → p1 !! k = p2 !! k) ∧
    (outbox w1 = outbox w ∨
     outbox w1 = outbox w ++ [send_message chat1 (welcome_text uid) None (Some "Markdown")]).
Proof.
  intros Hdb.
  unfold ensure_user_profile_exists at 1. rewrite Hdb. simpl.
  erewrite bind_ret by apply get_user_profile_run. rewrite Hdb.
  destruct (negb (profile_truthy (user_profiles (db w) !! uid))) eqn:Htruthy.
  - (* no usable profile: one is created *)
    set (st := if is_user_admin E uid then "approved" else "pending_approval").
    set (new := ({[ "telegramUserId" := PStr uid; "groupId" := PNone; "status" := PStr st;
                    "requestedAt" := SERVER_TIMESTAMP; "createdAt" := SERVER_TIMESTAMP ]} : dict)).
    set (w' := with_db (set_user_profiles (fs_set (clock w) uid new)) w).
    assert (Hstored : ∀ w1, db w1 = db w' →
              user_profiles (db w1) !! uid = Some (resolve (clock w) new)).
    { intros w1 ->. simpl. unfold fs_set. by rewrite lookup_insert_eq. }
    assert (Hagree : ∀ k, k ∉ server_timestamp_fields → new !! k = resolve (clock w) new !! k).
    { intros k Hk. rewrite resolve_lookup. unfold new.
      repeat (rewrite lookup_insert; case_decide; subst;
              [first [done | exfalso; apply Hk; set_solver]|]).
      rewrite lookup_singleton. case_decide; subst; [exfalso; apply Hk; set_solver|done]. }
    assert (Htr : py_truthy (PDict (resolve (clock w) new)) = true).
    { unfold resolve, new. rewrite fmap_insert. apply py_truthy_dict_insert. }
    assert (Hst : is_Some (resolve (clock w) new !! "status")).
    { rewrite <- Hagree by compute_done. by eexists. }
    match goal with |- context [if ?c then try_except _ _ else _] => destruct c eqn:Hsend end.
    + exists new, (resolve (clock w) new),
        (emit (send_message chat1 (welcome_text uid) None (Some "Markdown")) w').
      split_and!; [reflexivity| |by apply Hstored|done|by right].
      apply ensure_existing_profile; [done|by apply Hstored|done..].
    + exists new, (resolve (clock w) new), w'.
      split_and!; [reflexivity| |by apply Hstored|done|by left].
      apply ensure_existing_profile; [done|by apply Hstored|done..].
  - (* a profile is there *)
    destruct (user_profiles (db w) !! uid) as [p|] eqn:Hp; [|done].
    simpl in Htruthy. apply negb_false_iff in Htruthy. simpl.
    destruct (p !! "status") as [s|] eqn:Hs.
    + exists p, p, w. split_and!; [reflexivity| |exact Hp|done|by left].
      apply ensure_existing_profile; [done|exact Hp|exact Htruthy|by eexists].
    + set (upd := λ d : dict, resolve (clock w) {[ "status" := PStr "pending_approval";
                                                   "updatedAt" := SERVER_TIMESTAMP ]} ∪ d).
      assert (Hupd : upd p !! "status" = Some (PStr "pending_approval")).
      { unfold upd. rewrite lookup_union, resolve_lookup. by rewrite lookup_insert_eq, Hs. }
      exists (<["status" := PStr "pending_approval"]> p), (upd p),
             (with_db (set_user_profiles (fs_update uid upd)) w).
      split_and!; [reflexivity| | | |by left].
      * apply ensure_existing_profile; [done| | |by eexists].
        -- simpl. unfold fs_update. rewrite lookup_alter_eq. by rewrite Hp.
        -- simpl. rewrite bool_decide_eq_false_2; [done|].
           intros H. apply map_size_empty_iff in H.
           rewrite H, lookup_empty in Hupd. discriminate Hupd.
      * simpl. unfold fs_update. rewrite lookup_alter_eq. by rewrite Hp.
      * intros k Hk. unfold upd. rewrite lookup_union, resolve_lookup.
        rewrite !lookup_insert.
        destruct (decide ("status" = k)) as [<-|?]; [by rewrite Hs|].
        destruct (decide ("updatedAt" = k)) as [<-|?].
        { exfalso. apply Hk. unfold server_timestamp_fields. set_solver. }
        rewrite lookup_singleton_ne by done. destruct (p !! k); reflexivity.
Qed.

(** An instance: user 8 writes for the first time. *)
Lemma ensure_user_profile_twice_witness :
  ∃ p1 p2 w1,
    ensure_user_profile_exists demo_env "8" (PInt 55) demo_world = (Ret p1, w1) ∧
    ensure_user_profile_exists demo_env "8" (PInt 55) (set_clock 200 w1)
      = (Ret p2, set_clock 200 w1) ∧
    user_profiles (db w1) !! "8" = Some p2 ∧
    (∀ k, k ∉ server_timestamp_fields → p1 !! k = p2 !! k) ∧
    (outbox w1 = outbox demo_world ∨
     outbox w1 = outbox demo_world
                 ++ [send_message (PInt 55) (welcome_text "8") None (Some "Markdown")]).
Proof. apply (ensure_user_profile_twice demo_env "8" (PInt 55) (PInt 55) demo_world 200). reflexivity. Defined.

(** C7 as stated fails: for a new user the first call returns its
    in-memory dictionary, whose [requestedAt] is still the
    [SERVER_TIMESTAMP] placeholder, while the second call returns the
    stored document, whose [requestedAt] is a time. *)
Lemma ensure_user_profile_returns_differ :
  ∃ p1 p2,
    result (ensure_user_profile_exists demo_env "8" (PInt 55)) demo_world = Ret p1 ∧
    result (ensure_user_profile_exists demo_env "8" (PInt 55))
           (after (ensure_user_profile_exists demo_env "8" (PInt 55)) demo_world) = Ret p2 ∧
    p1 !! "requestedAt" = Some SERVER_TIMESTAMP ∧
    p2 !! "requestedAt" = Some (PTimestamp 100) ∧
    p1 ≠ p2.
Proof.
  eexists _, _. split; [vm_compute; reflexivity|]. split; [vm_compute; reflexivity|].
  split; [vm_compute; reflexivity|]. split; [vm_compute; reflexivity|].
  intros H. apply (f_equal (λ p : dict, p !! "requestedAt")) in H.
  vm_compute in H. discriminate H.
Qed.

(** ** Groups: member arrays stay duplicate-free, emptied groups go *)

#[export] Instance preserving_preorder (I : World → Prop) : PreOrder (preserving I).
Proof. split; unfold preserving; [intros w; tauto|intros w1 w2 w3; tauto]. Qed.

Section GroupInvariant.
Context (E : Env).

Local Abbreviation R := (preserving members_nodup).

Lemma nodup_same_groups w w' :
  groups (db w') = groups (db w) → preserving members_nodup w w'.
Proof. intros Heq H gid g l. rewrite Heq. apply H. Qed.

Lemma nodup_write_profiles f : keeps R (write_profiles f).
Proof. intros w. by apply nodup_same_groups. Qed.

Lemma nodup_array_remove w gid x :
  preserving members_nodup w
    (with_db (set_groups (fs_update gid (array_remove "memberUserIds" x))) w).
Proof.
  intros H gid' g' l. simpl. unfold fs_update. rewrite lookup_alter.
  case_decide as Hg; [subst gid'|by apply H].
  destruct (groups (db w) !! gid) as [g|] eqn:Hgid; [|done].
  simpl. intros [= <-]. unfold array_remove.
  destruct (g !! "memberUserIds") as [[| | | | |l0| | |]|] eqn:Hm;
    rewrite lookup_insert_eq; intros [= <-]; try apply NoDup_nil_2.
  apply NoDup_filter. by eapply H.
Qed.

Lemma nodup_delete w gid :
  preserving members_nodup w (with_db (set_groups (fs_delete gid)) w).
Proof.
  intros H gid' g' l. simpl. unfold fs_delete. rewrite lookup_delete.
  case_decide; [done|]. apply H.
Qed.

Lemma nodup_create w gid (data : dict) members :
  data !! "memberUserIds" = Some (PList (PStr <$> remove_dups members)) →
  preserving members_nodup w (with_db (set_groups (fs_set (clock w) gid data)) w).
Proof.
  intros Hd H gid' g' l. simpl. unfold fs_set. rewrite lookup_insert.
  case_decide; [|by apply H].
  intros [= <-]. rewrite resolve_lookup, Hd. simpl. intros [= <-].
  apply NoDup_fmap_2; [by intros ?? [=]|]. apply NoDup_remove_dups.
Qed.

Lemma create_group_keeps_nodup a n ids : keeps R (create_group_in_firestore E a n ids).
Proof.
  unfold create_group_in_firestore.
  keeps_step; [keeps_step|]. keeps_step; [keeps_step|].
  keeps_step. { keeps_step; [keeps_step|apply keeps_is_user_approved; apply _]. }
  keeps_step; [keeps_step|].
  keeps_step. { keeps_step; [keeps_step|apply keeps_get_user_group_id; apply _]. }
  keeps_step; [keeps_step|].
  keeps_step. { keeps_step; [apply keeps_approved_initial_members; apply _|keeps_step]. }
  keeps_step; [keeps_step|].
  keeps_step. { intros w. eapply nodup_create. by rewrite !lookup_insert_ne, lookup_singleton_eq. }
  keeps_step. { keeps_step. apply nodup_write_profiles. }
  keeps_step.
Qed.

Lemma user_leave_group_keeps_nodup u : keeps R (user_leave_group E u).
Proof.
  unfold user_leave_group.
  keeps_step; [apply keeps_is_user_approved; apply _|].
  keeps_step; [keeps_step|]. keeps_step; [keeps_step|].
  keeps_step; [apply keeps_get_user_group_id; apply _|].
  keeps_step; [keeps_step|].
  keeps_step; [apply keeps_document; apply _|].
  keeps_step; [apply keeps_get_doc; apply _|].
  keeps_step; [apply keeps_get_group_name; apply _|].
  keeps_step; [apply nodup_write_profiles|].
  keeps_step; [|keeps_step].
  keeps_step; [intros w; apply nodup_array_remove|].
  keeps_step; [apply keeps_get_doc; apply _|].
  keeps_step; [|keeps_step].
  keeps_step; [|keeps_step].
  keeps_step; [intros w; apply nodup_delete|keeps_step].
Qed.

Lemma admin_remove_keeps_nodup u g : keeps R (admin_remove_user_from_group E u g).
Proof.
  unfold admin_remove_user_from_group.
  keeps_step; [keeps_step|].
  keeps_step; [apply keeps_get_doc; apply _|].
  keeps_step; [|keeps_step].
  keeps_step; [apply keeps_get_doc; apply _|].
  keeps_step; [|keeps_step].
  keeps_step; [intros w; apply nodup_array_remove|].
  keeps_step. { keeps_step; [apply nodup_write_profiles|keeps_step]. }
  keeps_step; [apply keeps_get_doc; apply _|].
  keeps_step; [|keeps_step].
  keeps_step; [|keeps_step].
  keeps_step; [intros w; apply nodup_delete|keeps_step].
Qed.

Lemma admin_delete_group_keeps_nodup g : keeps R (admin_delete_group E g).
Proof.
  unfold admin_delete_group.
  keeps_step; [keeps_step|].
  keeps_step; [apply keeps_get_doc; apply _|].
  keeps_step; [|keeps_step].
  keeps_step; [apply keeps_py_iter; apply _|].
  keeps_step.
  { keeps_step. keeps_step; [apply keeps_document; apply _|].
    keeps_step; [apply keeps_get_doc; apply _|].
    keeps_step; [|keeps_step]. keeps_step; [apply nodup_write_profiles|keeps_step]. }
  keeps_step; [intros w; apply nodup_delete|keeps_step].
Qed.

Lemma run_op_keeps_nodup w op : members_nodup w → members_nodup (run_op E w op).
Proof.
  destruct op; simpl.
  - apply create_group_keeps_nodup.
  - apply user_leave_group_keeps_nodup.
  - apply admin_remove_keeps_nodup.
  - apply admin_delete_group_keeps_nodup.
Qed.

Lemma run_ops_keeps_nodup ops w : members_nodup w → members_nodup (run_ops E ops w).
Proof.
  revert w. induction ops as [|op ops IH]; intros w Hw; [exact Hw|].
  simpl. apply IH. by apply run_op_keeps_nodup.
Qed.

End GroupInvariant.

#[export] Instance no_group_left_empty_preorder : PreOrder no_group_left_empty.
Proof.
  split.
  - intros w gid g H _. exact H.
  - intros w1 w2 w3 H12 H23 gid g Hg He. apply H12; [|done]. by apply H23.
Qed.

Section EmptyGroups.
Context (E : Env).

Lemma empty_same_groups w w' :
  groups (db w') = groups (db w) → no_group_left_empty w w'.
Proof. intros Heq gid g. by rewrite Heq. Qed.

Lemma empty_write_profiles f : keeps no_group_left_empty (write_profiles f).
Proof. intros w. by apply empty_same_groups. Qed.

Lemma array_remove_truthy k x (g : dict) : py_truthy (PDict (array_remove k x g)) = true.
Proof.
  unfold array_remove.
  destruct (g !! k) as [[]|]; apply py_truthy_dict_insert.
Qed.

Lemma user_leave_group_no_group_left_empty u :
  keeps no_group_left_empty (user_leave_group E u).
Proof.
  unfold user_leave_group.
  keeps_step; [apply keeps_is_user_approved; apply _|].
  keeps_step; [keeps_step|]. keeps_step; [keeps_step|].
  keeps_step; [apply keeps_get_user_group_id; apply _|].
  keeps_step; [keeps_step|].
  keeps_bind_as gid; [apply keeps_document; apply _|].
  keeps_bind_as group_doc; [apply keeps_get_doc; apply _|].
  keeps_step; [apply keeps_get_group_name; apply _|].
  keeps_step; [apply empty_write_profiles|].
  destruct group_doc as [group_data|]; [|keeps_step].
  intros w gid' g'. run_monad. unfold fs_update, fs_delete. rewrite lookup_alter_eq.
  destruct (groups (db w) !! gid) as [g0|] eqn:Hg0; simpl.
  - pose proof (array_remove_truthy "memberUserIds" (PStr u) g0) as Ht.
    simpl in Ht. rewrite Ht. clear Ht. simpl.
    destruct (py_truthy (py_get (array_remove "memberUserIds" (PStr u) g0) "memberUserIds")) eqn:Hm;
      simpl.
    + rewrite lookup_alter. case_decide; [subst|done].
      rewrite Hg0. simpl. intros [= <-]. congruence.
    + rewrite lookup_delete. case_decide; [done|]. by rewrite lookup_alter_ne.
  - rewrite lookup_alter. case_decide; [subst; by rewrite Hg0|done].
Qed.

Lemma admin_remove_no_group_left_empty u g :
  keeps no_group_left_empty (admin_remove_user_from_group E u g).
Proof.
  unfold admin_remove_user_from_group.
  keeps_step; [keeps_step|].
  keeps_bind_as user_profile_doc; [apply keeps_get_doc; apply _|].
  destruct user_profile_doc as [user_profile|]; [|keeps_step].
  keeps_bind_as group_doc; [apply keeps_get_doc; apply _|].
  destruct group_doc as [group_data|]; [|keeps_step].
  intros w gid' g'. run_monad. unfold fs_update, fs_delete.
  destruct (py_eq_str (py_get user_profile "groupId") g); simpl; rewrite lookup_alter_eq;
    (destruct (groups (db w) !! g) as [g0|] eqn:Hg0; simpl;
     [ destruct (py_truthy (py_get (array_remove "memberUserIds" (PStr u) g0) "memberUserIds")) eqn:Hm;
       simpl;
       [ rewrite lookup_alter; case_decide; [subst|done];
         rewrite Hg0; simpl; intros [= <-]; congruence
       | rewrite lookup_delete; case_decide; [done|]; by rewrite lookup_alter_ne ]
     | rewrite lookup_alter; case_decide; [subst; by rewrite Hg0|done] ]).
Qed.

End EmptyGroups.

(** C6.  From a store whose member arrays have no duplicates, every
    sequence of group operations (creation with initial members, leave,
    admin removal, admin deletion) leads to such a store; and a leave or
    an admin removal never leaves behind a group it emptied: a group that
    exists with no members afterwards was there, identical, before. *)
Theorem group_members_invariant (E : Env) (ops : list GroupOp) (w : World) :
  members_nodup w →
  members_nodup (run_ops E ops w) ∧
  (∀ w0 uid, no_group_left_empty w0 (run_op E w0 (LeaveGroup uid))) ∧
  (∀ w0 uid gid, no_group_left_empty w0 (run_op E w0 (RemoveFromGroup uid gid))).
Proof.
  intros Hw. split; [by apply run_ops_keeps_nodup|]. split.
  - intros w0 uid. apply user_leave_group_no_group_left_empty.
  - intros w0 uid gid. apply admin_remove_no_group_left_empty.
Qed.

(** An instance: the admin creates a group naming user 7 twice and user
    9 once; 7 leaves; 9 is removed. *)
Lemma group_members_invariant_witness :
  members_nodup
    (run_ops demo_env
       [CreateGroup "1" "Family" ["7"; "9"; "7"]; LeaveGroup "7"; RemoveFromGroup "9" "doc0"]
       demo_world) ∧
  (∀ w0 uid, no_group_left_empty w0 (run_op demo_env w0 (LeaveGroup uid))) ∧
  (∀ w0 uid gid, no_group_left_empty w0 (run_op demo_env w0 (RemoveFromGroup uid gid))).
Proof.
  apply (group_members_invariant demo_env).
  intros gid g l H. simpl in H. rewrite lookup_empty in H. discriminate H.
Defined.

(** The run of the instance: the group exists with members 7 and 9 after
    the creation, with member 9 after 7 left, and is gone after 9 was
    removed. *)
Example group_lifecycle :
  let w1 := run_op demo_env demo_world (CreateGroup "1" "Family" ["7"; "9"; "7"]) in
  let w2 := run_op demo_env w1 (LeaveGroup "7") in
  let w3 := run_op demo_env w2 (RemoveFromGroup "9" "doc0") in
  (groups (db w1) !! "doc0" ≫= (.!! "memberUserIds")) = Some (PList [PStr "9"; PStr "7"]) ∧
  (groups (db w2) !! "doc0" ≫= (.!! "memberUserIds")) = Some (PList [PStr "9"]) ∧
  groups (db w3) !! "doc0" = None.
Proof. vm_compute. done. Qed.

(** ** Receipts: who may edit or delete *)

Section Denials.
Context (E : Env).







End Denials.


Section Unauthorized.
Context (E : Env).

Lemma may_edit_unauthorized uid orig w :
  is_user_admin E uid = false →
  py_eq_str (py_get orig "telegramUserId") uid = false →
  ¬ in_receipt_group E w uid orig →
  result (may_edit E uid orig) w = Ret false.
Proof.
  intros Hadm Hup Hgroup. unfold may_edit, result.
  destruct (get_user_group_id_reads E uid w) as [g Hg].
  erewrite bind_ret by exact Hg. simpl. rewrite Hadm, Hup. simpl.
  destruct (is_None (py_get orig "groupId")) eqn:Hnone; simpl; [done|].
  destruct (py_eq g (py_get orig "groupId")) eqn:Heq; [|done].
  exfalso. apply Hgroup. exists g. unfold result. by rewrite Hg.
Qed.

End Unauthorized.



(** The three handlers on that instance. *)
Example unauthorized_requests_of_user_9 :
  handle_edit_receipt_command demo_env "9" "r1 {}" demo_world
    = (Ret (edit_not_authorized "r1"), demo_world) ∧
  handle_simple_edit_receipt_command demo_env "9" "Ref: r1" demo_world
    = (Ret (edit_not_authorized "r1"), demo_world) ∧
  delete_receipt_from_firestore demo_env "9" "r1" demo_world
    = (Ret (delete_not_authorized "r1"), demo_world) ∧
  handle_simple_edit_receipt_command demo_env "8" "Ref: r1" demo_world
    = (Ret not_approved_notice, demo_world).
Proof. repeat split; vm_compute; reflexivity. Qed.

(** ** Receipts: a refusal tells whether the receipt exists *)




(** ** Receipts: what an edit stores *)







Section Edits.
Context (E : Env).








End Edits.




(** The line-format edit that the webhook runs for
    [/edit Ref: r1 / Store: Corner Shop / Milk; 12.5; Dairy & Eggs]:
    the store name and the item are the user's, the date, the total and
    the uploader are the original's. *)
Example simple_edit_of_r1 :
  let text := "Ref: r1" +:+ nl +:+ "Store: Corner Shop" +:+ nl +:+ "Milk; 12.5; Dairy & Eggs" in
  let w' := after (handle_simple_edit_receipt_command demo_env "7" text) demo_world in
  result (handle_simple_edit_receipt_command demo_env "7" text) demo_world
    = Ret (simple_edit_success "r1") ∧
  (receipts (db w') !! "r1" ≫= (.!! "store_name")) = Some (PStr "Corner Shop") ∧
  (receipts (db w') !! "r1" ≫= (.!! "date")) = Some (PStr "2024-06-01") ∧
  (receipts (db w') !! "r1" ≫= (.!! "total_price")) = Some (PInt 10) ∧
  (receipts (db w') !! "r1" ≫= (.!! "telegramUserId")) = Some (PStr "7") ∧
  (receipts (db w') !! "r1" ≫= (.!! "uploadTimestamp")) = Some (PTimestamp 5) ∧
  (receipts (db w') !! "r1" ≫= (.!! "groupId")) = None ∧
  (receipts (db w') !! "r1" ≫= (.!! "isVerifiedByUser")) = Some (PBool true) ∧
  (receipts (db w') !! "r1" ≫= (.!! "editedBy")) = Some (PStr "7") ∧
  (receipts (db w') !! "r1" ≫= (.!! "lastUpdatedAt")) = Some (PTimestamp 100) ∧
  (receipts (db w') !! "r1" ≫= (.!! "items")) =
    Some (PList [PDict {[ "item_name" := PStr "Milk"; "item_price" := PFloat 12.5;
                          "grocery_category" := PStr "Dairy & Eggs"; "quantity" := PInt 1;
                          "unit_of_measurement" := PStr "unit";
                          "price_per_unit" := PFloat 12.5 ]}]).
Proof. vm_compute. repeat split; reflexivity. Qed.

(** ** The image pipeline: receipts are dated by the day of upload *)

#[export] Instance same_db_preorder : PreOrder same_db.
Proof. split; unfold same_db; [done|]. intros w1 w2 w3 H1 H2. by rewrite H2. Qed.

Section Formatting.
Context (E : Env).
Context (R : World → World → Prop) `{!PreOrder R}.

Lemma keeps_fmt_2f v : keeps R (fmt_2f E v).
Proof. unfold fmt_2f. repeat keeps_step. Qed.

Lemma keeps_item_get item k dflt : keeps R (item_get item k dflt).
Proof. unfold item_get. repeat keeps_step. Qed.

Lemma keeps_format_item currency i item : keeps R (format_item E currency i item).
Proof.
  unfold format_item.
  repeat (keeps_step; [apply keeps_item_get|]).
  keeps_step. { keeps_step; [keeps_step|apply keeps_fmt_2f]. }
  keeps_step; [apply keeps_item_get|].
  keeps_step. { keeps_step; [keeps_step|]. keeps_step; [apply keeps_fmt_2f|keeps_step]. }
  keeps_step.
Qed.

Lemma keeps_format_items currency i items : keeps R (format_items E currency i items).
Proof.
  revert i. induction items as [|item rest IH]; intros i; simpl; [keeps_step|].
  keeps_step; [apply keeps_format_item|]. keeps_step; [apply IH|keeps_step].
Qed.

Lemma keeps_format_single_receipt_for_view d : keeps R (format_single_receipt_for_view E d).
Proof.
  unfold format_single_receipt_for_view.
  keeps_step; [keeps_step|].
  keeps_step; [apply keeps_fmt_2f|].
  keeps_step; [|keeps_step].
  keeps_step; [keeps_step|].
  keeps_step; [apply keeps_py_iter; apply _|apply keeps_format_items].
Qed.

End Formatting.

Section Pipeline.
Context (E : Env).

Lemma send_tg_message_same_db chat text rm pm : keeps same_db (send_tg_message E chat text rm pm).
Proof.
  unfold send_tg_message. keeps_step; [keeps_step|].
  keeps_step; [|keeps_step]. intros w. reflexivity.
Qed.

Lemma send_tg_message_returns chat text rm pm w :
  ∃ w', send_tg_message E chat text rm pm w = (Ret tt, w') ∧
        db w' = db w ∧ today w' = today w ∧ clock w' = clock w.
Proof.
  unfold send_tg_message. destruct (_ || _); eexists; (split; [reflexivity|]); split_and!; reflexivity.
Qed.

Lemma date_of_receipt_data_to_save draft today_str uid gid :
  receipt_data_to_save draft today_str uid gid !! "date" = Some (PStr today_str).
Proof.
  unfold receipt_data_to_save. rewrite !lookup_insert_ne by done.
  destruct (py_truthy gid);
    rewrite ?lookup_insert_ne, ?lookup_delete_ne, ?lookup_insert_ne by done;
    by rewrite lookup_insert_eq.
Qed.

Lemma process_image_saves chat uid file mime bytes draft w :
  download_file E file = inr bytes →
  call_llm_for_receipt E bytes (mime_type_for_llm mime) = inr (PDict draft) →
  ∃ gid,
    receipts (db (after (process_image E chat uid file mime) w)) =
    <[auto_id E (receipts (db w)) :=
        resolve (clock w) (receipt_data_to_save draft (todays_date_str w) uid gid)]>
      (receipts (db w)).
Proof.
  intros Hdl Hllm. unfold process_image, after. rewrite Hdl.
  destruct (get_user_group_id_reads E uid w) as [g Hg]. exists g.
  unfold mbind, M_bind, mret, M_ret. cbn beta iota. rewrite Hllm. cbn beta iota.
  unfold get_world at 1. cbn beta iota. rewrite Hg. cbn beta iota.
  unfold get_world at 1. cbn beta iota.
  unfold write_receipts at 1, modify at 1. cbn beta iota.
  set (d := receipt_data_to_save draft (todays_date_str w) uid g).
  set (w1 := with_db _ w).
  transitivity (receipts (db w1)); [|reflexivity].
  pose proof (keeps_format_single_receipt_for_view E same_db d w1) as Hf.
  unfold after, same_db in Hf.
  destruct (format_single_receipt_for_view E d w1) as [[a|e] w2]; cbn [fst snd] in *;
    [|by rewrite Hf].
  rewrite <- Hf. clear Hf.
  destruct (4000 <? String.length a)%nat.
  - pose proof (keeps_fmt_2f E same_db (py_get_default d "total_price" (PFloat 0)) w2) as Hf.
    unfold after, same_db in Hf.
    destruct (fmt_2f E _ w2) as [[a0|e] w3]; cbn [fst snd] in *; [|by rewrite Hf].
    rewrite <- Hf. apply (f_equal receipts).
    apply (send_tg_message_same_db chat _ None (Some "Markdown") w3).
  - apply (f_equal receipts). apply (send_tg_message_same_db chat _ None (Some "Markdown") w2).
Qed.

Lemma image_pipeline_saves chat uid file mime bytes draft w :
  download_file E file = inr bytes →
  call_llm_for_receipt E bytes (mime_type_for_llm mime) = inr (PDict draft) →
  ∃ gid,
    receipts (db (after (image_pipeline E chat uid file mime) w)) =
    <[auto_id E (receipts (db w)) :=
        resolve (clock w) (receipt_data_to_save draft (todays_date_str w) uid gid)]>
      (receipts (db w)).
Proof.
  intros Hdl Hllm. unfold image_pipeline, after.
  destruct (send_tg_message_returns chat "Got your image! Analyzing with Gemini Vision..."
              None None w) as (w0 & Hsend & Hdb & Htoday & Hclock).
  erewrite bind_ret by exact Hsend.
  destruct (process_image_saves chat uid file mime bytes draft w0 Hdl Hllm) as [g Hg].
  exists g. unfold after in Hg. unfold try_except.
  assert (Hw : <[auto_id E (receipts (db w)) :=
                   resolve (clock w) (receipt_data_to_save draft (todays_date_str w) uid g)]>
                 (receipts (db w)) =
               <[auto_id E (receipts (db w0)) :=
                   resolve (clock w0) (receipt_data_to_save draft (todays_date_str w0) uid g)]>
                 (receipts (db w0))).
  { unfold todays_date_str. by rewrite Hdb, Htoday, Hclock. }
  rewrite Hw, <- Hg.
  destruct (process_image E chat uid file mime w0) as [[[]|e] w1]; simpl; [done|].
  destruct e; apply (f_equal receipts);
    match goal with |- db (send_tg_message E ?c ?t ?r ?p ?w).2 = _ =>
      apply (send_tg_message_same_db c t r p w) end.
Qed.

End Pipeline.

(** C4.  When the download and the extraction succeed with a draft,
    the image pipeline stores a receipt (under the id Firestore
    generates) whose [date] is the current processing date, whatever date
    the draft carried and whatever happens while the confirmation is
    formatted and sent. *)
Theorem persisted_date_is_processing_date (E : Env) (w : World) (chat : Z)
    (uid file : string) (mime : option string) (bytes : string) (draft : dict) :
  download_file E file = inr bytes →
  call_llm_for_receipt E bytes (mime_type_for_llm mime) = inr (PDict draft) →
  ∃ doc,
    receipts (db (after (image_pipeline E chat uid file mime) w))
      !! auto_id E (receipts (db w)) = Some doc ∧
    doc !! "date" = Some (PStr (todays_date_str w)).
Proof.
  intros Hdl Hllm.
  destruct (image_pipeline_saves E chat uid file mime bytes draft w Hdl Hllm) as [g Hg].
  eexists. split; [rewrite Hg; apply lookup_insert_eq|].
  rewrite resolve_lookup, date_of_receipt_data_to_save. reflexivity.
Qed.

(** An instance: user 7 sends a photo on 2024-06-15 and the extractor
    reads the date 2023-01-01 off it. *)
Lemma persisted_date_is_processing_date_witness :
  ∃ doc,
    receipts (db (after (image_pipeline demo_env 55 "7" "f2" (Some "image/jpeg")) demo_world))
      !! auto_id demo_env (receipts (db demo_world)) = Some doc ∧
    doc !! "date" = Some (PStr (todays_date_str demo_world)).
Proof.
  apply (persisted_date_is_processing_date demo_env demo_world 55 "7" "f2" (Some "image/jpeg")
           "jpeg bytes"
           {[ "store_name" := PStr "Shop"; "date" := PStr "2023-01-01";
              "total_price" := PFloat 15.5%float; "items" := PList [] ]});
    reflexivity.
Defined.

(** The same through the webhook: the extractor proposes 2023-01-01, the
    clock says 2024-06-15, the stored receipt says 2024-06-15. *)
Example photo_is_dated_today :
  call_llm_for_receipt demo_env "jpeg bytes" "image/jpeg"
    = inr (PDict {[ "store_name" := PStr "Shop"; "date" := PStr "2023-01-01";
                    "total_price" := PFloat 15.5%float; "items" := PList [] ]}) ∧
  today demo_world = (2024, 6, 15)%Z ∧
  (receipts (db (after (telegram_webhook demo_env (photo_update 7)) demo_world)) !! "doc1"
     ≫= (.!! "date")) = Some (PStr "2024-06-15").
Proof. split; [reflexivity|]. split; vm_compute; reflexivity. Qed.

(** ** Aggregation: the total of a date range *)

Section Aggregation.
Context (E : Env).

Lemma keeps_get_query_target (R : World → World → Prop) `{!PreOrder R} uid :
  keeps R (get_query_target E uid).
Proof.
  unfold get_query_target.
  keeps_step; [apply keeps_get_user_group_id; apply _|].
  keeps_step; [|keeps_step].
  keeps_step; [apply keeps_get_group_name; apply _|keeps_step].
Qed.




Lemma agg_query_closed_range field value start_ end_ c doc :
  start_ ≠ "" → end_ ≠ "" →
  doc ∈ agg_query field value start_ end_ c ↔
  doc ∈ stream c ∧ field_eq field value doc = true ∧ in_closed_range start_ end_ doc.
Proof.
  intros Hs He. unfold agg_query.
  apply String.eqb_neq in Hs, He. rewrite Hs, He. simpl.
  unfold where_le, where_ge, where_eq. rewrite !list_elem_of_filter.
  unfold in_closed_range, field_le, field_ge.
  split.
  - intros (Hle & Hge & Heq & Hin). split_and!; [done|by apply Is_true_true|].
    destruct (doc.2 !! "date") as [[]|]; try done.
    eexists. split_and!; [done|by apply Is_true_true..].
  - intros (Hin & Heq & d & Hd & Hge & Hle). rewrite Hd, Hge, Hle, Heq. done.
Qed.



End Aggregation.


(** The example of the specification: totals 10, "bad" and 5.5 in range
    give two counted receipts that sum to 15.5, the malformed one being
    passed over; outside any receipt's date the report is the separate
    no-receipts sentence. *)
Example aggregation_of_10_bad_5_5 :
  fst <$> agg_query "telegramUserId" (PStr "7") "2024-06-01" "2024-06-03" example_receipts
    = ["c"; "a"; "b"] ∧
  fst <$> counted (agg_query "telegramUserId" (PStr "7") "2024-06-01" "2024-06-03"
                     example_receipts)
    = ["c"; "a"] ∧
  sum_of_totals (counted (agg_query "telegramUserId" (PStr "7") "2024-06-01" "2024-06-03"
                            example_receipts))
    = 15.5%float ∧
  _aggregate_spending demo_env "7" "2024-06-01" "2024-06-03" "total_by_date" example_world =
    (Ret "Total spent (personal) (2 receipts): 15.50 ", example_world) ∧
  _aggregate_spending demo_env "7" "2025-01-01" "2025-01-31" "total_by_date" example_world =
    (Ret "No receipts found (personal) between 2025-01-01 and 2025-01-31.", example_world) ∧
  _aggregate_spending demo_env "7" "2024-06-02" "2024-06-02" "total_by_date" example_world =
    (Ret "No receipts found (personal) between 2024-06-02 and 2024-06-02.", example_world).
Proof. split_and!; vm_compute; reflexivity. Qed.

(** The number test is [isinstance(_, (int, float))], which a Python
    [bool] passes: a receipt whose total is [True] is counted, as 1.0. *)
Example boolean_total_is_counted :
  isinstance_int_float (PBool true) = true ∧
  agg_step "total_by_date" agg_init {[ "total_price" := PBool true ]} example_world =
    (Ret (mkAgg 1%float 1 [] [] (PStr "")), example_world).
Proof. split; vm_compute; reflexivity. Qed.

(** ** The webhook's replies *)

(** C1 — one reply per event.  An approved user (user 7, who uploaded
    receipt [r1]) sends [/deletereceipts]: the webhook returns OK after
    having sent the receipt-selection message twice, once from the branch
    of the first command chain and once more from the branch of the second
    chain that tests the same command again. *)
Theorem deletereceipts_is_answered_twice :
  ∃ text reply,
    reply = send_message (PInt 55) text
              (Some (Keyboard [[("2024-06-01 | Shop | 10.00 ", "del_confirm_req_r1")]]))
              (Some "Markdown") ∧
    telegram_webhook demo_env (text_update 7 "/deletereceipts") demo_world =
    (Ret OK, mkWorld demo_store [reply; reply] 100 (2024, 6, 15)%Z).
Proof. do 2 eexists. split; [reflexivity|]. vm_compute. reflexivity. Qed.

(** With no receipt to choose from, the notice that there is none is
    sent twice as well. *)
Example deletereceipts_without_receipts :
  ∃ reply,
    outbox (after (telegram_webhook demo_env (text_update 7 "/deletereceipts"))
                  demo_world_no_receipt) = [reply; reply].
Proof. eexists. vm_compute. reflexivity. Qed.

(** Other events get no reply at all: [/menu] has no branch in either
    chain, and the webhook returns OK in silence. *)
Example menu_is_not_answered :
  telegram_webhook demo_env (text_update 7 "/menu") demo_world = (Ret OK, demo_world).
Proof. vm_compute. reflexivity. Qed.

(** C9 — exceptions at the webhook's boundary.  User 7 presses the
    button that confirms the deletion of receipt [r1].  The webhook
    acknowledges the button press, deletes the receipt, and then calls
    [edit_tg_message], a name the module never defines: the [NameError]
    leaves [telegram_webhook], which has no handler around its command
    chains, and no message reaches the chat. *)
Theorem webhook_lets_exception_escape :
  telegram_webhook demo_env (callback_update 7 "del_do_r1") demo_world =
  (Raise (NameError "name 'edit_tg_message' is not defined"),
   mkWorld (set_receipts (λ _, ∅) demo_store) [answer_callback_query "cb1"]
           100 (2024, 6, 15)%Z).
Proof. vm_compute. reflexivity. Qed.

(** The admin command [/addusertogroup] with its two arguments fails the
    same way, on [admin_add_user_to_group], before anything is sent. *)
Example addusertogroup_raises :
  telegram_webhook demo_env (text_update 1 "/addusertogroup 7 g") demo_world =
  (Raise (NameError "name 'admin_add_user_to_group' is not defined"), demo_world).
Proof. vm_compute. reflexivity. Qed.

(** C10 — group creation by the admin.  The admin (user 1, whose
    profile exists and is approved) creates a group and lists user 1 among
    its initial members: the admin becomes a member of the new group and
    the admin's profile gets the group's id, next to being [ownerId]. *)
Theorem admin_creating_group_with_self_changes_admin_profile :
  is_user_admin demo_env "1" = true ∧
  result (create_group_in_firestore demo_env "1" "Family" ["1"; "7"]) demo_world =
    Ret (Some "doc0", "Group 'Family' created with ID: `doc0`." +:+ nl +:+
                      "Added members: `1`, `7`.") ∧
  (groups (db (after (create_group_in_firestore demo_env "1" "Family" ["1"; "7"]) demo_world))
     !! "doc0" ≫= (.!! "ownerId")) = Some (PStr "1") ∧
  (groups (db (after (create_group_in_firestore demo_env "1" "Family" ["1"; "7"]) demo_world))
     !! "doc0" ≫= (.!! "memberUserIds")) = Some (PList [PStr "1"; PStr "7"]) ∧
  (user_profiles (db demo_world) !! "1" ≫= (.!! "groupId")) = Some PNone ∧
  (user_profiles
     (db (after (create_group_in_firestore demo_env "1" "Family" ["1"; "7"]) demo_world))
     !! "1" ≫= (.!! "groupId")) = Some (PStr "doc0").
Proof. split_and!; vm_compute; reflexivity. Qed.

(** The same through the webhook, as the admin's command. *)
Example admincreategroup_with_self :
  result (telegram_webhook demo_env (text_update 1 "/admincreategroup Family 1 7")) demo_world
    = Ret OK ∧
  (user_profiles
     (db (after (telegram_webhook demo_env (text_update 1 "/admincreategroup Family 1 7"))
                demo_world))
     !! "1" ≫= (.!! "groupId")) = Some (PStr "doc0").
Proof. split; vm_compute; reflexivity. Qed.

(** * Further properties of the code *)

(** ** The gate for accounts that are not approved *)

Lemma py_truthy_dict_lookup (d : dict) k v : d !! k = Some v → py_truthy (PDict d) = true.
Proof.
  intros H. simpl. rewrite bool_decide_eq_false_2; [done|].
  intros Hs. apply map_size_empty_iff in Hs. subst. by rewrite lookup_empty in H.
Qed.

Section Gate.
Context (E : Env).

Lemma send_tg_message_run chat text rm pm w :
  send_tg_message E chat text rm pm w =
  (Ret tt, if negb (bot_initialized E) || (chat =? 0)%Z then w
           else emit (send_message (PInt chat) text rm pm) w).
Proof. unfold send_tg_message. by destruct (_ || _). Qed.

(** A user who is not the admin and whose stored status is
    [pending_approval] or [banned] gets nothing done, whatever the update
    carries (a command, a button press, a photo, a document): the webhook
    core returns OK, the database is left as it was, and at most one
    message goes out, the notice that the account is pending or
    restricted. *)
Theorem unapproved_user_is_stopped (u : Update) (chat : Z) (uid : string)
    (text : option string) (w : World) (p : dict) (status : string) :
  db_initialized E = true →
  is_user_admin E uid = false →
  user_profiles (db w) !! uid = Some p →
  p !! "status" = Some (PStr status) →
  status = "pending_approval" ∨ status = "banned" →
  ∃ out,
    handle_update E u chat uid text w
      = (Ret OK, mkWorld (db w) (outbox w ++ out) (clock w) (today w)) ∧
    (out = [] ∨
     out = [send_message (PInt chat)
              (if String.eqb status "banned" then "Your account access has been restricted."
               else "Your account is pending approval. Your User ID is `" +:+ uid
                    +:+ "`. Please wait or contact the administrator.")
              None
              (if String.eqb status "banned" then None else Some "Markdown")]).
Proof.
  intros Hdb Hadm Hp Hs Hstatus. unfold handle_update.
  erewrite bind_ret
    by (apply ensure_existing_profile; [done|done|by eapply py_truthy_dict_lookup|by eexists]).
  destruct (parse_command u text) as [[c full] args].
  rewrite Hadm.
  assert (py_get_default p "status" (PStr "pending_approval") = PStr status) as ->
    by (unfold py_get_default; by rewrite Hs).
  erewrite bind_ret by reflexivity. cbn beta iota.
  assert (Hnop : mkWorld (db w) (outbox w ++ []) (clock w) (today w) = w)
    by (rewrite app_nil_r; by destruct w).
  destruct Hstatus as [-> | ->].
  1: change (py_eq_str (PStr "pending_approval") "pending_approval") with true.
  2: change (py_eq_str (PStr "banned") "pending_approval") with false.
  2: change (py_eq_str (PStr "banned") "banned") with true.
  all: cbn [negb andb].
  - destruct (String.eqb c "/start") eqn:Hstart.
    + erewrite bind_ret by reflexivity. exists []. rewrite Hnop. split; [reflexivity|by left].
    + erewrite bind_ret by reflexivity. cbn beta iota. rewrite Hstart.
      destruct (negb (String.eqb c "")); cbn [andb negb].
      * erewrite bind_ret by apply send_tg_message_run.
        destruct (negb (bot_initialized E) || (chat =? 0)%Z).
        -- exists []. rewrite Hnop. split; [reflexivity|by left].
        -- eexists. split; [reflexivity|by right].
      * erewrite bind_ret by reflexivity. exists []. rewrite Hnop. split; [reflexivity|by left].
  - destruct (String.eqb c "/start") eqn:Hstart.
    + erewrite bind_ret
        by (erewrite bind_ret by apply send_tg_message_run; reflexivity).
      cbn beta iota. unfold return_OK.
      destruct (negb (bot_initialized E) || (chat =? 0)%Z).
      * exists []. rewrite Hnop. split; [reflexivity|by left].
      * eexists. split; [reflexivity|by right].
    + erewrite bind_ret by reflexivity. cbn beta iota. rewrite Hstart.
      destruct (negb (String.eqb c "")); cbn [andb negb].
      * erewrite bind_ret by apply send_tg_message_run.
        destruct (negb (bot_initialized E) || (chat =? 0)%Z).
        -- exists []. rewrite Hnop. split; [reflexivity|by left].
        -- eexists. split; [reflexivity|by right].
      * erewrite bind_ret by reflexivity. exists []. rewrite Hnop. split; [reflexivity|by left].
Qed.

End Gate.

(** ** Receipts: deleting, and edits that fail *)

Section Deleting.
Context (E : Env).

(** The admin or the uploader deletes a receipt that exists: the reply is
    the success text, the receipt is gone and nothing else in the world
    changes; deleting it once more is answered by the no-longer-exists
    text and changes nothing. *)
Theorem authorized_delete_removes_the_receipt (w : World) (uid id : string) (orig : dict) :
  db_initialized E = true →
  receipts (db w) !! id = Some orig →
  is_user_admin E uid || py_eq_str (py_get orig "telegramUserId") uid = true →
  delete_receipt_from_firestore E uid id w
    = (Ret (delete_success id), with_db (set_receipts (delete id)) w) ∧
  delete_receipt_from_firestore E uid id (with_db (set_receipts (delete id)) w)
    = (Ret (delete_not_found id), with_db (set_receipts (delete id)) w).
Proof.
  intros Hdb Hr Hauth. unfold delete_receipt_from_firestore. rewrite Hdb. simpl. split.
  - run_monad. rewrite Hr, Hauth. reflexivity.
  - run_monad. rewrite lookup_delete_eq. reflexivity.
Qed.

End Deleting.

(** An instance: user 7 deletes the receipt [r1] they uploaded. *)
Lemma authorized_delete_removes_the_receipt_witness :
  delete_receipt_from_firestore demo_env "7" "r1" demo_world
    = (Ret (delete_success "r1"), with_db (set_receipts (delete "r1")) demo_world) ∧
  delete_receipt_from_firestore demo_env "7" "r1"
      (with_db (set_receipts (delete "r1")) demo_world)
    = (Ret (delete_not_found "r1"), with_db (set_receipts (delete "r1")) demo_world).
Proof.
  apply (authorized_delete_removes_the_receipt demo_env demo_world "7" "r1" receipt_r1);
    reflexivity.
Defined.

Section Atomic.
Context (E : Env).



End Atomic.

(** ** Commands no handler knows *)

Section Unknown.
Context (E : Env).

Lemma image_to_process_none u chat w :
  no_attachment u → image_to_process E u chat w = (Ret None, w).
Proof.
  intros H. unfold image_to_process. destruct (upd_message u) as [m|] eqn:Hm; [|done].
  destruct (H m) as [-> ->]; [by rewrite <- Hm|]. reflexivity.
Qed.

Lemma unknown_command_eqb c s :
  unknown_command c = true → s ∈ known_commands → String.eqb c s = false.
Proof.
  unfold unknown_command. intros H Hs.
  apply andb_prop in H as [H _]. apply andb_prop in H as [_ H].
  apply negb_true_iff, bool_decide_eq_false in H.
  apply String.eqb_neq. by intros ->.
Qed.

Lemma unknown_command_startswith c p :
  unknown_command c = true → p ∈ known_prefixes → Py.startswith c p = false.
Proof.
  unfold unknown_command. intros H Hp.
  apply andb_prop in H as [_ H]. rewrite forallb_forall in H.
  apply negb_true_iff, H. by apply list_elem_of_In.
Qed.

Lemma unknown_command_nonempty c : unknown_command c = true → String.eqb c "" = false.
Proof.
  unfold unknown_command. intros H.
  apply andb_prop in H as [H _]. apply andb_prop in H as [H _]. by apply negb_true_iff.
Qed.

Ltac forget_command Hc :=
  repeat match goal with
         | |- context [String.eqb ?c ?s] =>
             rewrite (unknown_command_eqb c s Hc) by compute_done
         | |- context [Py.startswith ?c ?p] =>
             rewrite (unknown_command_startswith c p Hc) by compute_done
         end.

Lemma delete_commands_unknown u chat uid c w :
  unknown_command c = true → delete_commands E u chat uid c w = (Ret tt, w).
Proof. intros Hc. unfold delete_commands. forget_command Hc. reflexivity. Qed.

Lemma menu_commands_unknown u chat uid text c full args month w :
  unknown_command c = true →
  menu_commands E u chat uid text c full args month w = (Ret tt, w).
Proof.
  intros Hc. unfold menu_commands. destruct month as [[s e] ym].
  rewrite (unknown_command_nonempty c Hc).
  forget_command Hc. cbn [orb].
  rewrite !andb_false_r. cbn [andb].
  by destruct (negb _ && negb _).
Qed.

(** An approved user sends, without a photo or a document, a non-empty
    command that none of the regular handlers tests for; the user is not
    the admin, or the command is none of the admin block's either.  Then
    the webhook core returns OK and the world is exactly as before: no
    reply is sent and nothing is written.  This covers every admin command
    sent by a regular user, and [/menu], which the bot advertises but no
    handler matches. *)
Theorem unknown_command_is_ignored (u : Update) (chat : Z) (uid : string)
    (text : option string) (w : World) (p : dict) (c full : string) (args : list string) :
  db_initialized E = true →
  user_profiles (db w) !! uid = Some p →
  p !! "status" = Some (PStr "approved") →
  no_attachment u →
  parse_command u text = (c, full, args) →
  unknown_command c = true →
  is_user_admin E uid = false ∨ c ∉ admin_command_names →
  handle_update E u chat uid text w = (Ret OK, w).
Proof.
  intros Hdb Hp Hs Hu Hparse Hc Hadm. unfold handle_update.
  erewrite bind_ret
    by (apply ensure_existing_profile; [done|done|by eapply py_truthy_dict_lookup|by eexists]).
  rewrite Hparse.
  assert (py_get_default p "status" (PStr "pending_approval") = PStr "approved") as ->
    by (unfold py_get_default; by rewrite Hs).
  change (py_eq_str (PStr "approved") "pending_approval") with false.
  change (py_eq_str (PStr "approved") "banned") with false.
  assert (Hhandled :
    (if is_user_admin E uid then admin_commands E chat uid c full args else mret false) w
    = (Ret false, w)).
  { destruct (is_user_admin E uid); [|done].
    destruct Hadm as [?|Hadm]; [done|].
    unfold admin_commands.
    repeat match goal with
           | |- context [String.eqb c ?s] =>
               rewrite (proj2 (String.eqb_neq c s)) by (intros ->; apply Hadm; compute_done)
           end.
    reflexivity. }
  erewrite bind_ret by exact Hhandled. cbn beta iota.
  rewrite (unknown_command_eqb c "/start" Hc) by compute_done.
  erewrite bind_ret by reflexivity. cbn beta iota. rewrite !andb_false_r. cbn beta iota.
  erewrite bind_ret by (by apply image_to_process_none).
  cbn beta iota.
  assert (∃ month, get_current_month_start_end w = (Ret month, w)) as [month Hmonth].
  { unfold get_current_month_start_end. erewrite bind_ret by reflexivity.
    destruct (today w) as [[y m] d]. by eexists. }
  erewrite bind_ret by exact Hmonth.
  erewrite bind_ret by (by apply delete_commands_unknown).
  erewrite bind_ret by (by apply menu_commands_unknown).
  reflexivity.
Qed.

End Unknown.

(** ** The image pipeline: exceptions become replies *)

#[export] Instance same_outbox_preorder : PreOrder same_outbox.
Proof. split; unfold same_outbox; [done|]. intros w1 w2 w3 H1 H2. by rewrite H2. Qed.

Section ImageErrors.
Context (E : Env).

Lemma answers_or_raises_bind {A} chat (m : M A) (f : A → M unit) w :
  keeps same_outbox m →
  (∀ a w1, answers_or_raises chat w1 (f a w1)) →
  answers_or_raises chat w ((m ≫= f) w).
Proof.
  intros Hm Hf. specialize (Hm w). unfold after, same_outbox, mbind, M_bind in *.
  destruct (m w) as [[a|e] w1]; simpl in *; [|done].
  specialize (Hf a w1). unfold answers_or_raises in *.
  destruct (f a w1) as [[[]|e] w2]; by rewrite <- Hm.
Qed.

Lemma send_tg_message_answers chat text pm w :
  bot_initialized E = true → chat ≠ 0%Z →
  answers_or_raises chat w (send_tg_message E chat text None pm w).
Proof.
  intros Hbot Hchat. rewrite send_tg_message_run, Hbot.
  apply Z.eqb_neq in Hchat. rewrite Hchat. simpl. by eexists _, _.
Qed.

Lemma process_image_answers_or_raises chat uid file mime w :
  bot_initialized E = true → chat ≠ 0%Z →
  answers_or_raises chat w (process_image E chat uid file mime w).
Proof.
  intros Hbot Hchat. unfold process_image.
  apply answers_or_raises_bind; [destruct (download_file E file); keeps_step|intros b w1].
  apply answers_or_raises_bind; [destruct (call_llm_for_receipt E b _); keeps_step|intros v w2].
  apply answers_or_raises_bind; [destruct v; keeps_step|intros draft w3].
  apply answers_or_raises_bind; [keeps_step|intros w4 w5].
  apply answers_or_raises_bind; [apply keeps_get_user_group_id; apply _|intros gid w6].
  apply answers_or_raises_bind; [keeps_step|intros w7 w8].
  apply answers_or_raises_bind; [intros ?; reflexivity|intros [] w9].
  apply answers_or_raises_bind;
    [apply keeps_format_single_receipt_for_view; apply _|intros msg w10].
  destruct (4000 <? String.length msg)%nat.
  - apply answers_or_raises_bind; [apply keeps_fmt_2f; apply _|intros total w11].
    by apply send_tg_message_answers.
  - by apply send_tg_message_answers.
Qed.

(** With the bot configured and a chat to answer to, the image pipeline
    never raises and sends exactly two messages: the acknowledgement and
    one reply.  When the download or the extraction raises [e], nothing
    is stored and the reply is the text for [e]: the message of a
    [ValueError] after [Receipt Processing Error:], a fixed sentence for a
    Telegram error, the generic apology otherwise. *)
Theorem image_pipeline_always_answers (chat : Z) (uid file : string) (mime : option string)
    (w : World) :
  bot_initialized E = true → chat ≠ 0%Z →
  ∃ reply w',
    image_pipeline E chat uid file mime w = (Ret tt, w') ∧
    outbox w' = outbox w ++
      [send_message (PInt chat) "Got your image! Analyzing with Gemini Vision..." None None;
       reply] ∧
    (∀ e,
       download_file E file = inl e ∨
       (∃ bytes, download_file E file = inr bytes ∧
                 call_llm_for_receipt E bytes (mime_type_for_llm mime) = inl e) →
       db w' = db w ∧
       reply = send_message (PInt chat) (image_error_text e) None None).
Proof.
  intros Hbot Hchat. unfold image_pipeline.
  pose proof Hchat as Hchat'. apply Z.eqb_neq in Hchat'.
  erewrite bind_ret by apply send_tg_message_run. rewrite Hbot, Hchat'. cbn [negb orb].
  set (w0 := emit _ w).
  pose proof (process_image_answers_or_raises chat uid file mime w0 Hbot Hchat) as Hproc.
  unfold try_except.
  destruct (process_image E chat uid file mime w0) as [[[]|e] w1] eqn:Hrun; simpl in Hproc.
  - destruct Hproc as (text & pm & Hout). eexists _, w1. split; [reflexivity|].
    split; [rewrite Hout; unfold w0; simpl; by rewrite <- app_assoc|].
    intros e [Hdl|(bytes & Hdl & Hllm)]; exfalso; revert Hrun;
      unfold process_image; rewrite Hdl; [done|].
    unfold mbind, M_bind, mret, M_ret. cbn beta iota. by rewrite Hllm.
  - assert (Hreply : ∀ w2, outbox w2 = outbox w0 →
      ∃ w', (match e with
             | ValueError ve => send_tg_message E chat ("Receipt Processing Error: " +:+ ve) None None
             | TelegramError _ =>
                 send_tg_message E chat "A Telegram error occurred while processing your receipt."
                   None None
             | _ => send_tg_message E chat
                      "An unexpected error occurred while processing the receipt image." None None
             end) w2 = (Ret tt, w') ∧ db w' = db w2 ∧
            outbox w' = outbox w0 ++ [send_message (PInt chat) (image_error_text e) None None]).
    { intros w2 Hw2. clear Hrun.
      destruct e; (eexists; split; [apply send_tg_message_run|]);
        rewrite Hbot, Hchat'; cbn [negb orb]; (split; [reflexivity|]);
        simpl; by rewrite Hw2. }
    destruct (Hreply w1 Hproc) as (w' & Hsend & Hdb & Hout).
    eexists _, w'. split; [exact Hsend|].
    split; [rewrite Hout; unfold w0; simpl; by rewrite <- app_assoc|].
    intros e' He'. rewrite Hdb.
    assert (e' = e ∧ w1 = w0) as [-> ->].
    { revert Hrun. unfold process_image.
      destruct He' as [Hdl|(bytes & Hdl & Hllm)]; rewrite Hdl.
      - unfold mbind, M_bind, raise. by intros [= -> ->].
      - unfold mbind, M_bind, mret, M_ret, raise. cbn beta iota. rewrite Hllm.
        by intros [= -> ->]. }
    done.
Qed.

End ImageErrors.

(** ** Admin: setting a user's status *)

Section Status.
Context (E : Env).

Lemma py_eq_str_PStr s t : py_eq_str (PStr s) t = String.eqb s t.
Proof. reflexivity. Qed.

(** Setting one of the three valid statuses on a profile that exists
    writes [status] and [statusUpdatedAt] on that profile and touches no
    other profile, no group and no receipt; from then on
    [is_user_approved] holds for that user exactly when the new status is
    [approved] (or the user is the admin). *)
Theorem admin_set_user_status_effect (uid new_status : string) (w : World) (p : dict) :
  db_initialized E = true →
  new_status ∈ ["approved"; "banned"; "pending_approval"] →
  user_profiles (db w) !! uid = Some p →
  ∃ w',
    admin_set_user_status E uid new_status w
      = (Ret ("User `" +:+ uid +:+ "` status set to '" +:+ new_status +:+ "'."), w') ∧
    user_profiles (db w')
      = <[uid := <["statusUpdatedAt" := PTimestamp (clock w)]>
                   (<["status" := PStr new_status]> p)]> (user_profiles (db w)) ∧
    groups (db w') = groups (db w) ∧
    receipts (db w') = receipts (db w) ∧
    result (is_user_approved E uid) w'
      = Ret (is_user_admin E uid || String.eqb new_status "approved").
Proof.
  intros Hdb Hs Hp. unfold admin_set_user_status.
  rewrite (bool_decide_eq_true_2 _ Hs), Hdb. cbn [negb].
  erewrite bind_ret by reflexivity. rewrite Hp. erewrite bind_ret by reflexivity.
  set (w1 := with_db _ w).
  assert (Hprofiles : user_profiles (db w1)
            = <[uid := <["statusUpdatedAt" := PTimestamp (clock w)]>
                         (<["status" := PStr new_status]> p)]> (user_profiles (db w))).
  { unfold w1, fs_update. simpl. apply map_eq. intros k.
    destruct (decide (k = uid)) as [->|Hk].
    - by rewrite lookup_alter_eq, lookup_insert_eq, Hp.
    - by rewrite lookup_alter_ne, lookup_insert_ne. }
  assert (Hnotify : ∃ w', ∀ (k : unit → M string),
            ((if bot_initialized E then
                try_except
                  (if String.eqb new_status "approved" then
                     bot_send_message (PStr uid)
                       "Your account has been approved! You can now use the bot. Send /menu or an image."
                       None None
                   else if String.eqb new_status "banned" then
                     bot_send_message (PStr uid)
                       "Your account access has been restricted by the administrator."
                       None None
                   else mret tt)
                  (λ _, mret tt)
              else mret tt) ≫= k) w1 = k tt w' ∧ db w' = db w1).
  { destruct (bot_initialized E); [|by exists w1].
    destruct (String.eqb new_status "approved"); [by eexists|].
    destruct (String.eqb new_status "banned"); by eexists. }
  destruct Hnotify as (w' & Hnotify).
  exists w'. destruct (Hnotify (λ _, mret ("User `" +:+ uid +:+ "` status set to '" +:+ new_status +:+ "'."))) as [Hrun Hdbw].
  split; [exact Hrun|]. rewrite Hdbw. split; [exact Hprofiles|].
  split; [reflexivity|]. split; [reflexivity|].
  unfold result, is_user_approved. destruct (is_user_admin E uid); [done|].
  erewrite bind_ret by apply get_user_profile_run. rewrite Hdb, Hdbw, Hprofiles.
  rewrite lookup_insert_eq. cbn [fst orb mret M_ret].
  f_equal. unfold profile_truthy. rewrite py_truthy_dict_insert. cbn [andb default].
  unfold id, py_get. rewrite lookup_insert_ne by done. rewrite lookup_insert_eq. reflexivity.
Qed.

(** A status outside the three valid ones, or a user without a profile:
    the function only returns a message, the world is untouched. *)
Lemma admin_set_user_status_refusals (uid new_status : string) (w : World) :
  new_status ∉ ["approved"; "banned"; "pending_approval"] ∨ user_profiles (db w) !! uid = None →
  ∃ msg, admin_set_user_status E uid new_status w = (Ret msg, w).
Proof.
  intros H. unfold admin_set_user_status.
  destruct (bool_decide _) eqn:Hv; [|by eexists]. cbn [negb].
  destruct (db_initialized E); [|by eexists]. cbn [negb].
  destruct H as [H|H]; [by apply bool_decide_eq_true in Hv|].
  erewrite bind_ret by reflexivity. rewrite H. by eexists.
Qed.

End Status.

(** ** Groups: creating one's own, leaving, repairing *)

Section OwnGroup.
Context (E : Env).

Lemma get_user_group_id_run uid w :
  get_user_group_id E uid w =
  (Ret (match (if db_initialized E then user_profiles (db w) !! uid else None) with
        | Some p => if py_truthy (PDict p) then py_get p "groupId" else PNone
        | None => PNone
        end), w).
Proof.
  unfold get_user_group_id. erewrite bind_ret by apply get_user_profile_run.
  by destruct (if db_initialized E then _ else _).
Qed.

Lemma is_user_approved_run uid w :
  is_user_approved E uid w =
  (Ret (is_user_admin E uid ||
        match (if db_initialized E then user_profiles (db w) !! uid else None) with
        | Some p => py_truthy (PDict p) && py_eq_str (py_get p "status") "approved"
        | None => false
        end), w).
Proof.
  unfold is_user_approved. destruct (is_user_admin E uid); [done|].
  erewrite bind_ret by apply get_user_profile_run.
  by destruct (if db_initialized E then _ else _).
Qed.

(** An approved regular user who is in no group creates one (the list of
    initial members is ignored for a regular user): the new group document
    has the user as owner and as only member, the user's profile gets the
    group's id, nothing else changes, [get_user_group_id] now returns that
    id, and any further creation by the same user is refused without
    effect. *)
Theorem user_creates_own_group (uid name : string) (ids : list string) (w : World) (p : dict) :
  db_initialized E = true →
  is_user_admin E uid = false →
  user_profiles (db w) !! uid = Some p →
  p !! "status" = Some (PStr "approved") →
  py_truthy (py_get p "groupId") = false →
  Py.strip name ≠ "" →
  auto_id E (groups (db w)) ≠ "" →
  ∃ w',
    create_group_in_firestore E uid name ids w
      = (Ret (Some (auto_id E (groups (db w))),
              "Group '" +:+ name +:+ "' created with ID: `" +:+ auto_id E (groups (db w))
              +:+ "`." +:+ nl +:+ "You have been added as the first member."), w') ∧
    groups (db w')
      = <[auto_id E (groups (db w)) :=
            {[ "groupName" := PStr (Py.strip name); "ownerId" := PStr uid;
               "createdAt" := PTimestamp (clock w); "memberUserIds" := PList [PStr uid] ]}]>
          (groups (db w)) ∧
    user_profiles (db w')
      = <[uid := {[ "groupId" := PStr (auto_id E (groups (db w)));
                    "groupJoinedAt" := PTimestamp (clock w) ]} ∪ p]> (user_profiles (db w)) ∧
    receipts (db w') = receipts (db w) ∧
    outbox w' = outbox w ∧
    result (get_user_group_id E uid) w' = Ret (PStr (auto_id E (groups (db w)))) ∧
    (∀ name' ids', ∃ msg, create_group_in_firestore E uid name' ids' w' = (Ret (None, msg), w')).
Proof.
  intros Hdb Hadm Hp Hs Hg Hname Hid.
  assert (Htruthy : py_truthy (PDict p) = true) by by eapply py_truthy_dict_lookup.
  assert (Hstatus : py_get p "status" = PStr "approved") by (unfold py_get; by rewrite Hs).
  eexists. split.
  { unfold create_group_in_firestore. rewrite Hdb. cbn [negb].
    apply String.eqb_neq in Hname. rewrite Hname, Hadm.
    erewrite bind_ret by apply is_user_approved_run.
    rewrite Hadm, Hdb, Hp, Htruthy, Hstatus. cbn [orb andb negb].
    change (py_eq_str (PStr "approved") "approved") with true. cbn [negb].
    erewrite bind_ret by apply get_user_group_id_run.
    rewrite Hdb, Hp, Htruthy, Hg.
    erewrite bind_ret by reflexivity. erewrite bind_ret by reflexivity.
    erewrite bind_ret by reflexivity.
    cbn [for_each]. erewrite bind_ret by (erewrite bind_ret by reflexivity; reflexivity).
    reflexivity. }
  cbn [db with_db set_groups set_user_profiles groups user_profiles receipts outbox clock].
  assert (Hprofile : fs_set_merge (clock w) uid
            {[ "groupId" := PStr (auto_id E (groups (db w)));
               "groupJoinedAt" := SERVER_TIMESTAMP ]} (user_profiles (db w))
          = <[uid := {[ "groupId" := PStr (auto_id E (groups (db w)));
                        "groupJoinedAt" := PTimestamp (clock w) ]} ∪ p]> (user_profiles (db w))).
  { unfold fs_set_merge, resolve. rewrite Hp. cbn [from_option id].
    by rewrite fmap_insert, map_fmap_singleton. }
  split.
  { unfold fs_set, resolve. f_equal. }
  split; [exact Hprofile|]. split; [reflexivity|]. split; [reflexivity|].
  assert (Hgroup_after : ∀ w2, db_initialized E = true →
            user_profiles (db w2) = fs_set_merge (clock w) uid
              {[ "groupId" := PStr (auto_id E (groups (db w)));
                 "groupJoinedAt" := SERVER_TIMESTAMP ]} (user_profiles (db w)) →
            get_user_group_id E uid w2 = (Ret (PStr (auto_id E (groups (db w)))), w2)).
  { intros w2 _ Hw2. rewrite get_user_group_id_run, Hdb, Hw2, Hprofile, lookup_insert_eq.
    rewrite (py_truthy_dict_lookup _ "groupId" (PStr (auto_id E (groups (db w))))).
    - unfold py_get. rewrite lookup_union_l', lookup_insert_eq; [done|].
      by rewrite lookup_insert_eq.
    - rewrite lookup_union_l', lookup_insert_eq; [done|]. by rewrite lookup_insert_eq. }
  split.
  { unfold result. by rewrite Hgroup_after. }
  intros name' ids'. unfold create_group_in_firestore. rewrite Hdb. cbn [negb].
  destruct (String.eqb (Py.strip name') ""); [by eexists|].
  rewrite Hadm.
  erewrite bind_ret by apply is_user_approved_run.
  match goal with |- context [negb ?b] => destruct b end; [|by eexists].
  cbn [negb].
  erewrite bind_ret by (by apply Hgroup_after).
  apply String.eqb_neq in Hid. cbn [py_truthy]. rewrite Hid. cbn [negb]. by eexists.
Qed.

(** An approved regular user whose profile names group [g] leaves it:
    the profile loses [groupId] and gets [groupLeftAt]; if the group
    document still exists afterwards, its member array does not hold the
    user and is not empty; no other group, no receipt and no message is
    touched; a second call answers that the user is in no group and
    changes nothing. *)
Theorem user_leaves_group (uid g : string) (w : World) (p : dict) :
  db_initialized E = true →
  is_user_admin E uid = false →
  user_profiles (db w) !! uid = Some p →
  p !! "status" = Some (PStr "approved") →
  p !! "groupId" = Some (PStr g) →
  g ≠ "" →
  ∃ msg w',
    user_leave_group E uid w = (Ret msg, w') ∧
    user_profiles (db w')
      = <[uid := <["groupLeftAt" := PTimestamp (clock w)]> (delete "groupId" p)]>
          (user_profiles (db w)) ∧
    receipts (db w') = receipts (db w) ∧
    outbox w' = outbox w ∧
    (∀ gd, groups (db w') !! g = Some gd →
           ∃ l, gd !! "memberUserIds" = Some (PList l) ∧ (PStr uid ∉ l) ∧ l ≠ []) ∧
    (∀ g', g' ≠ g → (groups (db w') !! g') = (groups (db w) !! g')) ∧
    user_leave_group E uid w' = (Ret "You are not currently in any group.", w').
Proof.
  intros Hdb Hadm Hp Hs Hg Hne.
  assert (Htruthy : py_truthy (PDict p) = true) by by eapply py_truthy_dict_lookup.
  assert (Hstatus : py_get p "status" = PStr "approved") by (unfold py_get; by rewrite Hs).
  assert (Hgid : py_get p "groupId" = PStr g) by (unfold py_get; by rewrite Hg).
  pose proof Hne as Hne'. apply String.eqb_neq in Hne'.
  set (profiles' := <[uid := <["groupLeftAt" := PTimestamp (clock w)]> (delete "groupId" p)]>
                      (user_profiles (db w))).
  assert (Hprofiles : fs_update uid
            (λ d, <["groupLeftAt" := PTimestamp (clock w)]> (delete "groupId" d))
            (user_profiles (db w)) = profiles').
  { unfold fs_update, profiles'. apply map_eq. intros k.
    destruct (decide (k = uid)) as [->|Hk].
    - by rewrite lookup_alter_eq, lookup_insert_eq, Hp.
    - by rewrite lookup_alter_ne, lookup_insert_ne. }
  assert (Hagain : ∀ w2, user_profiles (db w2) = profiles' →
            user_leave_group E uid w2 = (Ret "You are not currently in any group.", w2)).
  { intros w2 Hw2. unfold user_leave_group.
    erewrite bind_ret by apply is_user_approved_run.
    rewrite Hadm, Hdb, Hw2. unfold profiles' at 1. rewrite lookup_insert_eq.
    rewrite py_truthy_dict_insert. unfold py_get at 1.
    rewrite lookup_insert_ne by done. rewrite lookup_delete_ne by done. rewrite Hs.
    cbn [from_option id orb andb negb].
    change (py_eq_str (PStr "approved") "approved") with true. cbn [negb orb].
    erewrite bind_ret by apply get_user_group_id_run.
    rewrite Hdb, Hw2. unfold profiles'. rewrite lookup_insert_eq, py_truthy_dict_insert.
    unfold py_get. rewrite lookup_insert_ne by done. rewrite lookup_delete_eq.
    reflexivity. }
  assert (Hg_truthy : py_truthy (PStr g) = true) by (simpl; by rewrite Hne').
  cut (∃ msg w',
         user_leave_group E uid w = (Ret msg, w') ∧
         user_profiles (db w') = profiles' ∧
         receipts (db w') = receipts (db w) ∧
         outbox w' = outbox w ∧
         (∀ gd, groups (db w') !! g = Some gd →
                ∃ l, gd !! "memberUserIds" = Some (PList l) ∧ (PStr uid ∉ l) ∧ l ≠ []) ∧
         (∀ g', g' ≠ g → (groups (db w') !! g') = (groups (db w) !! g'))).
  { intros (msg & w' & Hrun & Hprof & Hrec & Hout & Hmem & Hother).
    exists msg, w'. split_and!; try done. by apply Hagain. }
  unfold user_leave_group.
  erewrite bind_ret by apply is_user_approved_run.
  rewrite Hadm, Hdb, Hp, Htruthy, Hstatus. cbn [orb andb negb].
  change (py_eq_str (PStr "approved") "approved") with true. cbn [negb orb].
  erewrite bind_ret by apply get_user_group_id_run.
  rewrite Hdb, Hp, Htruthy, Hgid, Hg_truthy. cbn [negb].
  erewrite bind_ret by reflexivity. erewrite bind_ret by reflexivity.
  assert (Hname : ∃ n, get_group_name E (PStr g) w = (Ret n, w)).
  { unfold get_group_name. rewrite Hg_truthy, Hdb. cbn [negb orb].
    erewrite bind_ret by reflexivity. erewrite bind_ret by reflexivity. by eexists. }
  destruct Hname as [n Hname]. erewrite bind_ret by exact Hname.
  erewrite bind_ret by reflexivity.
  destruct (groups (db w) !! g) as [gd|] eqn:Hgd.
  - erewrite bind_ret by reflexivity. erewrite bind_ret by reflexivity.
    cbn [db with_db set_groups set_user_profiles groups user_profiles].
    unfold fs_update at 1. rewrite lookup_alter_eq, Hgd. cbn [fmap option_fmap option_map].
    rewrite array_remove_truthy. cbn [andb].
    assert (Hmembers : ∃ l, array_remove "memberUserIds" (PStr uid) gd !! "memberUserIds"
                            = Some (PList l) ∧ PStr uid ∉ l).
    { unfold array_remove.
      destruct (gd !! "memberUserIds") as [[]|]; rewrite lookup_insert_eq;
        try (exists []; split; [done|set_solver]).
      eexists. split; [done|]. intros Hin%list_elem_of_filter. destruct Hin as [Hin _].
      simpl in Hin. by rewrite String.eqb_refl in Hin. }
    destruct Hmembers as (l & Hl & Hnotin).
    unfold py_get. rewrite Hl. cbn [from_option id].
    destruct l as [|x l]; cbn [py_truthy negb].
    + erewrite bind_ret by reflexivity. eexists _, _. split; [reflexivity|].
      cbn [db with_db set_groups set_user_profiles groups user_profiles receipts outbox].
      split; [exact Hprofiles|]. split; [reflexivity|]. split; [reflexivity|].
      split; [intros gd'; unfold fs_delete; by rewrite lookup_delete_eq|].
      intros g' Hg'. unfold fs_delete, fs_update.
      by rewrite lookup_delete_ne, lookup_alter_ne.
    + eexists _, _. split; [reflexivity|].
      cbn [db with_db set_groups set_user_profiles groups user_profiles receipts outbox].
      split; [exact Hprofiles|]. split; [reflexivity|]. split; [reflexivity|].
      split.
      { intros gd'. unfold fs_update. rewrite lookup_alter_eq, Hgd.
        intros [= <-]. by exists (x :: l). }
      intros g' Hg'. unfold fs_update. by rewrite lookup_alter_ne.
  - eexists _, _. split; [reflexivity|].
    cbn [db with_db set_groups set_user_profiles groups user_profiles receipts outbox].
    split; [exact Hprofiles|]. split; [reflexivity|]. split; [reflexivity|].
    split; [intros gd'; by rewrite Hgd|]. done.
Qed.

(** A profile that names a group whose document does not exist is
    repaired by [get_my_group_info]: the reply reports the inconsistency,
    [groupId] is removed from the profile, nothing else changes, and the
    next call answers that the user is in no group. *)
Theorem group_info_repairs_dangling_group (uid g : string) (w : World) (p : dict) :
  db_initialized E = true →
  user_profiles (db w) !! uid = Some p →
  p !! "groupId" = Some (PStr g) →
  g ≠ "" →
  groups (db w) !! g = None →
  ∃ w',
    get_my_group_info E uid w
      = (Ret "Error: Your group data was inconsistent. You've been removed from the non-existent group.",
         w') ∧
    user_profiles (db w') = <[uid := delete "groupId" p]> (user_profiles (db w)) ∧
    groups (db w') = groups (db w) ∧
    receipts (db w') = receipts (db w) ∧
    get_my_group_info E uid w'
      = (Ret "You are not in a group. Admin can add you or you can ask admin to create one for you.",
         w').
Proof.
  intros Hdb Hp Hg Hne Hgroup.
  assert (Htruthy : py_truthy (PDict p) = true) by by eapply py_truthy_dict_lookup.
  assert (Hgid : py_get p "groupId" = PStr g) by (unfold py_get; by rewrite Hg).
  pose proof Hne as Hne'. apply String.eqb_neq in Hne'.
  assert (Hprofiles : fs_update uid (delete "groupId") (user_profiles (db w))
                      = <[uid := delete "groupId" p]> (user_profiles (db w))).
  { unfold fs_update. apply map_eq. intros k.
    destruct (decide (k = uid)) as [->|Hk].
    - by rewrite lookup_alter_eq, lookup_insert_eq, Hp.
    - by rewrite lookup_alter_ne, lookup_insert_ne. }
  eexists. split.
  { unfold get_my_group_info. rewrite Hdb. cbn [negb].
    erewrite bind_ret by apply get_user_group_id_run.
    rewrite Hdb, Hp, Htruthy, Hgid.
    assert (py_truthy (PStr g) = true) as -> by (simpl; by rewrite Hne').
    cbn [negb].
    erewrite bind_ret by reflexivity. erewrite bind_ret by reflexivity.
    rewrite Hgroup. erewrite bind_ret by reflexivity. reflexivity. }
  cbn [db with_db set_groups set_user_profiles groups user_profiles receipts outbox].
  split; [exact Hprofiles|]. split; [reflexivity|]. split; [reflexivity|].
  unfold get_my_group_info. rewrite Hdb. cbn [negb].
  erewrite bind_ret by apply get_user_group_id_run.
  cbn [db with_db set_groups set_user_profiles groups user_profiles receipts outbox].
  rewrite Hdb, Hprofiles, lookup_insert_eq.
  unfold py_get. rewrite lookup_delete_eq. cbn [from_option id].
  by destruct (py_truthy (PDict (delete "groupId" p))).
Qed.

End OwnGroup.

(** ** Admin: deleting a group *)

Section DeleteGroup.
Context (E : Env).

Lemma left_group_has_no_group now p gid :
  py_eq_str (py_get (left_group now p) "groupId") gid = false.
Proof.
  unfold left_group, py_get. rewrite lookup_insert_ne by done.
  by rewrite lookup_delete_eq.
Qed.

Lemma detach_members gid ids w :
  ∃ w',
    for_each (PStr <$> ids) (λ member_id,
        mid ← document member_id;
        member_profile ← get_doc user_profiles mid;
        match member_profile with
        | Some p =>
            if py_eq_str (py_get p "groupId") gid then
              write_profiles (λ now, fs_update mid
                (λ d, <["groupLeftAt" := PTimestamp now]> (delete "groupId" d)))
            else mret tt
        | None => mret tt
        end) w = (Ret tt, w') ∧
    groups (db w') = groups (db w) ∧
    receipts (db w') = receipts (db w) ∧
    outbox w' = outbox w ∧
    clock w' = clock w ∧
    today w' = today w ∧
    ∀ uid,
      user_profiles (db w') !! uid =
      (λ p, if bool_decide (uid ∈ ids) && py_eq_str (py_get p "groupId") gid
            then left_group (clock w) p else p) <$> user_profiles (db w) !! uid.
Proof.
  revert w. induction ids as [|x ids IH]; intros w.
  - exists w. split_and!; try done. intros uid. cbn [andb].
    rewrite bool_decide_eq_false_2 by set_solver. cbn [andb].
    by destruct (user_profiles (db w) !! uid).
  - cbn [fmap list_fmap for_each].
    set (w1 := match user_profiles (db w) !! x with
               | Some p => if py_eq_str (py_get p "groupId") gid
                           then with_db (set_user_profiles
                                  (fs_update x (left_group (clock w)))) w
                           else w
               | None => w
               end).
    assert (Hstep : ∀ (k : unit → M unit),
      ((mid ← document (PStr x);
        member_profile ← get_doc user_profiles mid;
        match member_profile with
        | Some p =>
            if py_eq_str (py_get p "groupId") gid then
              write_profiles (λ now, fs_update mid
                (λ d, <["groupLeftAt" := PTimestamp now]> (delete "groupId" d)))
            else mret tt
        | None => mret tt
        end) ≫= k) w = k tt w1).
    { intros k. unfold w1. erewrite bind_ret; [reflexivity|].
      erewrite bind_ret by reflexivity. erewrite bind_ret by reflexivity.
      destruct (user_profiles (db w) !! x) as [p|]; [|done].
      by destruct (py_eq_str _ _). }
    rewrite Hstep.
    destruct (IH w1) as (w' & Hrun & Hgroups & Hreceipts & Hout & Hclock & Htoday & Hprofiles).
    assert (Hw1 : groups (db w1) = groups (db w) ∧ receipts (db w1) = receipts (db w) ∧
                  outbox w1 = outbox w ∧ clock w1 = clock w ∧ today w1 = today w).
    { unfold w1. destruct (user_profiles (db w) !! x) as [p|]; [|done].
      by destruct (py_eq_str _ _). }
    destruct Hw1 as (Hg1 & Hr1 & Ho1 & Hc1 & Ht1).
    exists w'. split; [exact Hrun|].
    split; [by rewrite Hgroups|]. split; [by rewrite Hreceipts|].
    split; [by rewrite Hout|]. split; [by rewrite Hclock|]. split; [by rewrite Htoday|].
    intros uid. rewrite Hprofiles, Hc1.
    destruct (decide (uid = x)) as [->|Hne].
    + rewrite (bool_decide_eq_true_2 (x ∈ x :: ids)) by set_solver. cbn [andb].
      unfold w1. destruct (user_profiles (db w) !! x) as [p|] eqn:Hp.
      * destruct (py_eq_str (py_get p "groupId") gid) eqn:Heq.
        -- cbn [db with_db set_user_profiles user_profiles]. unfold fs_update.
           rewrite lookup_alter_eq, Hp. cbn [fmap option_fmap option_map].
           by rewrite left_group_has_no_group, andb_false_r, Heq.
        -- rewrite Hp. cbn [fmap option_fmap option_map]. by rewrite Heq, andb_false_r.
      * by rewrite Hp.
    + assert (Hsame : user_profiles (db w1) !! uid = user_profiles (db w) !! uid).
      { unfold w1. destruct (user_profiles (db w) !! x) as [p|]; [|done].
        destruct (py_eq_str _ _); [|done].
        cbn [db with_db set_user_profiles user_profiles]. unfold fs_update.
        by rewrite lookup_alter_ne. }
      rewrite Hsame. destruct (user_profiles (db w) !! uid) as [p|]; [|done].
      cbn [fmap option_fmap option_map].
      assert (uid ∈ x :: ids ↔ uid ∈ ids) as Hiff by (rewrite elem_of_cons; split; [by intros [?|?]|by right]).
      by rewrite (bool_decide_ext _ _ Hiff).
Qed.

(** Deleting a group whose member array lists the ids [ids]: the group
    document is removed, and exactly the listed members whose profile
    named this group lose [groupId] (and get [groupLeftAt]); every other
    profile, a listed member who had moved to another group included, is
    left as it was, as are the receipts and the outbox.  A profile that
    names the group without being listed in its member array keeps naming
    it. *)
Theorem admin_delete_group_detaches_members (gid : string) (w : World) (gd : dict)
    (ids : list string) :
  db_initialized E = true →
  groups (db w) !! gid = Some gd →
  py_get_default gd "memberUserIds" (PList []) = PList (PStr <$> ids) →
  ∃ w',
    admin_delete_group E gid w
      = (Ret ("Group '" +:+ fstr E (py_get_default gd "groupName" (PStr gid)) +:+ "' (ID: `"
              +:+ gid +:+ "`) and its members' associations have been deleted."), w') ∧
    groups (db w') = delete gid (groups (db w)) ∧
    receipts (db w') = receipts (db w) ∧
    outbox w' = outbox w ∧
    ∀ uid,
      user_profiles (db w') !! uid =
      (λ p, if bool_decide (uid ∈ ids) && py_eq_str (py_get p "groupId") gid
            then left_group (clock w) p else p) <$> user_profiles (db w) !! uid.
Proof.
  intros Hdb Hgd Hmembers. unfold admin_delete_group. rewrite Hdb. cbn [negb].
  erewrite bind_ret by reflexivity. rewrite Hgd, Hmembers.
  erewrite bind_ret by reflexivity.
  destruct (detach_members gid ids w) as (w1 & Hrun & Hg & Hr & Ho & Hc & Ht & Hp).
  erewrite bind_ret by exact Hrun.
  erewrite bind_ret by reflexivity.
  eexists. split; [reflexivity|].
  cbn [db with_db set_groups set_user_profiles groups user_profiles receipts outbox].
  unfold fs_delete. by rewrite Hg.
Qed.

End DeleteGroup.

(** ** Text: MarkdownV2 escaping and the arguments of [/admincreategroup] *)

Section Escaping.

Lemma escape_str_cons c r :
  escape_str (String c r) =
  if Py.contains_char c escape_chars then String "\" (String c (escape_str r))
  else String c (escape_str r).
Proof. reflexivity. Qed.

Lemma markdown_v2_literal_escaped c r :
  Py.contains_char c escape_chars = true →
  markdown_v2_literal (String "\" (String c r)) = String c <$> markdown_v2_literal r.
Proof. reflexivity. Qed.

(** For a text without backslash, what a MarkdownV2 reader takes from
    the escaped text is the text itself: every reserved character is
    escaped and nothing else is added. *)
Theorem escape_markdown_v2_reads_back (text : string) :
  string_forall (λ c, negb (Ascii.eqb c "\")) text = true →
  markdown_v2_literal (escape_markdown_v2 (PStr text)) = Some text.
Proof.
  cbn [escape_markdown_v2]. induction text as [|c r IH]; [done|].
  cbn [string_forall]. intros [Hc Hr]%andb_prop. specialize (IH Hr).
  cbn [escape_str]. destruct (Py.contains_char c escape_chars) eqn:Hres.
  - rewrite markdown_v2_literal_escaped by done. by rewrite IH.
  - cbn [markdown_v2_literal]. apply negb_true_iff in Hc. rewrite Hc, Hres. by rewrite IH.
Qed.

(** Escaping works character by character: the escape of a
    concatenation is the concatenation of the escapes. *)
Theorem escape_markdown_v2_append (s t : string) :
  escape_markdown_v2 (PStr (s +:+ t))
  = escape_markdown_v2 (PStr s) +:+ escape_markdown_v2 (PStr t).
Proof.
  cbn [escape_markdown_v2]. induction s as [|c r IH]; [done|].
  change (String c r +:+ t) with (String c (r +:+ t)).
  rewrite !escape_str_cons, IH. by destruct (Py.contains_char c escape_chars).
Qed.

End Escaping.

(** An instance. *)
Lemma escape_markdown_v2_reads_back_witness :
  escape_markdown_v2 (PStr "Shop_1 (new)!") = "Shop\_1 \(new\)\!" ∧
  markdown_v2_literal (escape_markdown_v2 (PStr "Shop_1 (new)!")) = Some "Shop_1 (new)!".
Proof.
  split; [reflexivity|]. apply (escape_markdown_v2_reads_back "Shop_1 (new)!"). reflexivity.
Defined.

(** A backslash in the text is not escaped: the reader takes it as the
    escape of the next character, and the text read back has lost it. *)
Example escape_markdown_v2_backslash :
  escape_markdown_v2 (PStr "a\b") = "a\b" ∧
  markdown_v2_literal (escape_markdown_v2 (PStr "a\b")) = Some "ab" ∧
  escape_markdown_v2 (PInt 5) = "".
Proof. repeat split; reflexivity. Qed.

Section CreateGroupArgs.

Lemma until_quote_cons c r :
  until_quote (String c r) =
  if is_quote c then Some (EmptyString, r)
  else if Ascii.eqb c "010" then None
  else '(name, rest) ← until_quote r; Some (String c name, rest).
Proof. reflexivity. Qed.

Lemma until_quote_closing name q rest :
  is_quote q = true →
  string_forall (λ c, negb (is_quote c) && negb (Ascii.eqb c "010")) name = true →
  until_quote (name +:+ String q rest) = Some (name, rest).
Proof.
  intros Hq. induction name as [|c r IH].
  - intros _. change ("" +:+ String q rest) with (String q rest).
    by rewrite until_quote_cons, Hq.
  - cbn [string_forall]. intros [[Hc Hnl]%andb_prop Hr]%andb_prop.
    change (String c r +:+ String q rest) with (String c (r +:+ String q rest)).
    apply negb_true_iff in Hc, Hnl. by rewrite until_quote_cons, Hc, Hnl, (IH Hr).
Qed.

(** [/admincreategroup] with a quoted name: the name is everything
    between the opening quote and the next quote (of either kind), blanks
    included, and the member ids are the words on the rest of that line. *)
Theorem quoted_group_name_is_taken_whole (q1 q2 : ascii) (name rest : string) :
  is_quote q1 = true → is_quote q2 = true →
  string_forall (λ c, negb (is_quote c) && negb (Ascii.eqb c "010")) name = true →
  parse_admincreategroup (String q1 (name +:+ String q2 rest))
  = (name, Py.split (first_line (Py.lstrip rest))).
Proof.
  intros Hq1 Hq2 Hname. unfold parse_admincreategroup.
  by rewrite Hq1, (until_quote_closing name q2 rest Hq2 Hname).
Qed.

End CreateGroupArgs.

(** An instance. *)
Lemma quoted_group_name_is_taken_whole_witness :
  parse_admincreategroup (String "034" ("My Family" +:+ String "034" " 7 9"))
  = ("My Family", ["7"; "9"]).
Proof.
  apply (quoted_group_name_is_taken_whole "034" "034" "My Family" " 7 9"); reflexivity.
Defined.

(** Without quotes the name ends at the first blank. *)
Example unquoted_group_name_is_one_word :
  parse_admincreategroup "My Family 7 9" = ("My", ["Family"; "7"; "9"]) ∧
  parse_admincreategroup "" = ("", []).
Proof. split; reflexivity. Qed.

(** ** The list of recent receipts *)

Section Recent.
Context (E : Env).


Lemma insert_desc_length field doc sorted :
  length (insert_desc E field doc sorted) = S (length sorted).
Proof.
  induction sorted as [|d rest IH]; cbn [insert_desc]; [done|].
  destruct (fs_leb E _ _); cbn [length]; by rewrite ?IH.
Qed.



End Recent.

(** ** New profiles, and the average receipt *)

Section NewProfile.
Context (E : Env).

(** The first contact of a user without a profile creates one with no
    group and status [pending_approval], or [approved] for the admin; a
    pending user with a chat is sent the welcome once; groups and receipts
    are untouched; and the new user is approved exactly when it is the
    admin. *)
Theorem new_profile_awaits_approval (uid : string) (chat : pyval) (w : World) :
  db_initialized E = true →
  user_profiles (db w) !! uid = None →
  ∃ w',
    ensure_user_profile_exists E uid chat w
      = (Ret {[ "telegramUserId" := PStr uid; "groupId" := PNone;
                "status" := PStr (if is_user_admin E uid then "approved"
                                  else "pending_approval");
                "requestedAt" := SERVER_TIMESTAMP; "createdAt" := SERVER_TIMESTAMP ]}, w') ∧
    user_profiles (db w')
      = <[uid := {[ "telegramUserId" := PStr uid; "groupId" := PNone;
                    "status" := PStr (if is_user_admin E uid then "approved"
                                      else "pending_approval");
                    "requestedAt" := PTimestamp (clock w);
                    "createdAt" := PTimestamp (clock w) ]}]> (user_profiles (db w)) ∧
    groups (db w') = groups (db w) ∧
    receipts (db w') = receipts (db w) ∧
    outbox w' = outbox w ++
      (if negb (is_user_admin E uid) && py_truthy chat && bot_initialized E
       then [send_message chat (welcome_text uid) None (Some "Markdown")] else []) ∧
    result (is_user_approved E uid) w' = Ret (is_user_admin E uid).
Proof.
  intros Hdb Hp. unfold ensure_user_profile_exists. rewrite Hdb. cbn [negb].
  erewrite bind_ret by apply get_user_profile_run. rewrite Hdb, Hp. cbn [profile_truthy negb].
  erewrite bind_ret by reflexivity.
  set (w1 := with_db _ w).
  assert (Hprofiles : user_profiles (db w1)
            = <[uid := {[ "telegramUserId" := PStr uid; "groupId" := PNone;
                          "status" := PStr (if is_user_admin E uid then "approved"
                                            else "pending_approval");
                          "requestedAt" := PTimestamp (clock w);
                          "createdAt" := PTimestamp (clock w) ]}]> (user_profiles (db w))).
  { unfold w1, fs_set, resolve. cbn [db with_db set_user_profiles user_profiles]. f_equal. }
  assert (Happroved : ∀ w2, user_profiles (db w2) = user_profiles (db w1) →
            result (is_user_approved E uid) w2 = Ret (is_user_admin E uid)).
  { intros w2 Hw2. unfold result. rewrite is_user_approved_run, Hdb, Hw2, Hprofiles.
    rewrite lookup_insert_eq. cbn [fst]. f_equal.
    destruct (is_user_admin E uid); [done|]. cbn [orb].
    rewrite py_truthy_dict_insert. cbn [andb]. unfold py_get.
    rewrite !lookup_insert_ne by done. by rewrite lookup_insert_eq. }
  destruct (is_user_admin E uid) eqn:Hadm.
  - change (String.eqb "approved" "pending_approval") with false. cbn [andb negb].
    erewrite bind_ret by reflexivity. eexists. split; [reflexivity|].
    split; [exact Hprofiles|]. split; [reflexivity|]. split; [reflexivity|].
    split; [by rewrite app_nil_r|]. by apply Happroved.
  - change (String.eqb "pending_approval" "pending_approval") with true. cbn [andb negb].
    destruct (py_truthy chat && bot_initialized E).
    + erewrite bind_ret by reflexivity. eexists. split; [reflexivity|].
      split; [exact Hprofiles|]. split; [reflexivity|]. split; [reflexivity|].
      split; [reflexivity|]. by apply Happroved.
    + erewrite bind_ret by reflexivity. eexists. split; [reflexivity|].
      split; [exact Hprofiles|]. split; [reflexivity|]. split; [reflexivity|].
      split; [by rewrite app_nil_r|]. by apply Happroved.
Qed.

End NewProfile.

Section Average.
Context (E : Env).


End Average.

(** ** Date strings and month ranges *)

Section DateStrings.
Context (E : Env).

Lemma checked_below (P : Z → bool) (n : Z) :
  forallb P (seqZ 0 n) = true → ∀ z, (0 ≤ z < n)%Z → P z = true.
Proof.
  intros H z Hz. rewrite forallb_forall in H. apply H, list_elem_of_In, elem_of_seqZ. lia.
Qed.

Lemma compare_app (a b s t : string) :
  String.length a = String.length b →
  String.compare (a +:+ s) (b +:+ t) =
  match String.compare a b with Eq => String.compare s t | c => c end.
Proof.
  revert b. induction a as [|c a IH]; intros [|d b] Hlen; try done.
  change (String c a +:+ s) with (String c (a +:+ s)).
  change (String d b +:+ t) with (String d (b +:+ t)).
  change (String.compare (String c (a +:+ s)) (String d (b +:+ t)))
    with (match Ascii.compare c d with
          | Eq => String.compare (a +:+ s) (b +:+ t) | Lt => Lt | Gt => Gt end).
  change (String.compare (String c a) (String d b))
    with (match Ascii.compare c d with
          | Eq => String.compare a b | Lt => Lt | Gt => Gt end).
  destruct (Ascii.compare c d); [|done..].
  apply IH. by injection Hlen.
Qed.

Lemma length_app (a b : string) :
  String.length (a +:+ b) = String.length a + String.length b.
Proof. induction a as [|c a IH]; [done|]. simpl. f_equal. exact IH. Qed.

Lemma zero_pad_2_length z : (0 ≤ z < 100)%Z → String.length (zero_pad 2 z) = 2.
Proof.
  intros Hz. apply Nat.eqb_eq.
  apply (checked_below (λ z, String.length (zero_pad 2 z) =? 2) 100); [by vm_compute|lia].
Qed.

Lemma zero_pad_2_compare a b :
  (0 ≤ a < 100)%Z → (0 ≤ b < 100)%Z →
  String.compare (zero_pad 2 a) (zero_pad 2 b) = Z.compare a b.
Proof.
  intros Ha Hb.
  pose proof (checked_below
    (λ a, forallb (λ b, bool_decide (String.compare (zero_pad 2 a) (zero_pad 2 b)
                                     = Z.compare a b)) (seqZ 0 100)) 100) as H.
  specialize (H ltac:(by vm_compute) a ltac:(lia)). cbn beta in H.
  eapply bool_decide_eq_true_1.
  exact (checked_below (λ b, bool_decide (String.compare (zero_pad 2 a) (zero_pad 2 b)
                                          = Z.compare a b)) 100 H b ltac:(lia)).
Qed.

Lemma zero_pad_4_split z :
  (0 ≤ z < 10000)%Z → zero_pad 4 z = zero_pad 2 (z / 100) +:+ zero_pad 2 (z mod 100).
Proof.
  intros Hz. apply String.eqb_eq.
  apply (checked_below
           (λ z, String.eqb (zero_pad 4 z) (zero_pad 2 (z / 100) +:+ zero_pad 2 (z mod 100)))
           10000); [by vm_compute|lia].
Qed.

Lemma zero_pad_4_length z : (0 ≤ z < 10000)%Z → String.length (zero_pad 4 z) = 4.
Proof.
  intros Hz. rewrite zero_pad_4_split, length_app by done.
  rewrite !zero_pad_2_length; [done|..].
  - apply Z.mod_pos_bound. lia.
  - split; [apply Z.div_pos; lia|apply Z.div_lt_upper_bound; lia].
Qed.

Lemma zero_pad_4_compare a b :
  (0 ≤ a < 10000)%Z → (0 ≤ b < 10000)%Z →
  String.compare (zero_pad 4 a) (zero_pad 4 b) = Z.compare a b.
Proof.
  intros Ha Hb. rewrite !zero_pad_4_split by done.
  assert (Hdiv : ∀ z, (0 ≤ z < 10000 → 0 ≤ z / 100 < 100)%Z).
  { intros z Hz. split; [apply Z.div_pos; lia|apply Z.div_lt_upper_bound; lia]. }
  assert (Hmod : ∀ z, (0 ≤ z mod 100 < 100)%Z) by (intros z; apply Z.mod_pos_bound; lia).
  rewrite compare_app by (rewrite !zero_pad_2_length; auto).
  rewrite !zero_pad_2_compare by auto.
  pose proof (Z.div_mod a 100 ltac:(lia)) as Ea.
  pose proof (Z.div_mod b 100 ltac:(lia)) as Eb.
  pose proof (Hmod a). pose proof (Hmod b).
  destruct (Z.compare_spec (a / 100) (b / 100)) as [Hq|Hq|Hq].
  - destruct (Z.compare_spec (a mod 100) (b mod 100)) as [Hr|Hr|Hr]; symmetry.
    + apply Z.compare_eq_iff. lia.
    + apply Z.compare_lt_iff. lia.
    + apply Z.compare_gt_iff. lia.
  - symmetry. apply Z.compare_lt_iff. lia.
  - symmetry. apply Z.compare_gt_iff. lia.
Qed.

Lemma ymd_compare y1 m1 d1 y2 m2 d2 :
  (0 ≤ y1 < 10000 → 0 ≤ m1 < 100 → 0 ≤ d1 < 100 →
   0 ≤ y2 < 10000 → 0 ≤ m2 < 100 → 0 ≤ d2 < 100 →
   String.compare (ymd y1 m1 d1) (ymd y2 m2 d2) =
   match Z.compare y1 y2 with
   | Eq => match Z.compare m1 m2 with Eq => Z.compare d1 d2 | c => c end
   | c => c
   end)%Z.
Proof.
  intros. unfold ymd.
  rewrite compare_app by (by rewrite !zero_pad_4_length).
  rewrite zero_pad_4_compare by done. destruct (y1 ?= y2)%Z; [|done..].
  rewrite (compare_app "-" "-") by done. cbn [String.compare Ascii.compare]. cbn.
  rewrite compare_app by (by rewrite !zero_pad_2_length).
  rewrite zero_pad_2_compare by done. destruct (m1 ?= m2)%Z; [|done..].
  rewrite (compare_app "-" "-") by done. cbn.
  by rewrite zero_pad_2_compare.
Qed.

Lemma ymd_leb y1 m1 d1 y2 m2 d2 :
  (0 ≤ y1 < 10000 → 0 ≤ m1 < 100 → 0 ≤ d1 < 100 →
   0 ≤ y2 < 10000 → 0 ≤ m2 < 100 → 0 ≤ d2 < 100 →
   String.leb (ymd y1 m1 d1) (ymd y2 m2 d2) = true ↔ date_le (y1, m1, d1) (y2, m2, d2))%Z.
Proof.
  intros. unfold String.leb. rewrite ymd_compare by done. unfold date_le.
  destruct (Z.compare_spec y1 y2); [|split; [lia|done]|split; [done|lia]].
  destruct (Z.compare_spec m1 m2); [|split; [lia|done]|split; [done|lia]].
  destruct (Z.compare_spec d1 d2); split; (done || lia).
Qed.

Lemma days_in_month_bounds y m : (28 ≤ days_in_month y m ≤ 31)%Z.
Proof.
  unfold days_in_month. destruct (m =? 2)%Z; [destruct (is_leap_year y); lia|].
  destruct (bool_decide _); lia.
Qed.

Lemma ymd_in_month y m y' m' d' :
  (1000 ≤ y ≤ 9999 → 1 ≤ m ≤ 12 → valid_date (y', m', d') →
   (String.leb (ymd y m 1) (ymd y' m' d') = true ∧
    String.leb (ymd y' m' d') (ymd y m (days_in_month y m)) = true)
   ↔ y' = y ∧ m' = m)%Z.
Proof.
  intros Hy Hm (Hy' & Hm' & Hd').
  pose proof (days_in_month_bounds y m). pose proof (days_in_month_bounds y' m').
  rewrite !ymd_leb by lia. unfold date_le.
  split; [lia|]. intros [-> ->]. lia.
Qed.

(** On a valid date with a four-digit year, the range
    [get_current_month_start_end] returns holds, in the byte order of the
    date strings that the receipt queries compare by, today's date string
    and exactly the dates of the current month. *)
Theorem current_month_range_holds_the_month (w : World) :
  valid_date (today w) →
  ∃ start_of_month end_of_month current_month_year_str,
    get_current_month_start_end w
      = (Ret (start_of_month, end_of_month, current_month_year_str), w) ∧
    String.leb start_of_month (todays_date_str w) = true ∧
    String.leb (todays_date_str w) end_of_month = true ∧
    ∀ y m d, valid_date (y, m, d) →
      (String.leb start_of_month (ymd y m d) = true ∧
       String.leb (ymd y m d) end_of_month = true)
      ↔ y = (today w).1.1 ∧ m = (today w).1.2.
Proof.
  unfold get_current_month_start_end, todays_date_str.
  destruct (today w) as [[y m] d] eqn:Htoday. intros (Hy & Hm & Hd).
  eexists _, _, _. split; [erewrite bind_ret by reflexivity; by rewrite Htoday|].
  assert (Hin : (String.leb (ymd y m 1) (ymd y m d) = true ∧
                 String.leb (ymd y m d) (ymd y m (days_in_month y m)) = true))
    by (by apply ymd_in_month).
  destruct Hin as [H1 H2]. split; [exact H1|]. split; [exact H2|].
  intros y' m' d' Hvalid. cbn [fst snd]. by apply ymd_in_month.
Qed.

(** For a [YYYY-MM] token naming month 1 to 12 of a four-digit year, the
    range the three month reports compute holds, in the byte order of the
    date strings, exactly the dates of that month. *)
Theorem month_range_holds_the_month (month_year_str : string) (year month : Z) :
  py_int E <$> Py.split_on "-" month_year_str = [Some year; Some month] →
  (1000 ≤ year ≤ 9999)%Z → (1 ≤ month ≤ 12)%Z →
  ∀ w, ∃ start_date end_date,
    month_range E month_year_str w = (Ret (Some (start_date, end_date)), w) ∧
    ∀ y m d, valid_date (y, m, d) →
      (String.leb start_date (ymd y m d) = true ∧ String.leb (ymd y m d) end_date = true)
      ↔ y = year ∧ m = month.
Proof.
  intros Hparse Hy Hm w. unfold month_range. rewrite Hparse.
  assert (Hstart : zero_pad 4 year +:+ "-" +:+ zero_pad 2 month +:+ "-01" = ymd year month 1)
    by reflexivity.
  rewrite Hstart.
  destruct (month =? 12)%Z eqn:H12.
  - apply Z.eqb_eq in H12. subst month.
    assert (zero_pad 4 year +:+ "-12-31" = ymd year 12 (days_in_month year 12)) as ->
      by reflexivity.
    eexists _, _. split; [reflexivity|]. intros y m d Hvalid. by apply ymd_in_month.
  - assert ((1 <=? year) && (year <=? 9999) && (0 <=? month) && (month <=? 11) = true)%Z as ->
      by (apply Z.eqb_neq in H12; repeat (apply andb_true_intro; split); lia).
    cbn [negb]. assert ((month =? 0)%Z = false) as -> by lia.
    eexists _, _. split; [reflexivity|]. intros y m d Hvalid. by apply ymd_in_month.
Qed.

End DateStrings.

(** ** The image pipeline: what is stored *)

Section Stamps.
Context (E : Env).

Lemma process_image_saves_for_group chat uid file mime bytes draft w :
  download_file E file = inr bytes →
  call_llm_for_receipt E bytes (mime_type_for_llm mime) = inr (PDict draft) →
  ∃ gid,
    get_user_group_id E uid w = (Ret gid, w) ∧
    db (after (process_image E chat uid file mime) w) =
    set_receipts
      (fs_set (clock w) (auto_id E (receipts (db w)))
         (receipt_data_to_save draft (todays_date_str w) uid gid)) (db w).
Proof.
  intros Hdl Hllm. unfold process_image, after. rewrite Hdl.
  destruct (get_user_group_id_reads E uid w) as [g Hg]. exists g. split; [exact Hg|].
  unfold mbind, M_bind, mret, M_ret. cbn beta iota. rewrite Hllm. cbn beta iota.
  unfold get_world at 1. cbn beta iota. rewrite Hg. cbn beta iota.
  unfold get_world at 1. cbn beta iota.
  unfold write_receipts at 1, modify at 1. cbn beta iota.
  set (d := receipt_data_to_save draft (todays_date_str w) uid g).
  set (w1 := with_db _ w).
  transitivity (db w1); [|reflexivity].
  pose proof (keeps_format_single_receipt_for_view E same_db d w1) as Hf.
  unfold after, same_db in Hf.
  destruct (format_single_receipt_for_view E d w1) as [[a|e] w2]; cbn [fst snd] in *;
    [|exact Hf].
  rewrite <- Hf. clear Hf.
  destruct (4000 <? String.length a)%nat.
  - pose proof (keeps_fmt_2f E same_db (py_get_default d "total_price" (PFloat 0)) w2) as Hf.
    unfold after, same_db in Hf.
    destruct (fmt_2f E _ w2) as [[a0|e] w3]; cbn [fst snd] in *; [|exact Hf].
    rewrite <- Hf.
    apply (send_tg_message_same_db E chat _ None (Some "Markdown") w3).
  - apply (send_tg_message_same_db E chat _ None (Some "Markdown") w2).
Qed.

Lemma image_pipeline_saves_for_group chat uid file mime bytes draft w :
  download_file E file = inr bytes →
  call_llm_for_receipt E bytes (mime_type_for_llm mime) = inr (PDict draft) →
  ∃ gid,
    get_user_group_id E uid w = (Ret gid, w) ∧
    db (after (image_pipeline E chat uid file mime) w) =
    set_receipts
      (fs_set (clock w) (auto_id E (receipts (db w)))
         (receipt_data_to_save draft (todays_date_str w) uid gid)) (db w).
Proof.
  intros Hdl Hllm.
  destruct (send_tg_message_returns E chat "Got your image! Analyzing with Gemini Vision..."
              None None w) as (w0 & Hsend & Hdb0 & Htoday & Hclock).
  destruct (process_image_saves_for_group chat uid file mime bytes draft w0 Hdl Hllm)
    as (gid & Hgid & Hdb).
  exists gid. split.
  { rewrite get_user_group_id_run. rewrite get_user_group_id_run in Hgid.
    rewrite Hdb0 in Hgid. injection Hgid as Hgid. rewrite <- Hgid. reflexivity. }
  assert (Hafter : db (after (image_pipeline E chat uid file mime) w)
                   = db (after (process_image E chat uid file mime) w0)).
  { unfold image_pipeline, after. erewrite bind_ret by exact Hsend. unfold try_except.
    destruct (process_image E chat uid file mime w0) as [[[]|e] w1]; cbn [snd]; [done|].
    destruct e;
      match goal with |- db (send_tg_message E ?c ?t ?r ?p ?w).2 = _ =>
        apply (send_tg_message_same_db E c t r p w) end. }
  rewrite Hafter, Hdb. unfold todays_date_str. by rewrite Hdb0, Htoday, Hclock.
Qed.

Lemma saved_receipt_lookups now draft today_str uid gid :
  let doc := resolve now (receipt_data_to_save draft today_str uid gid) in
  doc !! "date" = Some (PStr today_str) ∧
  doc !! "telegramUserId" = Some (PStr uid) ∧
  doc !! "groupId"
    = (if py_truthy gid
       then Some (match gid with SERVER_TIMESTAMP => PTimestamp now | _ => gid end)
       else None) ∧
  doc !! "uploadTimestamp" = Some (PTimestamp now) ∧
  doc !! "lastUpdatedAt" = Some (PTimestamp now) ∧
  doc !! "isVerifiedByUser" = Some (PBool false) ∧
  ∀ k, k ∉ stamped_fields → doc !! k = resolve now draft !! k.
Proof.
  cbn zeta. unfold receipt_data_to_save. rewrite !resolve_lookup.
  split; [destruct (py_truthy gid);
          rewrite !lookup_insert_ne, ?lookup_delete_ne, ?lookup_insert_ne by done;
          by rewrite lookup_insert_eq|].
  split; [destruct (py_truthy gid);
          rewrite !lookup_insert_ne, ?lookup_delete_ne by done;
          by rewrite lookup_insert_eq|].
  split.
  { rewrite !lookup_insert_ne by done. destruct (py_truthy gid).
    - by rewrite lookup_insert_eq.
    - by rewrite lookup_delete_eq. }
  split; [rewrite !lookup_insert_ne by done; by rewrite lookup_insert_eq|].
  split; [rewrite lookup_insert_ne by done; by rewrite lookup_insert_eq|].
  split; [by rewrite lookup_insert_eq|].
  intros k Hk. unfold stamped_fields in Hk.
  rewrite !not_elem_of_cons in Hk. destruct Hk as (? & ? & ? & ? & ? & ? & _).
  rewrite !resolve_lookup. f_equal.
  rewrite !lookup_insert_ne by done.
  destruct (py_truthy gid);
    rewrite ?lookup_insert_ne, ?lookup_delete_ne, ?lookup_insert_ne, ?lookup_delete_ne by done;
    done.
Qed.


End Stamps.

(** ** Upload, then summary *)

#[export] Instance same_today_preorder : PreOrder same_today.
Proof. split; unfold same_today; [done|]. intros w1 w2 w3 H1 H2. by rewrite H2. Qed.

Section ThisMonth.
Context (E : Env).

Lemma send_tg_message_same_today chat text rm pm :
  keeps same_today (send_tg_message E chat text rm pm).
Proof. intros w. unfold after. rewrite send_tg_message_run. by destruct (_ || _). Qed.

Lemma image_pipeline_same_today chat uid file mime :
  keeps same_today (image_pipeline E chat uid file mime).
Proof.
  unfold image_pipeline. keeps_step; [apply send_tg_message_same_today|].
  keeps_step; [|destruct e; apply send_tg_message_same_today].
  unfold process_image.
  keeps_bind_as image_bytes; [destruct (download_file E file); keeps_step|].
  keeps_bind_as receipt_data_from_llm; [destruct (call_llm_for_receipt E _ _); keeps_step|].
  keeps_bind_as draft; [destruct receipt_data_from_llm; keeps_step|].
  keeps_step; [keeps_step|].
  keeps_step; [apply keeps_get_user_group_id; apply _|].
  keeps_step; [keeps_step|].
  keeps_step; [intros ?; reflexivity|].
  keeps_step; [apply keeps_format_single_receipt_for_view; apply _|].
  keeps_step; [|apply send_tg_message_same_today].
  keeps_step; [apply keeps_fmt_2f; apply _|apply send_tg_message_same_today].
Qed.

Lemma ymd_nonempty y m d : ymd y m d ≠ "".
Proof. unfold ymd. by destruct (zero_pad 4 y). Qed.

(** Upload, then summary.  A user with a profile (in no group, or in a
    group named by a non-empty string) uploads a receipt on a valid date:
    in the world the pipeline leaves, the receipt just stored is among the
    receipts that a current-month aggregation for that user scans, since
    it carries the user's scope and today's date lies in the month's
    range. *)
Theorem uploaded_receipt_is_in_this_month (chat : Z) (uid file : string)
    (mime : option string) (bytes : string) (draft p : dict) (w : World) :
  db_initialized E = true →
  download_file E file = inr bytes →
  call_llm_for_receipt E bytes (mime_type_for_llm mime) = inr (PDict draft) →
  valid_date (today w) →
  user_profiles (db w) !! uid = Some p →
  py_truthy (py_get p "groupId") = false ∨ (∃ g, p !! "groupId" = Some (PStr g) ∧ g ≠ "") →
  ∃ query_field query_value context_label start_of_month end_of_month month_str doc,
    get_query_target E uid (after (image_pipeline E chat uid file mime) w)
      = (Ret (query_field, query_value, context_label),
         after (image_pipeline E chat uid file mime) w) ∧
    get_current_month_start_end (after (image_pipeline E chat uid file mime) w)
      = (Ret (start_of_month, end_of_month, month_str),
         after (image_pipeline E chat uid file mime) w) ∧
    (auto_id E (receipts (db w)), doc)
      ∈ agg_query query_field query_value start_of_month end_of_month
          (receipts (db (after (image_pipeline E chat uid file mime) w))).
Proof.
  intros Hdb Hdl Hllm Hvalid Hp Hgroup.
  destruct (image_pipeline_saves_for_group E chat uid file mime bytes draft w Hdl Hllm)
    as (gid & Hgid & Hsaved).
  pose proof (image_pipeline_same_today chat uid file mime w) as Htoday.
  unfold same_today in Htoday.
  set (w' := after (image_pipeline E chat uid file mime) w) in *.
  set (doc := resolve (clock w) (receipt_data_to_save draft (todays_date_str w) uid gid)).
  destruct (saved_receipt_lookups (clock w) draft (todays_date_str w) uid gid)
    as (Hdate & Huid & Hgroupid & _). fold doc in Hdate, Huid, Hgroupid.
  assert (Hprofiles : user_profiles (db w') = user_profiles (db w)) by by rewrite Hsaved.
  assert (Hgroups : groups (db w') = groups (db w)) by by rewrite Hsaved.
  assert (Hstored : (auto_id E (receipts (db w)), doc) ∈ stream (receipts (db w'))).
  { unfold stream. apply elem_of_map_to_list. rewrite Hsaved. cbn [set_receipts receipts].
    unfold fs_set. by rewrite lookup_insert_eq. }
  rewrite get_user_group_id_run, Hdb, Hp in Hgid. injection Hgid as Hgid.
  assert (Hgid' : get_user_group_id E uid w' = (Ret gid, w')).
  { rewrite get_user_group_id_run, Hdb, Hprofiles, Hp. by rewrite <- Hgid. }
  destruct (today w) as [[y m] d] eqn:Hymd. destruct Hvalid as (Hy & Hm & Hd).
  assert (Hmonth : get_current_month_start_end w'
                   = (Ret (ymd y m 1, ymd y m (days_in_month y m),
                           zero_pad 4 y +:+ "-" +:+ zero_pad 2 m), w')).
  { unfold get_current_month_start_end. erewrite bind_ret by reflexivity.
    by rewrite Htoday. }
  assert (Hrange : in_closed_range (ymd y m 1) (ymd y m (days_in_month y m))
                     (auto_id E (receipts (db w)), doc)).
  { exists (todays_date_str w). split; [exact Hdate|].
    unfold todays_date_str. rewrite Hymd. by apply ymd_in_month. }
  assert (Hg_cases : py_truthy gid = false ∨ ∃ g, gid = PStr g ∧ g ≠ "").
  { destruct Hgroup as [Hno|(g & Hg & Hne)].
    - left. rewrite <- Hgid.
      match goal with |- context [if ?b then _ else _] => by destruct b end.
    - right. exists g. split; [|done]. rewrite <- Hgid.
      pose proof (py_truthy_dict_lookup p "groupId" (PStr g) Hg) as Ht. cbn in Ht.
      rewrite Ht. unfold py_get. by rewrite Hg. }
  destruct Hg_cases as [Hno|(g & -> & Hne)].
  - exists "telegramUserId", (PStr uid), "(personal)".
    eexists _, _, _, doc.
    split; [unfold get_query_target; erewrite bind_ret by exact Hgid'; by rewrite Hno|].
    split; [exact Hmonth|].
    apply agg_query_closed_range; [apply ymd_nonempty..|].
    split; [exact Hstored|]. split; [|exact Hrange].
    unfold field_eq. cbn [snd]. rewrite Huid. cbn. apply String.eqb_refl.
  - assert (Htruthy : py_truthy (PStr g) = true)
      by (cbn; apply String.eqb_neq in Hne; by rewrite Hne).
    assert (∃ n, get_group_name E (PStr g) w' = (Ret n, w')) as [n Hname].
    { unfold get_group_name. rewrite Htruthy, Hdb. cbn [negb orb].
      erewrite bind_ret by reflexivity. erewrite bind_ret by reflexivity. by eexists. }
    exists "groupId", (PStr g). eexists _, _, _, _, doc.
    split.
    { unfold get_query_target. erewrite bind_ret by exact Hgid'. rewrite Htruthy.
      erewrite bind_ret by exact Hname. reflexivity. }
    split; [exact Hmonth|].
    apply agg_query_closed_range; [apply ymd_nonempty..|].
    split; [exact Hstored|]. split; [|exact Hrange].
    unfold field_eq. cbn [snd]. rewrite Hgroupid, Htruthy. cbn. apply String.eqb_refl.
Qed.

End ThisMonth.

(** ** Admin: removing a user from a group *)

Section Remove.
Context (E : Env).

Lemma array_remove_members uid (gd : dict) :
  ∃ l, array_remove "memberUserIds" (PStr uid) gd !! "memberUserIds" = Some (PList l)
       ∧ PStr uid ∉ l.
Proof.
  unfold array_remove.
  destruct (gd !! "memberUserIds") as [[]|]; rewrite lookup_insert_eq;
    try (exists []; split; [done|by intros ?%elem_of_nil]).
  eexists. split; [done|]. intros Hin%list_elem_of_filter. destruct Hin as [Hin _].
  simpl in Hin. by rewrite String.eqb_refl in Hin.
Qed.

Lemma admin_remove_user_from_group_refusals (uid g : string) (w : World) :
  db_initialized E = true →
  (user_profiles (db w) !! uid = None →
   admin_remove_user_from_group E uid g w = (Ret ("User ID `" +:+ uid +:+ "` not found."), w)) ∧
  (is_Some (user_profiles (db w) !! uid) → groups (db w) !! g = None →
   admin_remove_user_from_group E uid g w = (Ret ("Group ID `" +:+ g +:+ "` not found."), w)).
Proof.
  intros Hdb. unfold admin_remove_user_from_group. rewrite Hdb. cbn [negb]. split.
  - intros Hp. erewrite bind_ret by reflexivity. by rewrite Hp.
  - intros [p Hp] Hg. erewrite bind_ret by reflexivity. rewrite Hp.
    erewrite bind_ret by reflexivity. by rewrite Hg.
Qed.

(** [admin_remove_user_from_group] on a user and a group that both
    exist returns a reply.  If the group document is still there
    afterwards, its member array does not hold the user and is not empty,
    and its other fields are as before; the profile is detached (loses
    [groupId], gets [groupLeftAt]) only if it named this group, and is
    left exactly as it was when it named another group or none; no other
    profile, no other group, no receipt and no message is touched. *)
Theorem admin_removes_user_from_group (uid g : string) (w : World) (p gd : dict) :
  db_initialized E = true →
  user_profiles (db w) !! uid = Some p →
  groups (db w) !! g = Some gd →
  ∃ msg w',
    admin_remove_user_from_group E uid g w = (Ret msg, w') ∧
    user_profiles (db w')
      = (if py_eq_str (py_get p "groupId") g
         then <[uid := left_group (clock w) p]> (user_profiles (db w))
         else user_profiles (db w)) ∧
    receipts (db w') = receipts (db w) ∧
    outbox w' = outbox w ∧
    (∀ gd', groups (db w') !! g = Some gd' →
            ∃ l, gd' !! "memberUserIds" = Some (PList l) ∧ (PStr uid ∉ l) ∧ l ≠ [] ∧
                 ∀ k, k ≠ "memberUserIds" → gd' !! k = gd !! k) ∧
    (∀ g', g' ≠ g → groups (db w') !! g' = groups (db w) !! g').
Proof.
  intros Hdb Hp Hgd.
  assert (Hprofiles : fs_update uid
            (λ d, <["groupLeftAt" := PTimestamp (clock w)]> (delete "groupId" d))
            (user_profiles (db w)) = <[uid := left_group (clock w) p]> (user_profiles (db w))).
  { unfold fs_update, left_group. apply map_eq. intros k.
    destruct (decide (k = uid)) as [->|Hk].
    - by rewrite lookup_alter_eq, lookup_insert_eq, Hp.
    - by rewrite lookup_alter_ne, lookup_insert_ne. }
  destruct (array_remove_members uid gd) as (l & Hl & Hnotin).
  assert (Hrest : ∀ k, k ≠ "memberUserIds" →
            array_remove "memberUserIds" (PStr uid) gd !! k = gd !! k).
  { intros k Hk. unfold array_remove.
    destruct (gd !! "memberUserIds") as [[]|]; by rewrite lookup_insert_ne. }
  unfold admin_remove_user_from_group. rewrite Hdb. cbn [negb].
  erewrite bind_ret by reflexivity. rewrite Hp.
  erewrite bind_ret by reflexivity. rewrite Hgd.
  erewrite bind_ret by reflexivity.
  destruct (py_eq_str (py_get p "groupId") g) eqn:Hsame.
  - erewrite bind_ret by reflexivity. erewrite bind_ret by reflexivity.
    cbn [db with_db set_groups set_user_profiles groups user_profiles clock].
    unfold fs_update at 1. rewrite lookup_alter_eq, Hgd. cbn [fmap option_fmap option_map].
    unfold py_get at 1. rewrite Hl. cbn [from_option id].
    destruct l as [|x l]; cbn [py_truthy negb].
    + erewrite bind_ret by reflexivity. eexists _, _. split; [reflexivity|].
      cbn [db with_db set_groups set_user_profiles groups user_profiles receipts outbox clock].
      split; [exact Hprofiles|]. split; [reflexivity|]. split; [reflexivity|].
      split; [intros gd'; unfold fs_delete; by rewrite lookup_delete_eq|].
      intros g' Hg'. unfold fs_delete, fs_update.
      by rewrite lookup_delete_ne, lookup_alter_ne.
    + eexists _, _. split; [reflexivity|].
      cbn [db with_db set_groups set_user_profiles groups user_profiles receipts outbox clock].
      split; [exact Hprofiles|]. split; [reflexivity|]. split; [reflexivity|].
      split.
      { intros gd'. unfold fs_update. rewrite lookup_alter_eq, Hgd.
        intros [= <-]. exists (x :: l). by split_and!. }
      intros g' Hg'. unfold fs_update. by rewrite lookup_alter_ne.
  - erewrite bind_ret by reflexivity. erewrite bind_ret by reflexivity.
    cbn [db with_db set_groups set_user_profiles groups user_profiles clock].
    unfold fs_update at 1. rewrite lookup_alter_eq, Hgd. cbn [fmap option_fmap option_map].
    unfold py_get at 1. rewrite Hl. cbn [from_option id].
    destruct l as [|x l]; cbn [py_truthy negb].
    + erewrite bind_ret by reflexivity. eexists _, _. split; [reflexivity|].
      cbn [db with_db set_groups set_user_profiles groups user_profiles receipts outbox clock].
      split; [reflexivity|]. split; [reflexivity|]. split; [reflexivity|].
      split; [intros gd'; unfold fs_delete; by rewrite lookup_delete_eq|].
      intros g' Hg'. unfold fs_delete, fs_update.
      by rewrite lookup_delete_ne, lookup_alter_ne.
    + eexists _, _. split; [reflexivity|].
      cbn [db with_db set_groups set_user_profiles groups user_profiles receipts outbox clock].
      split; [reflexivity|]. split; [reflexivity|]. split; [reflexivity|].
      split.
      { intros gd'. unfold fs_update. rewrite lookup_alter_eq, Hgd.
        intros [= <-]. exists (x :: l). by split_and!. }
      intros g' Hg'. unfold fs_update. by rewrite lookup_alter_ne.
Qed.

End Remove.

(** ** Receipt buttons: the payload, and who may press *)

Lemma append_cons a p s : String a p +:+ s = String a (p +:+ s).
Proof. reflexivity. Qed.

Lemma prefix_app p s : String.prefix p (p +:+ s) = true.
Proof.
  induction p as [|a p IH]; [by destruct s|].
  rewrite append_cons. cbn [String.prefix]. destruct (ascii_dec a a); [exact IH|done].
Qed.

Lemma eqb_prefixed p id s : String.prefix p s = false → String.eqb (p +:+ id) s = false.
Proof.
  intros H. apply String.eqb_neq. intros <-. by rewrite prefix_app in H.
Qed.

Lemma prefix_apart p' p id :
  String.prefix p' p = false → String.prefix p p' = false → String.prefix p' (p +:+ id) = false.
Proof.
  revert p. induction p' as [|a' p' IH]; intros [|a p]; rewrite ?append_cons;
    cbn [String.prefix]; try done.
  destruct (ascii_dec a' a) as [->|Hne].
  - destruct (ascii_dec a a); [|done]. apply IH.
  - by destruct (ascii_dec a a').
Qed.

Lemma prefix_contains_char c p s :
  String.prefix p s = true → Py.contains_char c p = true → Py.contains_char c s = true.
Proof.
  revert s. induction p as [|a p IH]; intros [|b s]; cbn [String.prefix Py.contains_char];
    try done.
  destruct (ascii_dec a b) as [->|]; [|done].
  intros Hp. destruct (Ascii.eqb c b); [done|]. by apply IH.
Qed.

Lemma remove_go_skip old pre s :
  Py.remove_go old (String.length pre) (pre +:+ s) = Py.remove_go old 0 s.
Proof.
  induction pre as [|a pre IH]; [done|]. rewrite append_cons.
  cbn [String.length Py.remove_go]. exact IH.
Qed.

Lemma remove_go_clean c old s :
  Py.contains_char c old = true → Py.contains_char c s = false →
  Py.remove_go old 0 s = s.
Proof.
  intros Hold. induction s as [|a s IH]; [done|].
  intros Hs. cbn [Py.remove_go].
  destruct (String.prefix old (String a s)) eqn:Hp.
  { by rewrite (prefix_contains_char c _ _ Hp Hold) in Hs. }
  f_equal. apply IH. cbn [Py.contains_char] in Hs. by destruct (Ascii.eqb c a).
Qed.

(** The payload of a receipt button reads back as the receipt's id:
    [str.replace] takes the prefix away and, the id holding no underscore,
    nothing else. *)
Lemma button_payload_reads_back p id :
  p ∈ known_prefixes → Py.contains_char "_" id = false →
  Py.startswith (p +:+ id) p = true ∧ Py.remove_all p (p +:+ id) = id.
Proof.
  intros Hp Hid. split; [apply prefix_app|].
  assert (Py.contains_char "_" p = true ∧ ∃ a p', p = String a p') as [Hc (a & p' & ->)].
  { unfold known_prefixes in Hp. rewrite !elem_of_cons in Hp.
    destruct Hp as [->|[->|[->|[->|Hp]]]]; [by eauto..|by apply elem_of_nil in Hp]. }
  unfold Py.remove_all. rewrite append_cons. cbn [Py.remove_go].
  rewrite <- append_cons, prefix_app.
  cbn [String.length]. rewrite Nat.sub_1_r. cbn [Nat.pred].
  rewrite remove_go_skip. by apply (remove_go_clean "_").
Qed.

Section Buttons.
Context (E : Env).

(** An approved regular user presses the button of a receipt that
    exists and that somebody else uploaded (the id holds no underscore, as
    the ids Firestore generates).  The delete button is answered by the
    not-authorized reply alone, without the confirmation keyboard; the
    view button, when the user's profile does not name the receipt's group
    either, by the not-authorized reply alone, without any field of the
    receipt.  In both cases the webhook core returns OK and nothing is
    written. *)
Theorem stranger_cannot_view_or_confirm (u : Update) (chat : Z) (uid id : string)
    (w : World) (p orig : dict) :
  db_initialized E = true →
  bot_initialized E = true →
  chat ≠ 0%Z →
  callback_press u →
  user_profiles (db w) !! uid = Some p →
  p !! "status" = Some (PStr "approved") →
  is_user_admin E uid = false →
  id ≠ "" →
  Py.contains_char "_" id = false →
  receipts (db w) !! id = Some orig →
  py_eq_str (py_get orig "telegramUserId") uid = false →
  handle_update E u chat uid (Some ("del_confirm_req_" +:+ id)) w
    = (Ret OK, emit (send_message (PInt chat) ("Error: You are not authorized to delete receipt Ref: `" +:+ id +:+ "`.") None (Some "Markdown")) w) ∧
  (¬ in_receipt_group E w uid orig →
   handle_update E u chat uid (Some ("view_receipt_" +:+ id)) w
     = (Ret OK, emit (send_message (PInt chat) ("Error: You are not authorized to view receipt `" +:+ id +:+ "`.") None (Some "Markdown")) w)).
Proof.
  intros Hdb Hbot Hchat [Hmsg Hcq] Hp Hs Hadm Hid Hplain Hr Hup.
  assert (Hsend : ∀ text rm pm w0,
            send_tg_message E chat text rm pm w0 = (Ret tt, emit (send_message (PInt chat) text rm pm) w0)).
  { intros. rewrite send_tg_message_run, Hbot.
    by rewrite (proj2 (Z.eqb_neq chat 0) Hchat). }
  assert (Hstatus : py_get_default p "status" (PStr "pending_approval") = PStr "approved")
    by (unfold py_get_default; by rewrite Hs).
  assert (Hne : String.eqb id "" = false) by by apply String.eqb_neq.
  assert (Hdetails : ∀ w0, receipts (db w0) = receipts (db w) →
            get_receipt_details_for_view E id w0 = (Ret (Some (<["id" := PStr id]> orig)), w0)).
  { intros w0 Hw0. unfold get_receipt_details_for_view. rewrite Hdb, Hne. cbn [negb orb].
    erewrite bind_ret by reflexivity. by rewrite Hw0, Hr. }
  assert (Hmonth : ∃ month, get_current_month_start_end w = (Ret month, w)).
  { unfold get_current_month_start_end. erewrite bind_ret by reflexivity.
    destruct (today w) as [[y m] d]. by eexists. }
  destruct Hmonth as [[[s e] ym] Hmonth].
  assert (Hnoatt : no_attachment u) by (intros m Hm; by rewrite Hmsg in Hm).
  assert (Hparse : ∀ pre, pre ∈ known_prefixes →
            parse_command u (Some (pre +:+ id)) = (pre +:+ id, "", [])).
  { intros pre Hpre. unfold parse_command.
    assert (∃ a r, pre +:+ id = String a r ∧ a ≠ "/"%char) as (a & r & -> & Ha).
    { unfold known_prefixes in Hpre. rewrite !elem_of_cons in Hpre.
      destruct Hpre as [->|[->|[->|[->|Hpre]]]];
        [by (eexists _, _; split; [reflexivity|])..|by apply elem_of_nil in Hpre]. }
    unfold Py.startswith. cbn [String.prefix].
    destruct (ascii_dec "/" a) as [<-|_]; [done|].
    by rewrite bool_decide_eq_true_2. }
  split.
  - destruct (button_payload_reads_back "del_confirm_req_" id) as [Hstart Hback];
      [compute_done|done|].
    unfold handle_update.
    erewrite bind_ret
      by (apply ensure_existing_profile; [done|done|by eapply py_truthy_dict_lookup|by eexists]).
    rewrite Hparse by compute_done. rewrite Hstatus, Hadm.
    erewrite bind_ret by reflexivity. cbn beta iota.
    rewrite (eqb_prefixed "del_confirm_req_" id "/start") by reflexivity.
    erewrite bind_ret by reflexivity. cbn beta iota.
    change (py_eq_str (PStr "approved") "pending_approval") with false.
    change (py_eq_str (PStr "approved") "banned") with false.
    rewrite !andb_false_r. cbn beta iota.
    erewrite bind_ret by (by apply image_to_process_none). cbn beta iota.
    erewrite bind_ret by exact Hmonth.
    assert (Hdel : delete_commands E u chat uid ("del_confirm_req_" +:+ id) w
              = (Ret tt, emit (send_message (PInt chat) ("Error: You are not authorized to delete receipt Ref: `" +:+ id +:+ "`.") None
                                 (Some "Markdown")) w)).
    { unfold delete_commands.
      rewrite (eqb_prefixed "del_confirm_req_" id "/deletereceipts") by reflexivity.
      rewrite Hstart, Hback, Hne.
      erewrite bind_ret by (by apply Hdetails). cbn beta iota.
      rewrite py_truthy_dict_insert. cbn [negb].
      assert (py_get (<["id" := PStr id]> orig) "telegramUserId" = py_get orig "telegramUserId")
        as -> by (unfold py_get; by rewrite lookup_insert_ne).
      rewrite Hadm, Hup. cbn [orb negb]. apply Hsend. }
    erewrite bind_ret by exact Hdel.
    assert (Hmenu : ∀ w0, menu_commands E u chat uid (Some ("del_confirm_req_" +:+ id))
                       ("del_confirm_req_" +:+ id) "" [] (s, e, ym) w0 = (Ret tt, w0)).
    { intros w0. unfold menu_commands.
      repeat match goal with
             | |- context [String.eqb ("del_confirm_req_" +:+ id) ?x] =>
                 rewrite (eqb_prefixed "del_confirm_req_" id x) by reflexivity
             end.
      unfold Py.startswith.
      rewrite (prefix_apart "view_receipt_" "del_confirm_req_" id) by reflexivity.
      rewrite !andb_false_r. cbn [orb andb].
      assert (String.eqb (default "" (Some ("del_confirm_req_" +:+ id))) "" = false) as ->
        by reflexivity.
      reflexivity. }
    erewrite bind_ret by apply Hmenu. reflexivity.
  - intros Hgroup.
    destruct (button_payload_reads_back "view_receipt_" id) as [Hstart Hback];
      [compute_done|done|].
    unfold handle_update.
    erewrite bind_ret
      by (apply ensure_existing_profile; [done|done|by eapply py_truthy_dict_lookup|by eexists]).
    rewrite Hparse by compute_done. rewrite Hstatus, Hadm.
    erewrite bind_ret by reflexivity. cbn beta iota.
    rewrite (eqb_prefixed "view_receipt_" id "/start") by reflexivity.
    erewrite bind_ret by reflexivity. cbn beta iota.
    change (py_eq_str (PStr "approved") "pending_approval") with false.
    change (py_eq_str (PStr "approved") "banned") with false.
    rewrite !andb_false_r. cbn beta iota.
    erewrite bind_ret by (by apply image_to_process_none). cbn beta iota.
    erewrite bind_ret by exact Hmonth.
    assert (Hdel : delete_commands E u chat uid ("view_receipt_" +:+ id) w = (Ret tt, w)).
    { unfold delete_commands.
      rewrite (eqb_prefixed "view_receipt_" id "/deletereceipts") by reflexivity.
      unfold Py.startswith.
      rewrite (prefix_apart "del_confirm_req_" "view_receipt_" id) by reflexivity.
      rewrite (prefix_apart "del_do_" "view_receipt_" id) by reflexivity.
      rewrite (prefix_apart "del_cancel_" "view_receipt_" id) by reflexivity.
      reflexivity. }
    erewrite bind_ret by exact Hdel.
    assert (Hmenu : menu_commands E u chat uid (Some ("view_receipt_" +:+ id))
                       ("view_receipt_" +:+ id) "" [] (s, e, ym) w
              = (Ret tt, emit (send_message (PInt chat) ("Error: You are not authorized to view receipt `" +:+ id +:+ "`.") None
                                 (Some "Markdown")) w)).
    { unfold menu_commands.
      repeat match goal with
             | |- context [String.eqb ("view_receipt_" +:+ id) ?x] =>
                 rewrite (eqb_prefixed "view_receipt_" id x) by reflexivity
             end.
      rewrite Hstart, Hback, Hne.
      rewrite !andb_false_r. cbn [orb andb].
      assert (String.eqb (default "" (Some ("view_receipt_" +:+ id))) "" = false) as ->
        by reflexivity.
      cbn [negb andb].
      erewrite bind_ret by (by apply Hdetails). cbn beta iota.
      rewrite py_truthy_dict_insert. cbn [negb].
      assert (Hauth : may_edit E uid (<["id" := PStr id]> orig) w = (Ret false, w)).
      { destruct (may_edit_reads E uid (<["id" := PStr id]> orig) w) as [b Hb].
        rewrite Hb. f_equal. f_equal.
        assert (result (may_edit E uid (<["id" := PStr id]> orig)) w = Ret false) as Hres.
        { apply may_edit_unauthorized; [done|..].
          - unfold py_get. by rewrite lookup_insert_ne.
          - intros (g & Hg & Hnone & Heq). apply Hgroup. exists g.
            unfold py_get in *. rewrite lookup_insert_ne in Hnone, Heq by done. done. }
        unfold result in Hres. rewrite Hb in Hres. by injection Hres. }
      erewrite bind_ret by exact Hauth. cbn [negb]. apply Hsend. }
    erewrite bind_ret by exact Hmenu. reflexivity.
Qed.

End Buttons.

(** ** Frames of the handlers a regular user reaches *)

Section ReadFrames.
Context (E : Env).
Context (R : World → World → Prop) `{!PreOrder R}.

Lemma keeps_py_len v : keeps R (py_len v).
Proof. unfold py_len. repeat keeps_step. Qed.

Lemma keeps_hashable k : keeps R (hashable k).
Proof. unfold hashable. repeat keeps_step. Qed.

Lemma keeps_sum_items items cats : keeps R (sum_items items cats).
Proof.
  revert cats. induction items as [|item rest IH]; intros cats; cbn [sum_items]; [keeps_step|].
  keeps_step; [apply keeps_item_get; apply _|].
  keeps_step; [apply keeps_item_get; apply _|].
  keeps_step; [|apply IH]. keeps_step; [apply keeps_hashable|apply IH].
Qed.

Lemma keeps_agg_step mode acc data : keeps R (agg_step mode acc data).
Proof.
  unfold agg_step. keeps_step; [keeps_step|].
  keeps_step.
  - keeps_step; [apply keeps_py_iter; apply _|].
    keeps_step; [apply keeps_sum_items|keeps_step].
  - keeps_step; [|keeps_step]. keeps_step; [apply keeps_hashable|keeps_step].
Qed.

Lemma keeps_agg_loop mode docs acc : keeps R (agg_loop mode docs acc).
Proof.
  revert acc. induction docs as [|doc rest IH]; intros acc; cbn [agg_loop]; [keeps_step|].
  keeps_step; [apply keeps_agg_step|apply IH].
Qed.

Lemma keeps_aggregate_spending u s e mode : keeps R (_aggregate_spending E u s e mode).
Proof.
  unfold _aggregate_spending.
  keeps_step; [apply keeps_get_query_target; apply _|].
  destruct a as [[query_field query_value] context_label].
  keeps_step; [keeps_step|].
  keeps_step; [apply keeps_agg_loop|].
  repeat keeps_step.
Qed.

Lemma keeps_month_range token : keeps R (month_range E token).
Proof. unfold month_range. repeat keeps_step. Qed.

Lemma keeps_get_spending_by_date_range_for_user u a b :
  keeps R (get_spending_by_date_range_for_user E u a b).
Proof.
  unfold get_spending_by_date_range_for_user. keeps_step; [keeps_step|].
  apply keeps_aggregate_spending.
Qed.

Lemma keeps_get_spending_by_category_for_user u a :
  keeps R (get_spending_by_category_for_user E u a).
Proof.
  unfold get_spending_by_category_for_user.
  keeps_step; [apply keeps_month_range|].
  destruct a0 as [[? ?]|]; [apply keeps_aggregate_spending|keeps_step].
Qed.

Lemma keeps_get_spending_by_store_for_user u a :
  keeps R (get_spending_by_store_for_user E u a).
Proof.
  unfold get_spending_by_store_for_user.
  keeps_step; [apply keeps_month_range|].
  destruct a0 as [[? ?]|]; [apply keeps_aggregate_spending|keeps_step].
Qed.

Lemma keeps_get_average_receipt_value_for_user u a :
  keeps R (get_average_receipt_value_for_user E u a).
Proof.
  unfold get_average_receipt_value_for_user.
  keeps_step; [apply keeps_month_range|].
  destruct a0 as [[? ?]|]; [apply keeps_aggregate_spending|keeps_step].
Qed.

Lemma keeps_get_recent_receipts_for_user u : keeps R (get_recent_receipts_for_user E u).
Proof.
  unfold get_recent_receipts_for_user. keeps_step; [keeps_step|].
  keeps_step; [apply keeps_get_query_target; apply _|].
  destruct a as [[? ?] ?]. repeat keeps_step.
Qed.

Lemma keeps_admin_list_users s : keeps R (admin_list_users E s).
Proof. unfold admin_list_users. repeat keeps_step. Qed.

Lemma keeps_button_text r : keeps R (button_text E r).
Proof.
  unfold button_text. keeps_step; [unfold slice20; repeat keeps_step|].
  keeps_step; [apply keeps_fmt_2f; apply _|keeps_step].
Qed.

Lemma keeps_view_buttons l : keeps R (view_buttons E l).
Proof.
  induction l as [|r l IH]; cbn [view_buttons]; [keeps_step|].
  keeps_step; [apply keeps_button_text|]. keeps_step; [exact IH|keeps_step].
Qed.

Lemma keeps_delete_buttons l : keeps R (delete_buttons E l).
Proof.
  induction l as [|r l IH]; cbn [delete_buttons]; [keeps_step|].
  keeps_step; [exact IH|].
  keeps_step; [apply keeps_button_text|]. keeps_step; [exact IH|keeps_step].
Qed.

Lemma keeps_format_receipt_list_for_display l c :
  keeps R (format_receipt_list_for_display E l c).
Proof.
  unfold format_receipt_list_for_display. keeps_step; [keeps_step|].
  keeps_step; [apply keeps_view_buttons|repeat keeps_step].
Qed.

Lemma keeps_format_receipt_list_for_delete l c :
  keeps R (format_receipt_list_for_delete E l c).
Proof.
  unfold format_receipt_list_for_delete. keeps_step; [keeps_step|].
  keeps_step; [apply keeps_delete_buttons|repeat keeps_step].
Qed.

Lemma keeps_get_receipt_details_for_view id : keeps R (get_receipt_details_for_view E id).
Proof.
  unfold get_receipt_details_for_view. keeps_step; [keeps_step|].
  keeps_step; [apply keeps_get_doc; apply _|keeps_step].
Qed.

Lemma keeps_may_edit u orig : keeps R (may_edit E u orig).
Proof.
  unfold may_edit. keeps_step; [apply keeps_get_user_group_id; apply _|keeps_step].
Qed.

Lemma keeps_get_current_month_start_end : keeps R get_current_month_start_end.
Proof.
  unfold get_current_month_start_end. keeps_step; [keeps_step|].
  destruct (today a) as [[y m] d]. keeps_step.
Qed.

Lemma keeps_undefined_name {A} n : keeps R (undefined_name n : M A).
Proof. unfold undefined_name. keeps_step. Qed.

Lemma keeps_build_user_group_menu_keyboard u : keeps R (build_user_group_menu_keyboard E u).
Proof.
  unfold build_user_group_menu_keyboard.
  keeps_step; [apply keeps_get_user_group_id; apply _|keeps_step].
Qed.

(** A step that reads the world it runs on, and a first step that is
    followed on one world only. *)
Lemma keeps_get_world_bind {B} (f : World → M B) :
  (∀ w, R w (after (f w) w)) → keeps R (get_world ≫= f).
Proof. intros H w. apply H. Qed.

Lemma keeps_bind_at {A B} (m : M A) (f : A → M B) w :
  R w (after m w) → (∀ a, keeps R (f a)) → R w (after (m ≫= f) w).
Proof.
  intros Hm Hf. unfold after, mbind, M_bind in *.
  destruct (m w) as [[a|e] w1]; simpl in *; [|done].
  etrans; [exact Hm|]. apply Hf.
Qed.

End ReadFrames.

Section Reports.
Context (E : Env).

(** The summaries, the list of recent receipts, the lookup of one
    receipt and the admin's list of users only read: whether they return
    or raise (a category summary raises on an item that is no dictionary),
    the world they leave is the world they started on. *)
Theorem reports_only_read (uid a b : string) (w : World) :
  after (get_spending_by_date_range_for_user E uid a b) w = w ∧
  after (get_spending_by_category_for_user E uid a) w = w ∧
  after (get_spending_by_store_for_user E uid a) w = w ∧
  after (get_average_receipt_value_for_user E uid a) w = w ∧
  after (get_recent_receipts_for_user E uid) w = w ∧
  after (get_receipt_details_for_view E a) w = w ∧
  after (admin_list_users E a) w = w.
Proof.
  split_and!; symmetry.
  - apply (keeps_get_spending_by_date_range_for_user E eq).
  - apply (keeps_get_spending_by_category_for_user E eq).
  - apply (keeps_get_spending_by_store_for_user E eq).
  - apply (keeps_get_average_receipt_value_for_user E eq).
  - apply (keeps_get_recent_receipts_for_user E eq).
  - apply (keeps_get_receipt_details_for_view E eq).
  - apply (keeps_admin_list_users E eq).
Qed.

End Reports.

(** The handlers that write, for a relation that no message, no write to
    the groups, no new receipt under a generated id and no detaching of
    the acting user from a group can break, and that the edit, the
    deletion and the profile check of the acting user keep. *)
Section RegularFrames.
Context (E : Env) (uid : string).
Context (R : World → World → Prop) `{!PreOrder R}.
Hypothesis R_emit : ∀ o w, R w (emit o w).
Hypothesis R_groups : ∀ f w, R w (with_db (set_groups f) w).
Hypothesis R_add : ∀ data w,
  R w (with_db (set_receipts (fs_set (clock w) (auto_id E (receipts (db w))) data)) w).
Hypothesis R_leave : ∀ w,
  R w (with_db (set_user_profiles (fs_update uid (left_group (clock w)))) w).
Hypothesis R_repair : ∀ w,
  R w (with_db (set_user_profiles (fs_update uid (delete "groupId"))) w).
Hypothesis R_edit : ∀ text, keeps R (handle_simple_edit_receipt_command E uid text).
Hypothesis R_delete : ∀ id, keeps R (delete_receipt_from_firestore E uid id).
Hypothesis R_ensure : ∀ chat, keeps R (ensure_user_profile_exists E uid chat).

Lemma keeps_write_groups f : keeps R (write_groups f).
Proof. intros w. apply R_groups. Qed.

Lemma keeps_send_tg_message chat text rm pm : keeps R (send_tg_message E chat text rm pm).
Proof.
  intros w. unfold after. rewrite send_tg_message_run.
  destruct (_ || _); [reflexivity|apply R_emit].
Qed.

Lemma keeps_user_leave_group : keeps R (user_leave_group E uid).
Proof.
  unfold user_leave_group.
  keeps_step; [apply keeps_is_user_approved; apply _|].
  keeps_step; [keeps_step|]. keeps_step; [keeps_step|].
  keeps_step; [apply keeps_get_user_group_id; apply _|].
  keeps_step; [keeps_step|].
  keeps_step; [apply keeps_document; apply _|].
  keeps_step; [apply keeps_get_doc; apply _|].
  keeps_step; [apply keeps_get_group_name; apply _|].
  keeps_step; [intros w; apply R_leave|].
  keeps_step; [|keeps_step].
  keeps_step; [apply keeps_write_groups|].
  keeps_step; [apply keeps_get_doc; apply _|].
  keeps_step; [|keeps_step].
  keeps_step; [|keeps_step].
  keeps_step; [apply keeps_write_groups|keeps_step].
Qed.

Lemma keeps_get_my_group_info : keeps R (get_my_group_info E uid).
Proof.
  unfold get_my_group_info. keeps_step; [keeps_step|].
  keeps_step; [apply keeps_get_user_group_id; apply _|].
  keeps_step; [keeps_step|].
  keeps_step; [apply keeps_document; apply _|].
  keeps_step; [apply keeps_get_doc; apply _|].
  keeps_step.
  - keeps_step; [apply keeps_py_len; apply _|].
    keeps_step; [apply keeps_py_iter; apply _|keeps_step].
  - keeps_step; [|keeps_step]. intros w. apply R_repair.
Qed.

Lemma keeps_process_image chat file mime : keeps R (process_image E chat uid file mime).
Proof.
  unfold process_image.
  keeps_bind_as image_bytes; [destruct (download_file E file); keeps_step|].
  keeps_bind_as receipt_data_from_llm; [destruct (call_llm_for_receipt E _ _); keeps_step|].
  keeps_bind_as draft; [destruct receipt_data_from_llm; keeps_step|].
  keeps_bind_as w0; [keeps_step|].
  keeps_bind_as current_group_id; [apply keeps_get_user_group_id; apply _|].
  apply keeps_get_world_bind. intros w.
  apply keeps_bind_at; [apply _|apply R_add|intros _].
  keeps_step; [apply keeps_format_single_receipt_for_view; apply _|].
  keeps_step; [|apply keeps_send_tg_message].
  keeps_step; [apply keeps_fmt_2f; apply _|apply keeps_send_tg_message].
Qed.

Lemma keeps_image_pipeline chat file mime : keeps R (image_pipeline E chat uid file mime).
Proof.
  unfold image_pipeline. keeps_step; [apply keeps_send_tg_message|].
  keeps_step; [apply keeps_process_image|destruct e; apply keeps_send_tg_message].
Qed.

Lemma keeps_image_to_process u chat : keeps R (image_to_process E u chat).
Proof.
  unfold image_to_process. keeps_step; [|keeps_step].
  keeps_step; [keeps_step|].
  keeps_step; [|keeps_step].
  keeps_step; [|keeps_step; [apply keeps_send_tg_message|keeps_step]].
  keeps_step; [keeps_step; [apply keeps_send_tg_message|keeps_step]|].
  keeps_step; [keeps_step|].
  keeps_step; [apply keeps_send_tg_message|keeps_step].
Qed.

Lemma keeps_delete_commands u chat c : keeps R (delete_commands E u chat uid c).
Proof.
  unfold delete_commands.
  keeps_step.
  { keeps_step; [apply keeps_is_user_approved; apply _|].
    keeps_step; [apply keeps_send_tg_message|].
    keeps_step; [apply keeps_get_recent_receipts_for_user; apply _|].
    keeps_step; [apply keeps_format_receipt_list_for_delete; apply _
                |apply keeps_send_tg_message]. }
  keeps_step.
  { keeps_step; [apply keeps_send_tg_message|].
    keeps_step; [apply keeps_get_receipt_details_for_view; apply _|].
    keeps_step; [|apply keeps_send_tg_message].
    keeps_step; [apply keeps_send_tg_message|].
    keeps_step; [apply keeps_send_tg_message|].
    keeps_step; [apply keeps_fmt_2f; apply _|apply keeps_send_tg_message]. }
  keeps_step.
  { keeps_step; [apply keeps_send_tg_message|].
    keeps_step; [apply R_delete|].
    keeps_step; [apply keeps_undefined_name; apply _|apply keeps_send_tg_message]. }
  keeps_step; [|keeps_step].
  keeps_step; [apply keeps_undefined_name; apply _|apply keeps_send_tg_message].
Qed.

Lemma keeps_menu_commands u chat text c full args month :
  keeps R (menu_commands E u chat uid text c full args month).
Proof.
  unfold menu_commands. destruct month as [[s e] ym].
  keeps_step; [apply keeps_send_tg_message|].
  keeps_step.
  { keeps_step; [apply keeps_build_user_group_menu_keyboard; apply _
                |apply keeps_send_tg_message]. }
  keeps_step.
  { keeps_step; [apply keeps_get_my_group_info|apply keeps_send_tg_message]. }
  keeps_step.
  { keeps_step; [apply keeps_user_leave_group|apply keeps_send_tg_message]. }
  keeps_step.
  { keeps_step; [apply keeps_get_spending_by_date_range_for_user; apply _
                |apply keeps_send_tg_message]. }
  keeps_step.
  { keeps_step; [apply keeps_get_spending_by_category_for_user; apply _
                |apply keeps_send_tg_message]. }
  keeps_step.
  { keeps_step; [apply keeps_get_spending_by_store_for_user; apply _
                |apply keeps_send_tg_message]. }
  keeps_step.
  { keeps_step; [apply keeps_get_average_receipt_value_for_user; apply _
                |apply keeps_send_tg_message]. }
  keeps_step; [apply keeps_send_tg_message|].
  keeps_step.
  { destruct args as [|a [|b [|? ?]]]; try apply keeps_send_tg_message.
    keeps_step; [apply keeps_get_spending_by_date_range_for_user; apply _
                |apply keeps_send_tg_message]. }
  keeps_step; [apply keeps_send_tg_message|].
  keeps_step; [apply keeps_send_tg_message|].
  keeps_step.
  { keeps_step; [apply keeps_send_tg_message|].
    keeps_step; [apply R_edit|apply keeps_send_tg_message]. }
  keeps_step; [apply keeps_send_tg_message|].
  keeps_step; [keeps_step|].
  keeps_step; [keeps_step|].
  keeps_step.
  { keeps_step; [apply keeps_get_recent_receipts_for_user; apply _|].
    keeps_step; [apply keeps_format_receipt_list_for_display; apply _
                |apply keeps_send_tg_message]. }
  keeps_step.
  { keeps_step; [apply keeps_is_user_approved; apply _|].
    keeps_step; [apply keeps_send_tg_message|].
    keeps_step; [apply keeps_get_recent_receipts_for_user; apply _|].
    keeps_step; [apply keeps_format_receipt_list_for_delete; apply _
                |apply keeps_send_tg_message]. }
  keeps_step; [|keeps_step].
  keeps_step; [apply keeps_send_tg_message|].
  keeps_step; [apply keeps_get_receipt_details_for_view; apply _|].
  keeps_step; [|apply keeps_send_tg_message].
  keeps_step; [apply keeps_send_tg_message|].
  keeps_step; [apply keeps_may_edit; apply _|].
  keeps_step; [apply keeps_send_tg_message|].
  keeps_step; [apply keeps_format_single_receipt_for_view; apply _|apply keeps_send_tg_message].
Qed.

(** The webhook core, run for a user who is not the admin. *)
Lemma keeps_handle_update u chat text :
  is_user_admin E uid = false → keeps R (handle_update E u chat uid text).
Proof.
  intros Hadm. unfold handle_update. rewrite Hadm.
  keeps_step; [apply R_ensure|].
  destruct (parse_command u text) as [[c full] args].
  keeps_step; [keeps_step|].
  keeps_step; [unfold return_OK; keeps_step|].
  keeps_step.
  { keeps_step; [|keeps_step]. keeps_step; [keeps_step|].
    keeps_step; [|keeps_step]. keeps_step; [apply keeps_send_tg_message|keeps_step]. }
  keeps_step; [|unfold return_OK; keeps_step].
  keeps_step.
  { keeps_step; [|unfold return_OK; keeps_step].
    keeps_step; [apply keeps_send_tg_message|keeps_step]. }
  keeps_step.
  { keeps_step; [|unfold return_OK; keeps_step].
    keeps_step; [apply keeps_send_tg_message|keeps_step]. }
  keeps_step; [apply keeps_image_to_process|].
  keeps_step.
  - destruct p as [file mime].
    keeps_step; [apply keeps_image_pipeline|unfold return_OK; keeps_step].
  - keeps_step; [apply keeps_get_current_month_start_end; apply _|].
    keeps_step; [apply keeps_delete_commands|].
    keeps_step; [apply keeps_menu_commands|unfold return_OK; keeps_step].
Qed.

End RegularFrames.

(** ** A regular user's update and the profiles *)

#[export] Instance own_profile_only_preorder uid : PreOrder (own_profile_only uid).
Proof.
  split.
  - intros w. split; [done|by left].
  - intros w1 w2 w3 [Ho1 Hs1] [Ho2 Hs2]. split.
    + intros k Hk. by rewrite Ho2, Ho1.
    + destruct Hs2 as [Hs2|[Hn2 Hp2]].
      * rewrite Hs2. exact Hs1.
      * destruct Hs1 as [Hs1|[Hn1 Hp1]].
        -- right. by rewrite <- Hs1.
        -- by rewrite Hp1 in Hn2.
Qed.

Section OwnProfile.
Context (E : Env) (uid : string).

Lemma own_profile_only_same_profiles w w' :
  user_profiles (db w') = user_profiles (db w) → own_profile_only uid w w'.
Proof. intros H. unfold own_profile_only, status_of. rewrite H. split; [done|by left]. Qed.

Lemma own_profile_only_update (f : dict → dict) w :
  (∀ d, f d !! "status" = d !! "status") →
  own_profile_only uid w (with_db (set_user_profiles (fs_update uid f)) w).
Proof.
  intros Hf. split.
  - intros k Hk. cbn. unfold fs_update. by rewrite lookup_alter_ne.
  - left. unfold status_of. cbn. unfold fs_update. rewrite lookup_alter_eq.
    destruct (user_profiles (db w) !! uid) as [d|]; [apply Hf|done].
Qed.

Lemma own_profile_only_edit text :
  keeps (own_profile_only uid) (handle_simple_edit_receipt_command E uid text).
Proof.
  unfold handle_simple_edit_receipt_command. keeps_step; [keeps_step|].
  keeps_step; [apply keeps_is_user_approved; apply _|].
  keeps_step; [keeps_step|].
  destruct (parse_edited_receipt_text E text) as [[[doc_id hdr] lines] errs].
  destruct doc_id as [[|c r]|]; [keeps_step| |keeps_step].
  keeps_step; [keeps_step|].
  keeps_step; [apply keeps_get_doc; apply _|].
  keeps_step; [|keeps_step].
  keeps_step; [apply keeps_may_edit; apply _|].
  keeps_step; [keeps_step|].
  keeps_step; [keeps_step|].
  destruct (parse_items E 0 lines) as [items ierrs].
  keeps_step; [|keeps_step].
  keeps_step; [|keeps_step]. intros w. by apply own_profile_only_same_profiles.
Qed.

Lemma own_profile_only_delete id :
  keeps (own_profile_only uid) (delete_receipt_from_firestore E uid id).
Proof.
  unfold delete_receipt_from_firestore. keeps_step; [keeps_step|].
  keeps_step; [apply keeps_get_doc; apply _|].
  keeps_step; [|keeps_step]. keeps_step; [keeps_step|].
  keeps_step; [|keeps_step]. intros w. by apply own_profile_only_same_profiles.
Qed.

Lemma own_profile_only_ensure chat :
  is_user_admin E uid = false →
  keeps (own_profile_only uid) (ensure_user_profile_exists E uid chat).
Proof.
  intros Hadm w. unfold after, ensure_user_profile_exists.
  destruct (db_initialized E) eqn:Hdb; cbn [negb]; [|reflexivity].
  erewrite bind_ret by apply get_user_profile_run. rewrite Hdb, Hadm.
  destruct (profile_truthy (user_profiles (db w) !! uid)) eqn:Ht; cbn [negb].
  - destruct (user_profiles (db w) !! uid) as [p|] eqn:Hp; [|done].
    cbn [default from_option id]. unfold id.
    destruct (p !! "status") eqn:Hs; [reflexivity|].
    erewrite bind_ret by reflexivity. cbn [snd]. split.
    + intros k Hk. cbn. unfold fs_update. by rewrite lookup_alter_ne.
    + right. unfold status_of. cbn. unfold fs_update. rewrite lookup_alter_eq, Hp. cbn.
      split; [exact Hs|]. by rewrite lookup_union_l'.
  - assert (Hnone : status_of w uid = None).
    { unfold status_of. destruct (user_profiles (db w) !! uid) as [p|]; [|done].
      cbn in *. apply negb_false_iff, bool_decide_eq_true_1 in Ht.
      apply map_size_empty_iff in Ht. by subst. }
    erewrite bind_ret by reflexivity.
    match goal with
    | |- own_profile_only _ _ (snd ((?m ≫= _) ?w1)) =>
        assert (∃ w2, m w1 = (Ret tt, w2) ∧
                      user_profiles (db w2) = user_profiles (db w1)) as (w2 & Hm & Hw2)
    end.
    { destruct (_ && _); [|by eexists]. eexists. split; [reflexivity|done]. }
    erewrite bind_ret by exact Hm. cbn [snd mret M_ret]. split.
    + intros k Hk. rewrite Hw2. cbn. unfold fs_set. by rewrite lookup_insert_ne.
    + right. split; [exact Hnone|]. unfold status_of. rewrite Hw2. cbn. unfold fs_set.
      rewrite lookup_insert_eq. reflexivity.
Qed.

(** Whatever a user who is not the admin sends (a command, a button
    press, a photo, a document), and whether the webhook core returns or
    raises, no other user's profile is changed, created or removed, and
    the sender's own status is what it was, or was missing and is now
    [pending_approval]. *)
Theorem regular_user_changes_own_profile_only (u : Update) (chat : Z)
    (text : option string) (w : World) :
  is_user_admin E uid = false →
  own_profile_only uid w (after (handle_update E u chat uid text) w).
Proof.
  intros Hadm. revert w.
  apply (keeps_handle_update E uid (own_profile_only uid)); try done.
  - intros o w. by apply own_profile_only_same_profiles.
  - intros f w. by apply own_profile_only_same_profiles.
  - intros data w. by apply own_profile_only_same_profiles.
  - intros w. apply own_profile_only_update. intros d. unfold left_group.
    rewrite lookup_insert_ne by done. by rewrite lookup_delete_ne.
  - intros w. apply own_profile_only_update. intros d. by rewrite lookup_delete_ne.
  - apply own_profile_only_edit.
  - apply own_profile_only_delete.
  - intros chat0. by apply own_profile_only_ensure.
Qed.

End OwnProfile.

(** ** A regular user's update and the receipts of others *)

Lemma in_receipt_group_iff E w uid r :
  in_receipt_group E w uid r ↔
  is_None (py_get r "groupId") = false ∧ py_eq (group_of E w uid) (py_get r "groupId") = true.
Proof.
  unfold in_receipt_group, result. rewrite get_user_group_id_run. cbn [fst]. split.
  - intros (g & Hg & Hn & Heq). by injection Hg as <-.
  - intros [Hn Heq]. eexists. done.
Qed.

Lemma foreign_receipt_stays E uid w w' r :
  group_of E w' uid = group_of E w uid ∨ group_of E w' uid = PNone →
  foreign_receipt E w uid r → foreign_receipt E w' uid r.
Proof.
  intros Hg [Hup Hgroup]. split; [done|].
  rewrite in_receipt_group_iff in *. intros [Hn Heq]. destruct Hg as [Hg|Hg]; rewrite Hg in Heq.
  - by apply Hgroup.
  - by destruct (py_get r "groupId").
Qed.

#[export] Instance foreign_receipts_kept_preorder E uid : PreOrder (foreign_receipts_kept E uid).
Proof.
  split.
  - intros w. split; [by left|done].
  - intros w1 w2 w3 [Hg1 Hr1] [Hg2 Hr2]. split.
    + destruct Hg2 as [-> | ->]; [exact Hg1|by right].
    + intros id r Hr Hf. apply Hr2; [by apply Hr1|by eapply foreign_receipt_stays].
Qed.

Section ForeignReceipts.
Context (E : Env) (uid : string).
Hypothesis not_admin : is_user_admin E uid = false.

Lemma foreign_receipts_kept_same w w' :
  user_profiles (db w') = user_profiles (db w) → receipts (db w') = receipts (db w) →
  foreign_receipts_kept E uid w w'.
Proof.
  intros Hp Hr. unfold foreign_receipts_kept, group_of. rewrite Hp, Hr. split; [by left|done].
Qed.

Lemma foreign_receipts_kept_add data w :
  (∀ c, c !! auto_id E c = None) →
  foreign_receipts_kept E uid w
    (with_db (set_receipts (fs_set (clock w) (auto_id E (receipts (db w))) data)) w).
Proof.
  intros Hfresh. split; [by left|]. intros id r Hr _. cbn. unfold fs_set.
  rewrite lookup_insert_ne; [done|]. intros <-. by rewrite Hfresh in Hr.
Qed.

Lemma foreign_receipts_kept_detach (f : dict → dict) w :
  (∀ d, f d !! "groupId" = None) →
  foreign_receipts_kept E uid w (with_db (set_user_profiles (fs_update uid f)) w).
Proof.
  intros Hf. split; [|done]. unfold group_of.
  cbn [db with_db set_user_profiles user_profiles]. unfold fs_update.
  destruct (db_initialized E); [|by left]. rewrite lookup_alter_eq.
  destruct (user_profiles (db w) !! uid) as [p|]; [|by left].
  right. cbn [fmap option_fmap option_map]. unfold py_get. rewrite Hf.
  by match goal with |- (if ?b then _ else _) = _ => destruct b end.
Qed.

Lemma foreign_receipts_kept_ensure chat :
  keeps (foreign_receipts_kept E uid) (ensure_user_profile_exists E uid chat).
Proof.
  intros w. unfold after, ensure_user_profile_exists.
  destruct (db_initialized E) eqn:Hdb; cbn [negb]; [|reflexivity].
  erewrite bind_ret by apply get_user_profile_run. rewrite Hdb, not_admin.
  destruct (profile_truthy (user_profiles (db w) !! uid)) eqn:Ht; cbn [negb].
  - destruct (user_profiles (db w) !! uid) as [p|] eqn:Hp; [|done].
    cbn [default from_option id]. unfold id.
    destruct (p !! "status") eqn:Hs; [reflexivity|].
    erewrite bind_ret by reflexivity. cbn [snd mret M_ret]. split; [|done].
    left. unfold group_of. cbn [db with_db set_user_profiles user_profiles].
    rewrite Hdb. unfold fs_update.
    rewrite lookup_alter_eq, Hp. cbn [fmap option_fmap option_map].
    cbn [profile_truthy] in Ht. rewrite Ht.
    assert (py_truthy (PDict (resolve (clock w)
              {[ "status" := PStr "pending_approval"; "updatedAt" := SERVER_TIMESTAMP ]} ∪ p))
            = true) as ->.
    { eapply (py_truthy_dict_lookup _ "status"). by rewrite lookup_union_l'. }
    unfold py_get. by rewrite lookup_union_r.
  - erewrite bind_ret by reflexivity.
    match goal with
    | |- foreign_receipts_kept _ _ _ (snd ((?m ≫= _) ?w1)) =>
        assert (∃ w2, m w1 = (Ret tt, w2) ∧
                      user_profiles (db w2) = user_profiles (db w1) ∧
                      receipts (db w2) = receipts (db w1)) as (w2 & Hm & Hw2 & Hr2)
    end.
    { destruct (_ && _); [|by eexists]. eexists. split; [reflexivity|done]. }
    erewrite bind_ret by exact Hm. cbn [snd mret M_ret]. split.
    + right. unfold group_of. rewrite Hw2, Hdb.
      cbn [db with_db set_user_profiles user_profiles]. unfold fs_set.
      rewrite lookup_insert_eq.
      by match goal with |- (if ?b then _ else _) = _ => destruct b end.
    + intros id r Hr _. by rewrite Hr2.
Qed.

Lemma foreign_receipts_kept_edit text :
  keeps (foreign_receipts_kept E uid) (handle_simple_edit_receipt_command E uid text).
Proof.
  intros w. unfold after, handle_simple_edit_receipt_command.
  destruct (parse_edited_receipt_text E text) as [[[doc_id hdr] lines] errs].
  destruct (db_initialized E); cbn [negb]; [|reflexivity].
  destruct (is_user_approved_reads E uid w) as [approved Happ].
  erewrite bind_ret by exact Happ.
  destruct approved; cbn [negb]; [|reflexivity].
  destruct doc_id as [[|c r]|]; [reflexivity| |reflexivity].
  destruct (negb (bool_decide (errs = [])) && bool_decide (lines = [])); [reflexivity|].
  unfold get_doc at 1. erewrite bind_ret by reflexivity.
  destruct (receipts (db w) !! String c r) as [orig|] eqn:Hr; [|reflexivity].
  destruct (may_edit_reads E uid orig w) as [ok Hok].
  erewrite bind_ret by exact Hok.
  destruct ok; cbn [negb]; [|reflexivity].
  erewrite bind_ret by reflexivity.
  destruct (parse_items E 0 lines) as [items ierrs].
  destruct (errs ++ ierrs) as [|e es]; [|reflexivity].
  erewrite bind_ret by reflexivity. cbn [snd mret M_ret].
  split; [by left|]. intros id r0 Hr0 [Hup Hgroup]. cbn. unfold fs_set.
  rewrite lookup_insert_ne; [done|]. intros <-. rewrite Hr in Hr0. injection Hr0 as <-.
  pose proof (may_edit_unauthorized E uid orig w not_admin Hup Hgroup) as Hno.
  unfold result in Hno. by rewrite Hok in Hno.
Qed.

Lemma foreign_receipts_kept_delete id :
  keeps (foreign_receipts_kept E uid) (delete_receipt_from_firestore E uid id).
Proof.
  intros w. unfold after, delete_receipt_from_firestore.
  destruct (db_initialized E); cbn [negb]; [|reflexivity].
  unfold get_doc. erewrite bind_ret by reflexivity.
  destruct (receipts (db w) !! id) as [orig|] eqn:Hr; [|reflexivity].
  rewrite not_admin. cbn [orb].
  destruct (py_eq_str (py_get orig "telegramUserId") uid) eqn:Hup; cbn [negb]; [|reflexivity].
  erewrite bind_ret by reflexivity. cbn [snd mret M_ret].
  split; [by left|]. intros id' r0 Hr0 [Hup0 _]. cbn. unfold fs_delete.
  rewrite lookup_delete_ne; [done|]. intros <-. rewrite Hr in Hr0. injection Hr0 as <-.
  by rewrite Hup in Hup0.
Qed.

(** A receipt that a user who is not the admin neither uploaded nor
    shares through their group survives every update that user sends (a
    command, a button press, a photo, a document), unchanged and under
    the same id, whether the webhook core returns or raises; the id
    generator is assumed to return ids that are not in use. *)
Theorem regular_user_leaves_foreign_receipts (u : Update) (chat : Z)
    (text : option string) (w : World) (id : string) (r : dict) :
  (∀ c, c !! auto_id E c = None) →
  receipts (db w) !! id = Some r →
  py_eq_str (py_get r "telegramUserId") uid = false →
  ¬ in_receipt_group E w uid r →
  receipts (db (after (handle_update E u chat uid text) w)) !! id = Some r.
Proof.
  intros Hfresh Hr Hup Hgroup.
  assert (Hk : keeps (foreign_receipts_kept E uid) (handle_update E u chat uid text)).
  { apply (keeps_handle_update E uid (foreign_receipts_kept E uid)); try done.
    - intros o w0. by apply foreign_receipts_kept_same.
    - intros f w0. by apply foreign_receipts_kept_same.
    - intros data w0. by apply foreign_receipts_kept_add.
    - intros w0. apply foreign_receipts_kept_detach. intros d. unfold left_group.
      rewrite lookup_insert_ne by done. by rewrite lookup_delete_eq.
    - intros w0. apply foreign_receipts_kept_detach. intros d. by rewrite lookup_delete_eq.
    - apply foreign_receipts_kept_edit.
    - apply foreign_receipts_kept_delete.
    - apply foreign_receipts_kept_ensure. }
  destruct (Hk w) as [_ Hkept]. by apply Hkept.
Qed.

End ForeignReceipts.

(** ** Instances on the sample deployment *)


Lemma unapproved_user_is_stopped_witness :
  ∃ out,
    handle_update demo_env (photo_message 8) 55 "8" None demo_world_pending
      = (Ret OK, mkWorld (db demo_world_pending) (outbox demo_world_pending ++ out)
                         (clock demo_world_pending) (today demo_world_pending)) ∧
    (out = [] ∨
     out = [send_message (PInt 55)
              (if String.eqb "pending_approval" "banned"
               then "Your account access has been restricted."
               else "Your account is pending approval. Your User ID is `" +:+ "8"
                    +:+ "`. Please wait or contact the administrator.")
              None
              (if String.eqb "pending_approval" "banned" then None else Some "Markdown")]).
Proof.
  apply (unapproved_user_is_stopped demo_env (photo_message 8) 55 "8" None demo_world_pending
           {[ "telegramUserId" := PStr "8"; "groupId" := PNone;
              "status" := PStr "pending_approval" ]} "pending_approval");
    [reflexivity|reflexivity|reflexivity|reflexivity|by left].
Defined.

Example pending_user_photo_is_not_processed :
  telegram_webhook demo_env (photo_update 8) demo_world_pending
    = (Ret OK, demo_world_pending) ∧
  outbox (after (telegram_webhook demo_env (text_update 8 "/listreceipts")) demo_world_pending)
    = [send_message (PInt 55)
         "Your account is pending approval. Your User ID is `8`. Please wait or contact the administrator."
         None (Some "Markdown")].
Proof. split; vm_compute; reflexivity. Qed.

Lemma unknown_command_is_ignored_witness :
  handle_update demo_env (text_message 7 "/approveuser 9") 55 "7" (Some "/approveuser 9")
    demo_world = (Ret OK, demo_world).
Proof.
  apply (unknown_command_is_ignored demo_env (text_message 7 "/approveuser 9") 55 "7"
           (Some "/approveuser 9") demo_world (approved_profile "7")
           "/approveuser" "9" ["9"]);
    [reflexivity|reflexivity|reflexivity| |reflexivity|reflexivity|by left].
  intros m [= <-]. by split.
Defined.

Example admin_commands_and_menu_are_unknown_to_users :
  forallb unknown_command ("/menu" :: "/help" :: admin_command_names) = true.
Proof. vm_compute. reflexivity. Qed.

Lemma image_pipeline_always_answers_witness :
  ∃ reply w',
    image_pipeline offline_env 55 "7" "f2" (Some "image/jpeg") demo_world = (Ret tt, w') ∧
    outbox w' = outbox demo_world ++
      [send_message (PInt 55) "Got your image! Analyzing with Gemini Vision..." None None;
       reply] ∧
    db w' = db demo_world ∧
    reply = send_message (PInt 55)
              "Receipt Processing Error: LLM API request timed out. Please try again later."
              None None.
Proof.
  destruct (image_pipeline_always_answers offline_env 55 "7" "f2" (Some "image/jpeg")
              demo_world) as (reply & w' & Hrun & Hout & Hfail); [reflexivity|lia|].
  exists reply, w'. split; [exact Hrun|]. split; [exact Hout|].
  apply (Hfail (ValueError "LLM API request timed out. Please try again later.")).
  right. exists "jpeg bytes". split; reflexivity.
Defined.

Lemma admin_set_user_status_effect_witness :
  ∃ w',
    admin_set_user_status demo_env "9" "banned" demo_world
      = (Ret ("User `" +:+ "9" +:+ "` status set to '" +:+ "banned" +:+ "'."), w') ∧
    user_profiles (db w')
      = <["9" := <["statusUpdatedAt" := PTimestamp (clock demo_world)]>
                   (<["status" := PStr "banned"]> (approved_profile "9"))]>
          (user_profiles (db demo_world)) ∧
    groups (db w') = groups (db demo_world) ∧
    receipts (db w') = receipts (db demo_world) ∧
    result (is_user_approved demo_env "9") w'
      = Ret (is_user_admin demo_env "9" || String.eqb "banned" "approved").
Proof.
  apply (admin_set_user_status_effect demo_env "9" "banned" demo_world (approved_profile "9"));
    [reflexivity|compute_done|reflexivity].
Defined.

Lemma user_creates_own_group_witness :
  ∃ w',
    create_group_in_firestore demo_env "7" "Family" [] demo_world
      = (Ret (Some (auto_id demo_env (groups (db demo_world))),
              "Group '" +:+ "Family" +:+ "' created with ID: `"
              +:+ auto_id demo_env (groups (db demo_world))
              +:+ "`." +:+ nl +:+ "You have been added as the first member."), w') ∧
    groups (db w')
      = <[auto_id demo_env (groups (db demo_world)) :=
            {[ "groupName" := PStr (Py.strip "Family"); "ownerId" := PStr "7";
               "createdAt" := PTimestamp (clock demo_world);
               "memberUserIds" := PList [PStr "7"] ]}]>
          (groups (db demo_world)) ∧
    user_profiles (db w')
      = <["7" := {[ "groupId" := PStr (auto_id demo_env (groups (db demo_world)));
                    "groupJoinedAt" := PTimestamp (clock demo_world) ]}
                 ∪ approved_profile "7"]> (user_profiles (db demo_world)) ∧
    receipts (db w') = receipts (db demo_world) ∧
    outbox w' = outbox demo_world ∧
    result (get_user_group_id demo_env "7") w'
      = Ret (PStr (auto_id demo_env (groups (db demo_world)))) ∧
    (∀ name' ids',
       ∃ msg, create_group_in_firestore demo_env "7" name' ids' w' = (Ret (None, msg), w')).
Proof.
  apply (user_creates_own_group demo_env "7" "Family" [] demo_world (approved_profile "7"));
    [reflexivity|reflexivity|reflexivity|reflexivity|reflexivity|discriminate|discriminate].
Defined.

Lemma user_leaves_group_witness :
  ∃ msg w',
    user_leave_group demo_env "7" demo_world_grouped = (Ret msg, w') ∧
    user_profiles (db w')
      = <["7" := <["groupLeftAt" := PTimestamp (clock demo_world_grouped)]>
                   (delete "groupId" (<["groupId" := PStr "g1"]> (approved_profile "7")))]>
          (user_profiles (db demo_world_grouped)) ∧
    receipts (db w') = receipts (db demo_world_grouped) ∧
    outbox w' = outbox demo_world_grouped ∧
    (∀ gd, groups (db w') !! "g1" = Some gd →
           ∃ l, gd !! "memberUserIds" = Some (PList l) ∧ (PStr "7" ∉ l) ∧ l ≠ []) ∧
    (∀ g', g' ≠ "g1" → (groups (db w') !! g') = (groups (db demo_world_grouped) !! g')) ∧
    user_leave_group demo_env "7" w' = (Ret "You are not currently in any group.", w').
Proof.
  apply (user_leaves_group demo_env "7" "g1" demo_world_grouped
           (<["groupId" := PStr "g1"]> (approved_profile "7")));
    [reflexivity|reflexivity|reflexivity|reflexivity|reflexivity|discriminate].
Defined.

Example last_member_leaving_deletes_the_group :
  result (user_leave_group demo_env "7") demo_world_grouped = Ret "You have left 'Family'." ∧
  (groups (db (after (user_leave_group demo_env "7") demo_world_grouped)) !! "g1"
     ≫= (.!! "memberUserIds")) = Some (PList [PStr "9"]) ∧
  result (user_leave_group demo_env "9")
         (after (user_leave_group demo_env "7") demo_world_grouped)
    = Ret "You have left 'Family'. The group is now empty and has been deleted." ∧
  groups (db (after (user_leave_group demo_env "9")
                    (after (user_leave_group demo_env "7") demo_world_grouped))) = ∅.
Proof. split_and!; vm_compute; reflexivity. Qed.

Lemma group_info_repairs_dangling_group_witness :
  ∃ w',
    get_my_group_info demo_env "7" demo_world_dangling
      = (Ret "Error: Your group data was inconsistent. You've been removed from the non-existent group.",
         w') ∧
    user_profiles (db w')
      = <["7" := delete "groupId" (<["groupId" := PStr "g1"]> (approved_profile "7"))]>
          (user_profiles (db demo_world_dangling)) ∧
    groups (db w') = groups (db demo_world_dangling) ∧
    receipts (db w') = receipts (db demo_world_dangling) ∧
    get_my_group_info demo_env "7" w'
      = (Ret "You are not in a group. Admin can add you or you can ask admin to create one for you.",
         w').
Proof.
  apply (group_info_repairs_dangling_group demo_env "7" "g1" demo_world_dangling
           (<["groupId" := PStr "g1"]> (approved_profile "7")));
    [reflexivity|reflexivity|reflexivity|discriminate|reflexivity].
Defined.

Lemma admin_delete_group_detaches_members_witness :
  ∃ w',
    admin_delete_group demo_env "g1" demo_world_grouped
      = (Ret ("Group '" +:+ "Family" +:+ "' (ID: `"
              +:+ "g1" +:+ "`) and its members' associations have been deleted."), w') ∧
    groups (db w') = delete "g1" (groups (db demo_world_grouped)) ∧
    receipts (db w') = receipts (db demo_world_grouped) ∧
    outbox w' = outbox demo_world_grouped ∧
    ∀ uid,
      user_profiles (db w') !! uid =
      (λ p, if bool_decide (uid ∈ ["7"; "9"]) && py_eq_str (py_get p "groupId") "g1"
            then left_group (clock demo_world_grouped) p else p)
        <$> user_profiles (db demo_world_grouped) !! uid.
Proof.
  exact (admin_delete_group_detaches_members demo_env "g1" demo_world_grouped
           {[ "groupName" := PStr "Family"; "ownerId" := PStr "1";
              "memberUserIds" := PList [PStr "7"; PStr "9"] ]} ["7"; "9"]
           eq_refl eq_refl eq_refl).
Defined.



Lemma new_profile_awaits_approval_witness :
  ∃ w',
    ensure_user_profile_exists demo_env "8" (PInt 55) demo_world
      = (Ret {[ "telegramUserId" := PStr "8"; "groupId" := PNone;
                "status" := PStr (if is_user_admin demo_env "8" then "approved"
                                  else "pending_approval");
                "requestedAt" := SERVER_TIMESTAMP; "createdAt" := SERVER_TIMESTAMP ]}, w') ∧
    user_profiles (db w')
      = <["8" := {[ "telegramUserId" := PStr "8"; "groupId" := PNone;
                    "status" := PStr (if is_user_admin demo_env "8" then "approved"
                                      else "pending_approval");
                    "requestedAt" := PTimestamp (clock demo_world);
                    "createdAt" := PTimestamp (clock demo_world) ]}]>
          (user_profiles (db demo_world)) ∧
    groups (db w') = groups (db demo_world) ∧
    receipts (db w') = receipts (db demo_world) ∧
    outbox w' = outbox demo_world ++
      (if negb (is_user_admin demo_env "8") && py_truthy (PInt 55) && bot_initialized demo_env
       then [send_message (PInt 55) (welcome_text "8") None (Some "Markdown")] else []) ∧
    result (is_user_approved demo_env "8") w' = Ret (is_user_admin demo_env "8").
Proof.
  apply (new_profile_awaits_approval demo_env "8" (PInt 55) demo_world); reflexivity.
Defined.


Lemma current_month_range_holds_the_month_witness :
  ∃ start_of_month end_of_month current_month_year_str,
    get_current_month_start_end demo_world
      = (Ret (start_of_month, end_of_month, current_month_year_str), demo_world) ∧
    start_of_month = "2024-06-01" ∧ end_of_month = "2024-06-30" ∧
    String.leb start_of_month (todays_date_str demo_world) = true ∧
    String.leb (todays_date_str demo_world) end_of_month = true.
Proof.
  destruct (current_month_range_holds_the_month demo_world)
    as (s & e & ym & Hrun & Hs & He & _);
    [cbv [valid_date demo_world today]; change (days_in_month 2024 6) with 30%Z; lia|].
  exists s, e, ym. split; [exact Hrun|].
  assert (s = "2024-06-01" ∧ e = "2024-06-30") as [Es Ee].
  { vm_compute in Hrun. by injection Hrun as -> -> _. }
  by rewrite Es, Ee in *.
Defined.

Lemma month_range_holds_the_month_witness :
  ∃ end_date,
    month_range calendar_env "2024-02" demo_world
      = (Ret (Some ("2024-02-01", end_date)), demo_world) ∧
    end_date = "2024-02-29".
Proof.
  edestruct (month_range_holds_the_month calendar_env "2024-02" 2024 2 eq_refl
               ltac:(lia) ltac:(lia) demo_world) as (s & e & Hrun & _).
  exists e. vm_compute in Hrun. injection Hrun as <- <-. split; vm_compute; reflexivity.
Defined.


Lemma uploaded_receipt_is_in_this_month_witness :
  ∃ query_field query_value context_label start_of_month end_of_month month_str doc,
    get_query_target demo_env "7"
        (after (image_pipeline demo_env 55 "7" "f2" (Some "image/jpeg")) demo_world)
      = (Ret (query_field, query_value, context_label),
         after (image_pipeline demo_env 55 "7" "f2" (Some "image/jpeg")) demo_world) ∧
    get_current_month_start_end
        (after (image_pipeline demo_env 55 "7" "f2" (Some "image/jpeg")) demo_world)
      = (Ret (start_of_month, end_of_month, month_str),
         after (image_pipeline demo_env 55 "7" "f2" (Some "image/jpeg")) demo_world) ∧
    (auto_id demo_env (receipts (db demo_world)), doc)
      ∈ agg_query query_field query_value start_of_month end_of_month
          (receipts (db (after (image_pipeline demo_env 55 "7" "f2" (Some "image/jpeg"))
                               demo_world))).
Proof.
  apply (uploaded_receipt_is_in_this_month demo_env 55 "7" "f2" (Some "image/jpeg")
           "jpeg bytes"
           {[ "store_name" := PStr "Shop"; "date" := PStr "2023-01-01";
              "total_price" := PFloat 15.5%float; "items" := PList [] ]}
           (approved_profile "7") demo_world);
    [reflexivity|reflexivity|reflexivity| |reflexivity|by left].
  cbv [valid_date demo_world today]. change (days_in_month 2024 6) with 30%Z. lia.
Defined.

(** An instance: user 7 is removed from the group [g1] of users 7 and
    9; user 9 stays its only member. *)
Lemma admin_removes_user_from_group_witness :
  ∃ msg w',
    admin_remove_user_from_group demo_env "7" "g1" demo_world_grouped = (Ret msg, w') ∧
    user_profiles (db w')
      = (if py_eq_str (py_get (<["groupId" := PStr "g1"]> (approved_profile "7")) "groupId") "g1"
         then <["7" := left_group (clock demo_world_grouped)
                         (<["groupId" := PStr "g1"]> (approved_profile "7"))]>
                (user_profiles (db demo_world_grouped))
         else user_profiles (db demo_world_grouped)) ∧
    receipts (db w') = receipts (db demo_world_grouped) ∧
    outbox w' = outbox demo_world_grouped ∧
    (∀ gd', groups (db w') !! "g1" = Some gd' →
            ∃ l, gd' !! "memberUserIds" = Some (PList l) ∧ (PStr "7" ∉ l) ∧ l ≠ [] ∧
                 ∀ k, k ≠ "memberUserIds" →
                      gd' !! k = ({[ "groupName" := PStr "Family"; "ownerId" := PStr "1";
                                     "memberUserIds" := PList [PStr "7"; PStr "9"] ]} : dict) !! k) ∧
    (∀ g', g' ≠ "g1" → groups (db w') !! g' = groups (db demo_world_grouped) !! g').
Proof.
  exact (admin_removes_user_from_group demo_env "7" "g1" demo_world_grouped
           (<["groupId" := PStr "g1"]> (approved_profile "7"))
           {[ "groupName" := PStr "Family"; "ownerId" := PStr "1";
              "memberUserIds" := PList [PStr "7"; PStr "9"] ]}
           eq_refl eq_refl eq_refl).
Defined.

Example admin_removes_user_7_from_g1 :
  result (admin_remove_user_from_group demo_env "7" "g1") demo_world_grouped
    = Ret "User `7` removed from group 'Family'." ∧
  (groups (db (after (admin_remove_user_from_group demo_env "7" "g1") demo_world_grouped))
     !! "g1" ≫= (.!! "memberUserIds")) = Some (PList [PStr "9"]) ∧
  (user_profiles (db (after (admin_remove_user_from_group demo_env "7" "g1") demo_world_grouped))
     !! "7" ≫= (.!! "groupId")) = None ∧
  (user_profiles (db (after (admin_remove_user_from_group demo_env "7" "g1") demo_world_grouped))
     !! "9" ≫= (.!! "groupId")) = Some (PStr "g1").
Proof. split_and!; vm_compute; reflexivity. Qed.

(** [str.replace] drops every occurrence of the prefix, also inside the
    id. *)
Example button_payload_with_prefix_inside :
  Py.remove_all "view_receipt_" ("view_receipt_" +:+ "a_view_receipt_b") = "a_b".
Proof. reflexivity. Qed.

(** An instance: user 9 presses the two buttons of receipt [r1], which
    user 7 uploaded. *)
Lemma stranger_cannot_view_or_confirm_witness :
  handle_update demo_env (button_press 9 "del_confirm_req_r1") 55 "9"
      (Some "del_confirm_req_r1") demo_world
    = (Ret OK,
       emit (send_message (PInt 55) "Error: You are not authorized to delete receipt Ref: `r1`."
               None (Some "Markdown")) demo_world) ∧
  handle_update demo_env (button_press 9 "view_receipt_r1") 55 "9"
      (Some "view_receipt_r1") demo_world
    = (Ret OK,
       emit (send_message (PInt 55) "Error: You are not authorized to view receipt `r1`."
               None (Some "Markdown")) demo_world).
Proof.
  split.
  - refine (proj1 (stranger_cannot_view_or_confirm demo_env
                     (button_press 9 "del_confirm_req_r1") 55 "9" "r1" demo_world
                     (approved_profile "9") receipt_r1 _ _ _ _ _ _ _ _ _ _ _));
      [reflexivity|reflexivity|lia|split; [reflexivity|by eexists]|reflexivity|reflexivity
      |reflexivity|discriminate|reflexivity|reflexivity|reflexivity].
  - refine (proj2 (stranger_cannot_view_or_confirm demo_env
                     (button_press 9 "view_receipt_r1") 55 "9" "r1" demo_world
                     (approved_profile "9") receipt_r1 _ _ _ _ _ _ _ _ _ _ _) _);
      [reflexivity|reflexivity|lia|split; [reflexivity|by eexists]|reflexivity|reflexivity
      |reflexivity|discriminate|reflexivity|reflexivity|reflexivity|].
    intros (g & _ & Hnone & _). vm_compute in Hnone. discriminate.
Defined.

Lemma fresh_ids_env_fresh (c : gmap string dict) : c !! auto_id fresh_ids_env c = None.
Proof. apply not_elem_of_dom. cbn. apply is_fresh. Qed.

(** An instance: user 9 uploads a photo; receipt [r1] of user 7 is
    stored as before. *)
Lemma regular_user_leaves_foreign_receipts_witness :
  receipts (db (after (handle_update fresh_ids_env (photo_message 9) 55 "9" None) demo_world))
    !! "r1" = Some receipt_r1.
Proof.
  apply (regular_user_leaves_foreign_receipts fresh_ids_env "9" eq_refl (photo_message 9) 55
           None demo_world "r1" receipt_r1).
  - exact fresh_ids_env_fresh.
  - reflexivity.
  - reflexivity.
  - intros (g & _ & Hnone & _). vm_compute in Hnone. discriminate.
Defined.

(** An instance: user 9, a member of group [g1], presses the button
    that leaves the group. *)
Lemma regular_user_changes_own_profile_only_witness :
  own_profile_only "9" demo_world_grouped
    (after (handle_update demo_env (button_press 9 "leavegroup_action_user") 55 "9"
              (Some "leavegroup_action_user")) demo_world_grouped).
Proof.
  apply (regular_user_changes_own_profile_only demo_env "9"). reflexivity.
Defined.
